(** * The analog watch: time sampler and hand animator

    A shallow embedding of the class [AnalogWatch] and the properties of
    its time sampler [now], of the phase computation in [animateHands],
    of the keyframes and the animation-data cache of [animateHandHelper],
    and of the two-phase playback with [stop].

    Conventions of the embedding:
    - a JavaScript number that holds an integer (a parsed clock component,
      the sample, a cycle length) is a [Z]; where the code divides, the
      integer enters the number type [num] of the class [Number], whose
      instance [binary64] is the IEEE double the program computes with
      and whose instance [exact] is rational arithmetic;
    - [NaN] produced by [parseFloat] or by a missing array element is
      [None];
    - an [async] function is a resumption ([Step]): the code up to the
      next [await], the awaited request, and the continuation; the event
      loop ([Sched], [react]) resolves the awaited promises in any order;
    - the SDK (asset container, animation data, bound animations) is
      modelled by what the code observes of it: a list of named data
      objects, a table of bound animations with their playing flag; its
      calls are taken to succeed. *)

From Stdlib Require Import Ascii String ZArith QArith Qcanon Qabs Lia Lqa.
From Stdlib Require Import PrimFloat FloatOps FloatAxioms.
From stdpp Require Import base option list gmap strings.

Open Scope Z_scope.

(** ** JavaScript string helpers used by [now] *)

Module JS.

(** [String.prototype.split] with a one-character separator: the pieces
    between the occurrences of the separator, empty pieces included. *)
Fixpoint split (sep : ascii) (s : string) : list string :=
  match s with
  | EmptyString => [EmptyString]
  | String c rest =>
      if Ascii.eqb c sep then EmptyString :: split sep rest
      else match split sep rest with
           | piece :: pieces => String c piece :: pieces
           | [] => [String c EmptyString]
           end
  end.

(** The value of a decimal digit character. *)
Definition digitValue (c : ascii) : option Z :=
  let n := nat_of_ascii c in
  if ((48 <=? n) && (n <=? 57))%nat then Some (Z.of_nat (n - 48)) else None.

(** The number read from the longest prefix of decimal digits. *)
Fixpoint parseDigits (acc : Z) (s : string) : Z :=
  match s with
  | EmptyString => acc
  | String c rest =>
      match digitValue c with
      | Some d => parseDigits (10 * acc + d) rest
      | None => acc
      end
  end.

(** [parseFloat] on the strings the time sampler gives it: the longest
    prefix that is a number is read and the rest ignored; a string that
    does not start with a digit is [NaN].  Signs, leading blanks, a
    fraction or an exponent do not occur in a rendered clock component and
    are outside this model. *)
Definition parseFloat (s : string) : option Z :=
  match s with
  | EmptyString => None
  | String c _ =>
      match digitValue c with
      | Some _ => Some (parseDigits 0 s)
      | None => None
      end
  end.

(** Decimal rendering of a natural number, least significant digit
    first onto [suffix]. *)
Definition digitChar (d : nat) : ascii := ascii_of_nat (48 + d).

Fixpoint showDigits (fuel n : nat) (suffix : string) : string :=
  match fuel with
  | O => suffix
  | S fuel' =>
      let s := String (digitChar (n mod 10)) suffix in
      if (n <? 10)%nat then s else showDigits fuel' (n / 10) s
  end.

Definition showNat (n : nat) : string := showDigits (S n) n EmptyString.

(** The two-digit field of a rendered time. *)
Definition twoDigit (n : nat) : string :=
  if (n <? 10)%nat then String "0" (showNat n) else showNat n.

(** A string without the separator, and a string of digits. *)
Fixpoint freeOf (sep : ascii) (s : string) : bool :=
  match s with
  | EmptyString => true
  | String c rest => negb (Ascii.eqb c sep) && freeOf sep rest
  end.

Fixpoint allDigits (s : string) : bool :=
  match s with
  | EmptyString => true
  | String c rest => bool_decide (is_Some (digitValue c)) && allDigits rest
  end.

End JS.

(** ** The time sampler *)

(** A wall-clock reading: hour of the day (0..23), minute, second. *)
Record WallClock := { hour : nat; minute : nat; second : nat }.

(** The hour as a 12-hour clock shows it: 12, 1, 2, ..., 11. *)
Definition hour12 (w : WallClock) : nat :=
  if (hour w mod 12 =? 0)%nat then 12%nat else (hour w mod 12)%nat.

Definition dayPeriod (w : WallClock) : string :=
  if (hour w <? 12)%nat then "AM" else "PM".

(** [Date.prototype.toLocaleTimeString("en-US", { timeZone, hour12: true })]
    applied to a reading already taken in the zone: ["h:mm:ss AM"].  (A
    runtime that puts another blank than a space before the day period
    leaves it in the third piece, behind the seconds; the first two
    pieces, the only ones [now] uses, are the same.) *)
Definition toLocaleTimeString (w : WallClock) : string :=
  JS.showNat (hour12 w) +:+ ":" +:+ JS.twoDigit (minute w) +:+ ":"
    +:+ JS.twoDigit (second w) +:+ " " +:+ dayPeriod w.

(** The part of [WatchOptions] the sampler reads. *)
Record WatchOptions := { timezone : option string }.

(** [options.timezone ? options.timezone : 'Europe/London']: an absent
    or empty identifier is falsy. *)
Definition effectiveTimezone (options : WatchOptions) : string :=
  match timezone options with
  | Some tz => if String.eqb tz "" then "Europe/London" else tz
  | None => "Europe/London"
  end.

Section TimeSampler.

(** The host's clock and timezone database: the wall-clock reading of an
    instant (milliseconds since the epoch, [Date.now()]) in a named
    zone, for the zones the runtime knows ([nowOn] has the case of a
    zone it does not know, on which the rendering throws). *)
Variable zoneTime : string -> Z -> WallClock.

(** The parsed components [t] of [now]. *)
Definition clockFields (options : WatchOptions) (instant : Z) : list (option Z) :=
  let tz := effectiveTimezone options in
  let d := zoneTime tz instant in
  JS.parseFloat <$>
    JS.split ":" (default EmptyString (JS.split " " (toLocaleTimeString d) !! 0%nat)).

(** [AnalogWatch.now]: [t[0] * 3600 + t[1] * 60 + t[0]]. *)
Definition now (options : WatchOptions) (instant : Z) : option Z :=
  let t := clockFields options instant in
  t0 ← mjoin (t !! 0%nat);
  t1 ← mjoin (t !! 1%nat);
  Some (t0 * 3600 + t1 * 60 + t0).

End TimeSampler.

(** A host whose every zone is UTC, for concrete runs. *)
Definition utcTime (tz : string) (instant : Z) : WallClock :=
  let s := instant / 1000 in
  {| hour := Z.to_nat ((s / 3600) mod 24);
     minute := Z.to_nat ((s / 60) mod 60);
     second := Z.to_nat (s mod 60) |}.

(** ** Numbers *)

(** The operations the animator performs on JavaScript numbers ([add]
    serves the statements only).  [toText] stands for the rendering of a
    number inside a template literal: two numbers have the same text
    exactly when JavaScript prints them alike. *)
Class Number (num : Type) := {
  fromZ : Z -> num;
  add : num -> num -> num;
  sub : num -> num -> num;
  mul : num -> num -> num;
  div : num -> num -> num;
  ltb : num -> num -> bool;
  NumText : Type;
  NumText_eq_dec :: EqDecision NumText;
  toText : num -> NumText
}.

Declare Scope num_scope.
Delimit Scope num_scope with num.
Infix "+" := add : num_scope.
Infix "-" := sub : num_scope.
Infix "*" := mul : num_scope.
Infix "/" := div : num_scope.
Infix "<?" := ltb : num_scope.

(** *** IEEE 754 binary64, the numbers of the running program *)

(** An integer as a double; exact below 2^53, which covers every integer
    the watch handles. *)
Fixpoint float_of_pos (p : positive) : float :=
  match p with
  | xH => 1%float
  | xO q => (2 * float_of_pos q)%float
  | xI q => (2 * float_of_pos q + 1)%float
  end.

Definition float_of_Z (z : Z) : float :=
  match z with
  | Z0 => 0%float
  | Zpos p => float_of_pos p
  | Zneg p => (- float_of_pos p)%float
  end.

#[global] Instance spec_float_eq_dec : EqDecision SpecFloat.spec_float.
Proof. solve_decision. Defined.

(** JavaScript prints both zeros as [0] and every NaN as [NaN]; any other
    double has a text of its own. *)
Definition float_text (x : float) : SpecFloat.spec_float :=
  match Prim2SF x with
  | SpecFloat.S754_zero _ => SpecFloat.S754_zero false
  | s => s
  end.

#[global] Instance binary64 : Number float := {|
  fromZ := float_of_Z;
  add := PrimFloat.add;
  sub := PrimFloat.sub;
  mul := PrimFloat.mul;
  div := PrimFloat.div;
  ltb := PrimFloat.ltb;
  NumText := SpecFloat.spec_float;
  toText := float_text
|}.

(** *** Exact rational arithmetic *)

Definition Q_ltb (x y : Q) : bool := negb (Qle_bool y x).

#[global] Instance exact : Number Q := {|
  fromZ := inject_Z;
  add := Qplus;
  sub := Qminus;
  mul := Qmult;
  div := Qdiv;
  ltb := Q_ltb;
  NumText := Qc;
  toText := Q2Qc
|}.

(** ** The hand animator *)

Inductive AnimationWrapMode := Once | Loop.
Inductive AnimationEaseCurves := Linear.
Inductive TargetPath := ActorLocalRotation (placeholder : string).

(** A hand's visual node, by its id. *)
Definition Actor := nat.

(** A playback handle ([Animation]), by its id. *)
Definition Animation := nat.

Section HandAnimator.

Context {num : Type} `{Number num}.

(** The SDK's [DegreesToRadians] constant. *)
Variable DegreesToRadians : num.

Local Open Scope num_scope.

(** The rotation [Quaternion.FromEulerAngles(x, y, z)], kept as the three
    angles it is made from. *)
Record Quaternion := FromEulerAngles { eulerX : num; eulerY : num; eulerZ : num }.

Record Keyframe := { time : num; value : Quaternion }.

Record Track := {
  target : TargetPath;
  easing : AnimationEaseCurves;
  keyframes : list Keyframe
}.

(** The name [`${name} ${init} ${duration}`] under which animation data
    is registered, kept as its three parts: the hand's name and the texts
    of the two numbers.  A number's text holds no blank, so two names are
    the same string exactly when their parts agree. *)
Record AnimationName := {
  handOf : string;
  initText : NumText;
  durationText : NumText
}.

#[global] Instance AnimationName_eq_dec : EqDecision AnimationName.
Proof. solve_decision. Defined.

(** An animation-data asset; [dataId] is the object's identity. *)
Record AnimationData := {
  dataId : nat;
  dataName : AnimationName;
  tracks : list Track
}.

(** The shared asset container: its animation data in order of creation,
    and the next free asset id. *)
Record AssetContainer := {
  animationData : list AnimationData;
  nextAssetId : nat
}.

(** The state of a bound animation inside the host. *)
Record Playback := {
  boundData : AnimationData;
  boundActor : option Actor;
  isPlaying : bool;
  wrapMode : AnimationWrapMode
}.

(** One watch instance together with what it shares with the rest of the
    app: the asset container and the host's animations. *)
Record World := {
  assets : AssetContainer;
  hands : list (string * Actor);
  animations : gmap string Animation;
  engine : gmap Animation Playback;
  nextAnimation : Animation
}.

(** The rotation of a hand by [degrees] about its vertical axis. *)
Definition rotation (degrees : num) : Quaternion :=
  FromEulerAngles (fromZ 0) (degrees * DegreesToRadians) (fromZ 0).

(** [Array.prototype.splice(start, 0, item)]. *)
Definition spliceInsert {A} (start : nat) (item : A) (l : list A) : list A :=
  take start l ++ item :: drop start l.

(** The keyframes built at the head of [animateHandHelper]. *)
Definition buildKeyframes (init duration : num) : list Keyframe :=
  let keyframes :=
    [ {| time := fromZ 0; value := rotation init |};
      {| time := duration; value := rotation (fromZ 360) |} ] in
  if init <? fromZ 180 then
    spliceInsert 1
      {| time := duration / (fromZ 360 - init) * (fromZ 180 - init);
         value := rotation (fromZ 180) |}
      keyframes
  else keyframes.

(** The [switch] of [animateHands]: cycle length, initial angle and
    catch-up duration of a hand for the sample [time].  The sample is an
    integer and [%] is the truncated remainder.  (For a negative sample,
    which the sampler never returns, JavaScript's remainder can be the
    negative zero where [Z.rem] has 0.) *)
Definition handPhase (name : string) (time : Z) : Z * num * num :=
  if String.eqb name "hour" then
    let full := (12 * 3600)%Z in
    let init := fromZ time / fromZ full * fromZ 360 in
    let duration := (fromZ 360 - init) / fromZ 360 * fromZ full in
    (full, init, duration)
  else if String.eqb name "minute" then
    let full := 3600 in
    let init := fromZ (Z.rem time full) / fromZ full * fromZ 360 in
    let duration := (fromZ 360 - init) / fromZ 360 * fromZ full in
    (full, init, duration)
  else if String.eqb name "second" then
    let full := 60 in
    let init := fromZ (Z.rem time full) / fromZ full * fromZ 360 in
    let duration := (fromZ 360 - init) / fromZ 360 * fromZ full in
    (full, init, duration)
  else (0, fromZ 0, fromZ 0).

(** *** The animation-data cache *)

Definition animationName (hand : string) (init duration : num) : AnimationName :=
  {| handOf := hand; initText := toText init; durationText := toText duration |}.

(** [assets.animationData.find(a => a.name == animationName)]. *)
Definition findAnimationData (n : AnimationName) (c : AssetContainer)
  : option AnimationData :=
  List.find (fun a => bool_decide (dataName a = n)) (animationData c).

(** SDK, [assets.createAnimationData(name, data)]: a new asset with a
    fresh id, registered in the container at once.  The SDK refuses data
    whose keyframes are out of sequence in time; the call is modelled as
    accepted, which it is for the keyframes of every sample in
    [0, 43200) ([catchUpInSequence64_all]), and is not for those of the
    hour hand on the samples from 43200 on that [now] returns
    ([hourOutOfSequence64_all]). *)
Definition createAnimationData (n : AnimationName) (ts : list Track)
    (c : AssetContainer) : AnimationData * AssetContainer :=
  let d := {| dataId := nextAssetId c; dataName := n; tracks := ts |} in
  (d, {| animationData := animationData c ++ [d];
         nextAssetId := S (nextAssetId c) |}).

(** The single rotation track of [animationDataLike]. *)
Definition rotationTrack (kfs : list Keyframe) : Track :=
  {| target := ActorLocalRotation "actor"; easing := Linear; keyframes := kfs |}.

(** The lookup of [animateHandHelper] with its creation on a miss. *)
Definition obtainAnimationData (hand : string) (init duration : num)
    (kfs : list Keyframe) (c : AssetContainer) : AnimationData * AssetContainer :=
  let n := animationName hand init duration in
  match findAnimationData n c with
  | Some d => (d, c)
  | None => createAnimationData n [rotationTrack kfs] c
  end.

(** Modelled from the spec: [AnimationData.duration()] is the SDK's; the
    authored duration of animation data is derived from the time of the
    last keyframe of its track. *)
Definition AnimationData_duration (d : AnimationData) : num :=
  match tracks d with
  | t :: _ => match last (keyframes t) with
              | Some k => time k
              | None => fromZ 0
              end
  | [] => fromZ 0
  end.

(** *** State updates *)

Definition withAssets (c : AssetContainer) (w : World) : World :=
  {| assets := c; hands := hands w; animations := animations w;
     engine := engine w; nextAnimation := nextAnimation w |}.

(** [this.animations.set(name, animation)]. *)
Definition setAnimation (hand : string) (a : Animation) (w : World) : World :=
  {| assets := assets w; hands := hands w;
     animations := <[hand := a]> (animations w);
     engine := engine w; nextAnimation := nextAnimation w |}.

Definition withEngine (e : gmap Animation Playback) (w : World) : World :=
  {| assets := assets w; hands := hands w; animations := animations w;
     engine := e; nextAnimation := nextAnimation w |}.

(** [this.hands.get(name)]. *)
Definition handActor (hand : string) (w : World) : option Actor :=
  snd <$> List.find (fun p => String.eqb (fst p) hand) (hands w).

(** SDK, the resolution of [animationData.bind({ actor }, { isPlaying,
    wrapMode })]: the host has a new animation in the requested state. *)
Definition bindAnimation (d : AnimationData) (actor : option Actor)
    (playing : bool) (mode : AnimationWrapMode) (w : World) : Animation * World :=
  let a := nextAnimation w in
  (a, {| assets := assets w; hands := hands w; animations := animations w;
         engine := <[a := {| boundData := d; boundActor := actor;
                             isPlaying := playing; wrapMode := mode |}]> (engine w);
         nextAnimation := S a |}).

(** SDK, [Animation.stop()]. *)
Definition stopPlayback (p : Playback) : Playback :=
  {| boundData := boundData p; boundActor := boundActor p;
     isPlaying := false; wrapMode := wrapMode p |}.

(** [AnalogWatch.stop]: [this.animations.forEach(a => a.stop())]. *)
Definition stop (w : World) : World :=
  withEngine
    (map_fold (fun _ a e => alter stopPlayback a e) (engine w) (animations w)) w.

(** *** Asynchronous functions *)

(** An [async] function run from a state: it has returned, or it is
    suspended at an [await] of a bind or of a timer, with the state it
    has reached and what it does when the awaited promise resolves. *)
Inductive Step (A : Type) : Type :=
| Return (w : World) (a : A)
| AwaitBind (w : World) (data : AnimationData) (actor : option Actor)
    (playing : bool) (mode : AnimationWrapMode)
    (k : Animation -> World -> Step A)
| AwaitTimeout (w : World) (ms : num) (k : World -> Step A).

Arguments Return {A} w a.
Arguments AwaitBind {A} w data actor playing mode k.
Arguments AwaitTimeout {A} w ms k.

(** [await] of an [async] function: the rest runs when it has returned. *)
Fixpoint andThen {A B} (s : Step A) (f : A -> World -> Step B) : Step B :=
  match s with
  | Return w a => f a w
  | AwaitBind w d actor p m k =>
      AwaitBind w d actor p m (fun x w' => andThen (k x w') f)
  | AwaitTimeout w ms k => AwaitTimeout w ms (fun w' => andThen (k w') f)
  end.

(** [AnalogWatch.animateHandHelper]. *)
Definition animateHandHelper (name : string) (init duration : num) (loop : bool)
    (w : World) : Step unit :=
  let keyframes := buildKeyframes init duration in
  let actor := handActor name w in
  let '(animationData, c) :=
    obtainAnimationData name init duration keyframes (assets w) in
  AwaitBind (withAssets c w) animationData actor true (if loop then Loop else Once)
    (fun animation w1 =>
       let w2 := setAnimation name animation w1 in
       if negb loop then
         AwaitTimeout w2 (AnimationData_duration animationData * fromZ 1000)
           (fun w3 => Return w3 tt)
       else Return w2 tt).

(** The callback of [animateHands] for one hand. *)
Definition animateHand (name : string) (time : Z) (w : World) : Step unit :=
  let '(full, init, duration) := handPhase name time in
  andThen (animateHandHelper name init duration false w)
    (fun _ w1 => animateHandHelper name (fromZ 0) (fromZ full) true w1).

(** *** The event loop *)

(** What a suspended pipeline waits for, and its continuation. *)
Inductive Pending :=
| PendingBind (data : AnimationData) (actor : option Actor) (playing : bool)
    (mode : AnimationWrapMode) (k : Animation -> World -> Step unit)
| PendingTimeout (ms : num) (k : World -> Step unit).

(** What a playback harness observes. *)
Inductive Observation :=
| BindRequested (hand : string) (data : AnimationData) (actor : option Actor)
    (playing : bool) (mode : AnimationWrapMode)
| TimeoutRequested (hand : string) (ms : num)
| Resolved (hand : string)
| StopCalled.

(** The watch, the suspended pipeline of each hand, and the
    observations so far. *)
Record Sched := {
  world : World;
  waiting : gmap string Pending;
  observed : list Observation
}.

(** A pipeline has run up to its next [await] or to its end. *)
Definition settle (hand : string) (s : Step unit) (σ : Sched) : Sched :=
  match s with
  | Return w _ =>
      {| world := w; waiting := delete hand (waiting σ); observed := observed σ |}
  | AwaitBind w d actor p m k =>
      {| world := w; waiting := <[hand := PendingBind d actor p m k]> (waiting σ);
         observed := observed σ ++ [BindRequested hand d actor p m] |}
  | AwaitTimeout w ms k =>
      {| world := w; waiting := <[hand := PendingTimeout ms k]> (waiting σ);
         observed := observed σ ++ [TimeoutRequested hand ms] |}
  end.

(** [AnalogWatch.animateHands]: every hand's callback runs, in the order
    of [this.hands.keys()], up to its first [await]. *)
Definition animateHands (time : Z) (σ : Sched) : Sched :=
  foldl (fun σ1 name => settle name (animateHand name time (world σ1)) σ1)
        σ (fst <$> hands (world σ)).

(** [AnalogWatch.start]: [this.animateHands(this.now())], given the
    host's clock.  A sample that is [NaN] is left out: [now] never
    returns one. *)
Definition start (zoneTime : string -> Z -> WallClock) (options : WatchOptions)
    (instant : Z) (σ : Sched) : option Sched :=
  time ← now zoneTime options instant; Some (animateHands time σ).

Definition note (o : Observation) (σ : Sched) : Sched :=
  {| world := world σ; waiting := waiting σ; observed := observed σ ++ [o] |}.

(** The promise a hand's pipeline awaits resolves. *)
Definition resolve (hand : string) (σ : Sched) : Sched :=
  match waiting σ !! hand with
  | Some (PendingBind d actor p m k) =>
      let '(animation, w) := bindAnimation d actor p m (world σ) in
      settle hand (k animation w) (note (Resolved hand) σ)
  | Some (PendingTimeout ms k) =>
      settle hand (k (world σ)) (note (Resolved hand) σ)
  | None => σ
  end.

Definition callStop (σ : Sched) : Sched :=
  {| world := stop (world σ); waiting := waiting σ;
     observed := observed σ ++ [StopCalled] |}.

Inductive Event := PromiseResolves (hand : string) | StopIsCalled.

Definition react (σ : Sched) (e : Event) : Sched :=
  match e with
  | PromiseResolves hand => resolve hand σ
  | StopIsCalled => callStop σ
  end.

Definition run (σ : Sched) (events : list Event) : Sched := foldl react σ events.

(** A watch whose three hands have been created, before [start]. *)
Definition newWatch (c : AssetContainer) : Sched :=
  {| world := {| assets := c;
                 hands := [("hour", 1%nat); ("minute", 2%nat); ("second", 3%nat)];
                 animations := ∅; engine := ∅; nextAnimation := 0%nat |};
     waiting := ∅; observed := [] |}.

Definition emptyContainer : AssetContainer :=
  {| animationData := []; nextAssetId := 0%nat |}.

End HandAnimator.

Arguments Return {num H A} w a.
Arguments AwaitBind {num H A} w data actor playing mode k.
Arguments AwaitTimeout {num H A} w ms k.

(** [Math.PI / 180] in binary64. *)
Definition DegreesToRadians64 : float := (0x1.921fb54442d18p+1 / 180)%float.

(** ** Vocabulary of the statements *)

(** The three hands of an analog watch. *)
Definition theHands : list string := ["hour"; "minute"; "second"].

(** The cycle length [full] of a hand, in seconds, as the spec gives it;
    it is the one [handPhase] computes ([handPhase_full]). *)
Definition cycleLength (name : string) : Z :=
  if String.eqb name "hour" then 43200
  else if String.eqb name "minute" then 3600
  else if String.eqb name "second" then 60
  else 0.

(** A test on every integer of a range, for the finitely many samples
    of a cycle. *)
Fixpoint allFrom (fuel : nat) (z : Z) (P : Z -> bool) : bool :=
  match fuel with
  | O => true
  | S fuel' => P z && allFrom fuel' (z + 1) P
  end.

Definition allBelow (n : Z) (P : Z -> bool) : bool := allFrom (Z.to_nat n) 0 P.

Section Generic.
Context {num : Type} `{Number num}.
Local Open Scope num_scope.

(** The initial angle and the catch-up duration that [animateHands]
    computes for a hand. *)
Definition initAngle (name : string) (time : Z) : num := (handPhase name time).1.2.
Definition catchUpDuration (name : string) (time : Z) : num := (handPhase name time).2.

(** The angle at which the catch-up phase ends when the hand turns at
    its natural rate: [initAngle + catchUpDuration / full * 360]. *)
Definition catchUpEnd (name : string) (time : Z) : num :=
  initAngle name time
  + catchUpDuration name time / fromZ (cycleLength name) * fromZ 360.

(** The spec's formulas: [(sample mod full) / full * 360] and
    [(360 - initAngle) / 360 * full]. *)
Definition specInit (full sample : Z) : num :=
  fromZ (sample mod full) / fromZ full * fromZ 360.

Definition specDuration (full : Z) (init : num) : num :=
  (fromZ 360 - init) / fromZ 360 * fromZ full.

End Generic.

(** The tests run on every sample of a cycle, in binary64: the angle is
    in [0, 360) and the duration positive; the middle keyframe lies
    strictly inside the catch-up phase; the phase ends within 2^-43 of
    360. *)
Definition phaseInRange64 (name : string) (time : Z) : bool :=
  let init := initAngle (num:=float) name time in
  let duration := catchUpDuration (num:=float) name time in
  (0 <=? init)%float && (init <? 360)%float && (0 <? duration)%float.

Definition midpointInside64 (name : string) (time : Z) : bool :=
  let init := initAngle (num:=float) name time in
  let duration := catchUpDuration (num:=float) name time in
  let mid := (duration / (360 - init) * (180 - init))%float in
  if (init <? 180)%float then (0 <? mid)%float && (mid <? duration)%float
  else (180 <=? init)%float.

Definition endsNearWrap64 (name : string) (time : Z) : bool :=
  (abs (catchUpEnd (num:=float) name time - 360) <=? 0x1p-43)%float.

(** The rational number a finite double is. *)
Definition float_to_Q (x : float) : Q :=
  match Prim2SF x with
  | SpecFloat.S754_finite s m e =>
      let q := match e with
               | Zneg p => (Zpos m # Pos.pow 2 p)%Q
               | _ => inject_Z (Zpos m * 2 ^ e)
               end in
      if s then Qopp q else q
  | _ => 0%Q
  end.

(** The end of the catch-up phase, computed exactly from the doubles the
    animator has computed. *)
Definition exactEnd64 (name : string) (time : Z) : Q :=
  (float_to_Q (initAngle (num:=float) name time)
   + float_to_Q (catchUpDuration (num:=float) name time)
     / inject_Z (cycleLength name) * 360)%Q.

Definition exactEndNearWrap64 (name : string) (time : Z) : bool :=
  Qle_bool (Qabs (exactEnd64 name time - 360)) (1 # 2 ^ 43)%Q.

Section CacheVocabulary.
Context {num : Type} `{Number num}.

(** A request for animation data, as [animateHandHelper] makes it, and
    the container after it and after a sequence of them. *)
Record CacheRequest := {
  reqHand : string;
  reqInit : num;
  reqDuration : num;
  reqKeyframes : list (Keyframe (num:=num))
}.

Definition serve (c : AssetContainer) (r : CacheRequest) : AssetContainer :=
  (obtainAnimationData (reqHand r) (reqInit r) (reqDuration r) (reqKeyframes r) c).2.

Definition serveAll (c : AssetContainer) (rs : list CacheRequest) : AssetContainer :=
  foldl serve c rs.

End CacheVocabulary.

Section PipelineVocabulary.
Context {num : Type} `{Number num}.
Variable DegreesToRadians : num.
Local Open Scope num_scope.

(** The observations that concern one hand. *)
Definition about (hand : string) (o : Observation) : bool :=
  match o with
  | BindRequested h _ _ _ _ => String.eqb h hand
  | TimeoutRequested h _ => String.eqb h hand
  | Resolved h => String.eqb h hand
  | StopCalled => false
  end.

Definition handLog (hand : string) (σ : Sched) : list Observation :=
  List.filter (about hand) (observed σ).

Definition resolvesHand (hand : string) (e : Event) : bool :=
  match e with
  | PromiseResolves h => String.eqb h hand
  | StopIsCalled => false
  end.

(** How many promises of a hand's pipeline have resolved. *)
Definition resolutions (hand : string) (events : list Event) : nat :=
  length (List.filter (resolvesHand hand) events).

(** The whole life of a hand's pipeline, as observed: the catch-up bind,
    the timer for the authored duration of the catch-up data, the loop
    bind. *)
Definition phaseLog (hand : string) (d1 : AnimationData) (a1 : option Actor)
    (d2 : AnimationData) (a2 : option Actor) : list Observation :=
  [ BindRequested hand d1 a1 true Once;
    Resolved hand;
    TimeoutRequested hand (AnimationData_duration d1 * fromZ 1000);
    Resolved hand;
    BindRequested hand d2 a2 true Loop;
    Resolved hand ].

(** How much of it has been observed after [k] resolutions. *)
Definition logLength (k : nat) : nat :=
  match k with
  | 0 => 1
  | 1 => 3
  | 2 => 5
  | _ => 6
  end%nat.

(** The continuations of a hand's pipeline. *)
Definition finishes (hand : string) (k : Animation -> World -> Step unit) : Prop :=
  forall a w, k a w = Return (setAnimation hand a w) tt.

Definition startsLoop (hand : string) (full : Z) (k : World -> Step unit) : Prop :=
  forall w, k w = animateHandHelper DegreesToRadians hand (fromZ 0) (fromZ full) true w.

Definition waitsThenLoops (hand : string) (full : Z) (d1 : AnimationData)
    (k : Animation -> World -> Step unit) : Prop :=
  forall a w, exists k2,
    k a w = AwaitTimeout (setAnimation hand a w)
              (AnimationData_duration d1 * fromZ 1000) k2
    /\ startsLoop hand full k2.

(** Where a hand's pipeline stands after [k] resolutions. *)
Definition stage (hand : string) (full : Z) (k : nat)
    (d1 : AnimationData) (a1 : option Actor)
    (d2 : AnimationData) (a2 : option Actor) (σ : Sched) : Prop :=
  handLog hand σ = take (logLength k) (phaseLog hand d1 a1 d2 a2)
  /\ (exists c, d2 = (obtainAnimationData hand (fromZ 0) (fromZ full)
                        (buildKeyframes DegreesToRadians (fromZ 0) (fromZ full)) c).1)
  /\ match k with
     | 0%nat => exists k1, waiting σ !! hand = Some (PendingBind d1 a1 true Once k1)
                      /\ waitsThenLoops hand full d1 k1
     | 1%nat => exists k2, waiting σ !! hand
                      = Some (PendingTimeout (AnimationData_duration d1 * fromZ 1000) k2)
                      /\ startsLoop hand full k2
     | 2%nat => exists k3, waiting σ !! hand = Some (PendingBind d2 a2 true Loop k3)
                      /\ finishes hand k3
     | _ => waiting σ !! hand = None
     end.

(** The hands' callbacks run one after the other, as in [animateHands]. *)
Definition spawn (time : Z) (σ : Sched) (names : list string) : Sched :=
  foldl (fun σ1 name =>
           settle name (animateHand DegreesToRadians name time (world σ1)) σ1)
        σ names.

(** The animation registered for a hand, and whether it plays. *)
Definition handIsPlaying (hand : string) (w : World) : option bool :=
  a ← animations w !! hand; p ← engine w !! a; Some (isPlaying p).

End PipelineVocabulary.

Section StopVocabulary.
Context {num : Type} `{Number num}.

(** What is observed after the first call of [stop]. *)
Fixpoint afterStop (l : list Observation) : list Observation :=
  match l with
  | [] => []
  | StopCalled :: rest => rest
  | _ :: rest => afterStop rest
  end.

(** A request to play an animation: the start of a phase. *)
Definition startsPhase (o : Observation) : bool :=
  match o with
  | BindRequested _ _ _ true _ => true
  | _ => false
  end.

End StopVocabulary.

Section LoopVocabulary.
Context {num : Type} `{Number num}.
Variable DegreesToRadians : num.





End LoopVocabulary.

(** The keyframes of the loop, for the first angle [i]. *)
Definition loopKeyframes (D : float) (name : string) (i : float) : list Keyframe :=
  [ {| time := 0%float; value := rotation D i |};
    {| time := float_of_Z (cycleLength name / 2); value := rotation D 180%float |};
    {| time := float_of_Z (cycleLength name); value := rotation D 360%float |} ].

(** ** Vocabulary of the further properties *)

(** The test of the catch-up duration on a sample, in binary64: it is
    the time left in the cycle, up to 2^-37 seconds. *)
Definition durationIsTimeLeft64 (name : string) (time : Z) : bool :=
  Qle_bool
    (Qabs (float_to_Q (catchUpDuration (num:=float) name time)
           - inject_Z (cycleLength name - time)))
    (1 # 2 ^ 37)%Q.

(** What a call of [now] comes to. *)
Inductive NowOutcome := Returns (sample : Z) | ReturnsNaN | ThrowsRangeError.

(** [AnalogWatch.now] on a runtime that knows the zones [knownZone]:
    [toLocaleTimeString] throws a [RangeError] when its [timeZone] is
    not one the runtime knows, and [now] with it; on a zone it knows,
    [now] goes on as above, with the reading [zoneTime] of the zone. *)
Definition nowOn (knownZone : string -> bool) (zoneTime : string -> Z -> WallClock)
    (options : WatchOptions) (instant : Z) : NowOutcome :=
  if knownZone (effectiveTimezone options) then
    match now zoneTime options instant with
    | Some sample => Returns sample
    | None => ReturnsNaN
    end
  else ThrowsRangeError.

(** Times of keyframes in sequence: the first not below 0 and each next
    one above the one before it.  (The SDK's [createAnimationData]
    refuses a track whose keyframes are not.) *)
Fixpoint increasing64 (prev : float) (times : list float) : bool :=
  match times with
  | [] => true
  | t :: rest => (prev <? t)%float && increasing64 t rest
  end.

Definition inSequence64 (times : list float) : bool :=
  match times with
  | [] => true
  | t :: rest => (0 <=? t)%float && increasing64 t rest
  end.

(** The times of the keyframes of the catch-up phase of a hand at a
    sample, and the test that they are in sequence. *)
Definition catchUpTimes64 (name : string) (sample : Z) : list float :=
  (fun k => time k)
    <$> buildKeyframes DegreesToRadians64 (initAngle (num:=float) name sample)
          (catchUpDuration (num:=float) name sample).

Definition catchUpInSequence64 (name : string) (sample : Z) : bool :=
  inSequence64 (catchUpTimes64 name sample).

Definition catchUpOutOfSequence64 (name : string) (sample : Z) : bool :=
  negb (catchUpInSequence64 name sample).

Section RunVocabulary.
Context {num : Type} `{Number num}.
Variable DegreesToRadians : num.

(** The state a pipeline has reached. *)
Definition stateOf {A} (s : Step A) : World :=
  match s with
  | Return w _ => w
  | AwaitBind w _ _ _ _ _ => w
  | AwaitTimeout w _ _ => w
  end.

(** A property of the state that the callback of a hand keeps: it
    survives the two lookups of the hand (the catch-up data and the loop
    data) and the registration of the hand's animation. *)
Definition handStable (name : string) (time : Z) (R : World -> Prop) : Prop :=
  (forall w, R w ->
     R (withAssets
          (obtainAnimationData name (initAngle name time) (catchUpDuration name time)
             (buildKeyframes DegreesToRadians (initAngle name time)
                (catchUpDuration name time)) (assets w)).2 w))
  /\ (forall w, R w ->
     R (withAssets
          (obtainAnimationData name (fromZ 0) (fromZ (handPhase name time).1.1)
             (buildKeyframes DegreesToRadians (fromZ 0)
                (fromZ (handPhase name time).1.1)) (assets w)).2 w))
  /\ (forall a w, R w -> R (setAnimation name a w)).

(** What a pipeline of a hand asks to bind: data registered in the
    state it has reached, to the actor of the hand. *)
Definition requestFound {A} (name : string) (s : Step A) : Prop :=
  match s with
  | AwaitBind w d actor _ _ _ =>
      findAnimationData (dataName d) (assets w) = Some d
      /\ actor = handActor name w
  | _ => True
  end.

(** A pipeline of a hand does nothing else, at any of its steps. *)
Definition stepSteady (name : string) (time : Z) (w : World) (s : Step unit) : Prop :=
  (forall R, handStable name time R -> R w -> R (stateOf s)) /\ requestFound name s.

Fixpoint steady (name : string) (time : Z) (s : Step unit) : Prop :=
  match s with
  | Return _ _ => True
  | AwaitBind _ _ _ _ _ k =>
      forall a w, stepSteady name time w (k a w) /\ steady name time (k a w)
  | AwaitTimeout _ _ k =>
      forall w, stepSteady name time w (k w) /\ steady name time (k w)
  end.

Definition pendingSteady (name : string) (time : Z) (p : Pending) : Prop :=
  match p with
  | PendingBind _ _ _ _ k =>
      forall a w, stepSteady name time w (k a w) /\ steady name time (k a w)
  | PendingTimeout _ k =>
      forall w, stepSteady name time w (k w) /\ steady name time (k w)
  end.

Definition schedSteady (time : Z) (σ : Sched) : Prop :=
  forall name p, waiting σ !! name = Some p -> pendingSteady name time p.

(** Properties kept by the host's binding of an animation and by
    [stop]. *)
Definition bindStable (R : World -> Prop) : Prop :=
  forall d actor playing mode w, R w -> R (bindAnimation d actor playing mode w).2.

Definition stopStable (R : World -> Prop) : Prop :=
  forall w, R w -> R (stop w).

(** Every bind request observed was for data that is registered, and
    for the actor of its hand. *)
Definition requestsFound (l : list Observation) (w : World) : Prop :=
  forall hand d actor playing mode,
    BindRequested hand d actor playing mode ∈ l ->
    findAnimationData (dataName d) (assets w) = Some d
    /\ actor = handActor hand w.

(** The two names under which the callback of a hand looks data up: the
    catch-up data of the sample and the loop data. *)
Definition requestedNames (name : string) (time : Z) : list AnimationName :=
  [ animationName name (initAngle name time) (catchUpDuration name time);
    animationName name (fromZ 0) (fromZ (handPhase name time).1.1) ].

(** What the host holds for the animation registered for a hand. *)
Definition registered (hand : string) (w : World) : option Playback :=
  a ← animations w !! hand; engine w !! a.

(** The registration of a hand, once its loop bind has resolved: the
    animation [a], bound to [d] and [actor] in [Loop] mode, playing when
    [live]. *)
Definition loops (name : string) (a : Animation) (d : AnimationData)
    (actor : option Actor) (live : Prop) (w : World) : Prop :=
  animations w !! name = Some a
  /\ (a < nextAnimation w)%nat
  /\ findAnimationData (dataName d) (assets w) = Some d
  /\ exists p, engine w !! a = Some p
               /\ boundData p = d /\ boundActor p = actor /\ wrapMode p = Loop
               /\ (live -> isPlaying p = true).

End RunVocabulary.

(** ** The app (app.ts) and the construction of a watch *)

Inductive WatchType := ANALOG | DIGITAL.

#[global] Instance WatchType_eq_dec : EqDecision WatchType.
Proof. solve_decision. Defined.

Definition UserId := nat.

(** [AnalogWatchOptions], as the app hands them to a watch: the type,
    the resources of the watch and of its hands, and the optional
    parent, owner and timezone.  (The display name and the transforms
    play no part in what follows.) *)
Record AnalogWatchOptions := {
  optType : WatchType;
  optResourceId : string;
  optHands : gmap string string;
  optParentId : option Actor;
  optOwner : option UserId;
  optTimezone : option string
}.

(** [{ ...o, parentId }] and [{ ...options, owner, timezone }]. *)
Definition withParentId (parent : Actor) (o : AnalogWatchOptions) : AnalogWatchOptions :=
  {| optType := optType o; optResourceId := optResourceId o; optHands := optHands o;
     optParentId := Some parent; optOwner := optOwner o; optTimezone := optTimezone o |}.

Definition withOwner (user : UserId) (tz : string) (o : AnalogWatchOptions)
  : AnalogWatchOptions :=
  {| optType := optType o; optResourceId := optResourceId o; optHands := optHands o;
     optParentId := optParentId o; optOwner := Some user; optTimezone := Some tz |}.

(** What the sampler reads of them. *)
Definition samplerOptions (o : AnalogWatchOptions) : WatchOptions :=
  {| timezone := optTimezone o |}.

(** An actor of the scene: its parent, the user it is attached to (at
    the left hand), the library resource or the mesh and material it was
    created from. *)
Record SceneActor := {
  actorId : Actor;
  actorParent : option Actor;
  actorAttachment : option UserId;
  actorResource : option string;
  actorMesh : option nat;
  actorMaterial : option nat
}.

(** The host's scene: the actors created, in order, the next free id,
    and the actors on which [destroy] was called. *)
Record Scene := {
  sceneActors : list SceneActor;
  nextActor : Actor;
  destroyed : list Actor
}.

(** SDK, [Actor.Create] and [Actor.CreateFromLibrary]: a new actor with
    a fresh id. *)
Definition createActor (parent : option Actor) (attachment : option UserId)
    (resource : option string) (mesh material : option nat) (s : Scene)
  : Actor * Scene :=
  let a := nextActor s in
  (a, {| sceneActors := sceneActors s ++
           [{| actorId := a; actorParent := parent; actorAttachment := attachment;
               actorResource := resource; actorMesh := mesh;
               actorMaterial := material |}];
         nextActor := S a;
         destroyed := destroyed s |}).

Definition destroyActor (a : Actor) (s : Scene) : Scene :=
  {| sceneActors := sceneActors s; nextActor := nextActor s;
     destroyed := destroyed s ++ [a] |}.

(** A constructed [AnalogWatch]: its options, its base actor and its
    map of hands, in order of insertion. *)
Record AnalogWatchInstance := {
  instOptions : AnalogWatchOptions;
  instWatch : Actor;
  instHands : list (string * Actor)
}.

(** [AnalogWatch.init], up to its [await]: the base actor, attached to
    the owner's left hand if there is an owner and under the parent
    otherwise, then one actor per hand under the base actor, registered
    in [this.hands] under the hand's name ([Map.set] on a new key
    appends). *)
Definition AnalogWatch_init (o : AnalogWatchOptions) (s : Scene)
  : AnalogWatchInstance * Scene :=
  let '(parent, attachment) :=
    match optOwner o with
    | Some u => (None, Some u)
    | None => (optParentId o, None)
    end in
  let '(watch, s1) := createActor parent attachment (Some (optResourceId o)) None None s in
  let '(hs, s2) :=
    foldl (fun '(hs, s') name =>
             let '(actor, s'') :=
               createActor (Some watch) None (optHands o !! name) None None s' in
             (hs ++ [(name, actor)], s''))
          ([], s1) ["hour"; "minute"; "second"] in
  ({| instOptions := o; instWatch := watch; instHands := hs |}, s2).

(** A named asset of the app's container (a mesh or a material). *)
Record NamedAsset := { assetName : string; assetId : nat }.

(** [assets.meshes.find(m => m.name === name)], and the same on the
    materials. *)
Definition findAsset (name : string) (l : list NamedAsset) : option NamedAsset :=
  List.find (fun m => String.eqb (assetName m) name) l.

(** A cell of the [PlanarGridLayout]. *)
Record Cell := { cellRow : nat; cellColumn : nat; cellContents : Actor }.

(** The state of the [App], with the scene of the host and two
    histories: the watches constructed and those on which [remove] was
    called. *)
Record App := {
  url : option string;
  options : list AnalogWatchOptions;
  meshes : list NamedAsset;
  materials : list NamedAsset;
  nextAsset : nat;
  anchor : option Actor;
  gridLayout : list Cell;
  dispensers : list Actor;
  timezones : gmap UserId (option string);
  watches : gmap UserId AnalogWatchInstance;
  scene : Scene;
  constructed : list AnalogWatchInstance;
  removed : list AnalogWatchInstance
}.

(** The constructor of [App]: empty maps, and the material
    ['invisible'] in a new container. *)
Definition newApp (u : option string) : App :=
  {| url := u; options := [];
     meshes := []; materials := [{| assetName := "invisible"; assetId := 0%nat |}];
     nextAsset := 1%nat;
     anchor := None; gridLayout := []; dispensers := [];
     timezones := ∅; watches := ∅;
     scene := {| sceneActors := []; nextActor := 0%nat; destroyed := [] |};
     constructed := []; removed := [] |}.

Definition DEFAULT_WATCHES : list AnalogWatchOptions :=
  [ {| optType := ANALOG;
       optResourceId := "artifact:2070313858047673011";
       optHands := <["hour" := "artifact:2070313857653408432"]>
                     (<["minute" := "artifact:2070313858173502132"]>
                        (<["second" := "artifact:2070313857913455281"]> ∅));
       optParentId := None; optOwner := None; optTimezone := None |} ].

(** [new AnalogWatch(this.context, this.assets, o)], for the app. *)
Definition constructWatch (o : AnalogWatchOptions) (app : App) : App :=
  let '(inst, s) := AnalogWatch_init o (scene app) in
  {| url := url app; options := options app;
     meshes := meshes app; materials := materials app; nextAsset := nextAsset app;
     anchor := anchor app; gridLayout := gridLayout app; dispensers := dispensers app;
     timezones := timezones app; watches := watches app;
     scene := s;
     constructed := constructed app ++ [inst]; removed := removed app |}.

(** The callback of [this.options.map] in [createWatchDispenser], for
    the option [o] at index [i]: the collider mesh is looked up and
    created on a miss, the material is looked up (reading the [id] of a
    material that is not found throws), the collider is created under
    the anchor, a watch of type [ANALOG] is constructed under the
    collider, and the collider is put in column [i] of the grid.  The
    call [translate(o.transform).toJSON()], whose result is not used, is
    left out: [translate] is not part of the sources, and the callback
    is followed as when that call returns. *)
Definition dispense (anchorId : Actor) (o : AnalogWatchOptions) (i : nat) (app : App)
  : option App :=
  let '(mesh, ms, next) :=
    match findAsset "mesh_dispenser_collider" (meshes app) with
    | Some m => (m, meshes app, nextAsset app)
    | None =>
        let m := {| assetName := "mesh_dispenser_collider"; assetId := nextAsset app |} in
        (m, meshes app ++ [m], S (nextAsset app))
    end in
  material ← findAsset "invisible" (materials app);
  let '(collider, s) :=
    createActor (Some anchorId) None None (Some (assetId mesh))
      (Some (assetId material)) (scene app) in
  let app1 :=
    {| url := url app; options := options app;
       meshes := ms; materials := materials app; nextAsset := next;
       anchor := anchor app; gridLayout := gridLayout app;
       dispensers := dispensers app;
       timezones := timezones app; watches := watches app;
       scene := s;
       constructed := constructed app; removed := removed app |} in
  let app2 :=
    match optType o with
    | ANALOG => constructWatch (withParentId collider o) app1
    | DIGITAL => app1
    end in
  Some
    {| url := url app2; options := options app2;
       meshes := meshes app2; materials := materials app2; nextAsset := nextAsset app2;
       anchor := anchor app2;
       gridLayout := gridLayout app2
                     ++ [{| cellRow := 0; cellColumn := i; cellContents := collider |}];
       dispensers := dispensers app2 ++ [collider];
       timezones := timezones app2; watches := watches app2;
       scene := scene app2;
       constructed := constructed app2; removed := removed app2 |}.

(** The callbacks for the options from index [i] on. *)
Fixpoint dispenseAll (anchorId : Actor) (os : list AnalogWatchOptions) (i : nat)
    (app : App) : option App :=
  match os with
  | [] => Some app
  | o :: rest => app' ← dispense anchorId o i app; dispenseAll anchorId rest (S i) app'
  end.

(** [App.createWatchDispenser]: the old anchor, if any, is destroyed, a
    new anchor and a new grid are made, and every option gets its
    dispenser.  ([setButtonBehaviors] gives dispenser [i] the click
    handler [equipWatch(user, i)]: see [Clicked].) *)
Definition createWatchDispenser (app : App) : option App :=
  let s0 := match anchor app with
            | Some a => destroyActor a (scene app)
            | None => scene app
            end in
  let '(anchorId, s1) := createActor None None None None None s0 in
  dispenseAll anchorId (options app) 0
    {| url := url app; options := options app;
       meshes := meshes app; materials := materials app; nextAsset := nextAsset app;
       anchor := Some anchorId; gridLayout := []; dispensers := [];
       timezones := timezones app; watches := watches app;
       scene := s1;
       constructed := constructed app; removed := removed app |}.

(** [App.init], from the moment the options are there: the catalog
    fetched from [url] if there is a (non-empty) [url], the default
    list otherwise. *)
Definition App_init (fetched : list AnalogWatchOptions) (app : App) : option App :=
  let os := match url app with
            | Some u => if String.eqb u "" then DEFAULT_WATCHES else fetched
            | None => DEFAULT_WATCHES
            end in
  createWatchDispenser
    {| url := url app; options := os;
       meshes := meshes app; materials := materials app; nextAsset := nextAsset app;
       anchor := anchor app; gridLayout := gridLayout app; dispensers := dispensers app;
       timezones := timezones app; watches := watches app;
       scene := scene app;
       constructed := constructed app; removed := removed app |}.

(** [timezone ? timezone : 'Europe/London'] of [equipWatch]. *)
Definition equipTimezone (user : UserId) (app : App) : string :=
  match mjoin (timezones app !! user) with
  | Some tz => if String.eqb tz "" then "Europe/London" else tz
  | None => "Europe/London"
  end.

(** [App.equipWatch]: reading the [type] of an option that does not
    exist throws. *)
Definition equipWatch (user : UserId) (i : nat) (app : App) : option App :=
  o ← options app !! i;
  match optType o with
  | ANALOG => Some (constructWatch (withOwner user (equipTimezone user app) o) app)
  | DIGITAL => Some app
  end.

(** [App.userjoined], when the geolocation has resolved: [tzs] is what
    [geoTz.find] returns, and [tzs[0]] is recorded. *)
Definition userjoined (user : UserId) (tzs : list string) (app : App) : App :=
  {| url := url app; options := options app;
     meshes := meshes app; materials := materials app; nextAsset := nextAsset app;
     anchor := anchor app; gridLayout := gridLayout app; dispensers := dispensers app;
     timezones := <[user := head tzs]> (timezones app); watches := watches app;
     scene := scene app;
     constructed := constructed app; removed := removed app |}.

(** [AnalogWatch.remove], seen from the app: the watch is noted as
    removed ([stop] acts on the watch's animations) and its base actor
    is destroyed. *)
Definition removeWatch (inst : AnalogWatchInstance) (app : App) : App :=
  {| url := url app; options := options app;
     meshes := meshes app; materials := materials app; nextAsset := nextAsset app;
     anchor := anchor app; gridLayout := gridLayout app; dispensers := dispensers app;
     timezones := timezones app; watches := watches app;
     scene := destroyActor (instWatch inst) (scene app);
     constructed := constructed app; removed := removed app ++ [inst] |}.

(** [App.userleft]. *)
Definition userleft (user : UserId) (app : App) : App :=
  let app1 :=
    match watches app !! user with
    | Some inst =>
        let app' := removeWatch inst app in
        {| url := url app'; options := options app';
           meshes := meshes app'; materials := materials app';
           nextAsset := nextAsset app';
           anchor := anchor app'; gridLayout := gridLayout app';
           dispensers := dispensers app';
           timezones := timezones app'; watches := delete user (watches app');
           scene := scene app';
           constructed := constructed app'; removed := removed app' |}
    | None => app
    end in
  {| url := url app1; options := options app1;
     meshes := meshes app1; materials := materials app1; nextAsset := nextAsset app1;
     anchor := anchor app1; gridLayout := gridLayout app1; dispensers := dispensers app1;
     timezones := delete user (timezones app1); watches := watches app1;
     scene := scene app1;
     constructed := constructed app1; removed := removed app1 |}.

(** What the host makes happen: the context starts and the options are
    there, the geolocation of a user who joined resolves, a user leaves,
    a user clicks the button of dispenser [i]. *)
Inductive AppEvent :=
| Started (fetched : list AnalogWatchOptions)
| GeolocResolved (user : UserId) (tzs : list string)
| UserLeft (user : UserId)
| Clicked (user : UserId) (i : nat).

(** One event; [None] when a handler throws.  A dispenser that does not
    exist has no button. *)
Definition appReact (app : App) (e : AppEvent) : option App :=
  match e with
  | Started fetched => App_init fetched app
  | GeolocResolved user tzs => Some (userjoined user tzs app)
  | UserLeft user => Some (userleft user app)
  | Clicked user i =>
      if bool_decide (i < length (dispensers app))%nat then equipWatch user i app
      else Some app
  end.

Fixpoint appRun (app : App) (events : list AppEvent) : option App :=
  match events with
  | [] => Some app
  | e :: rest => app' ← appReact app e; appRun app' rest
  end.

(** ** Vocabulary for the app *)

(** What the handlers rely on: the material of the dispensers is there,
    and every dispenser has its option. *)
Definition appReady (app : App) : Prop :=
  is_Some (findAsset "invisible" (materials app))
  /\ length (dispensers app) = length (options app).

(** A watch as its constructor leaves it in the scene: hands
    ['hour'], ['minute'], ['second'], each a distinct actor created from
    the hand's resource under the base actor; the base actor created
    from the watch's resource, attached to the owner if there is one and
    under the parent otherwise. *)
Definition placed (s : Scene) (inst : AnalogWatchInstance) : Prop :=
  let o := instOptions inst in
  fst <$> instHands inst = theHands
  /\ NoDup (instWatch inst :: (snd <$> instHands inst))
  /\ (exists base, base ∈ sceneActors s
        /\ actorId base = instWatch inst
        /\ actorResource base = Some (optResourceId o)
        /\ actorAttachment base = optOwner o
        /\ actorParent base
           = match optOwner o with Some _ => None | None => optParentId o end)
  /\ forall name a, (name, a) ∈ instHands inst ->
       exists hand, hand ∈ sceneActors s
         /\ actorId hand = a
         /\ actorParent hand = Some (instWatch inst)
         /\ actorResource hand = optHands o !! name.

(** The collider of a dispenser in the scene: under the anchor, with
    the mesh of the dispensers. *)
Definition isCollider (anchorId : Actor) (mesh : NamedAsset) (s : Scene) (c : Actor)
  : Prop :=
  exists a, a ∈ sceneActors s
    /\ actorId a = c /\ actorParent a = Some anchorId
    /\ actorMesh a = Some (assetId mesh).

(** The options of the watches of the dispensers: those of type
    [ANALOG], each under its collider. *)
Definition dispensedOptions (os : list AnalogWatchOptions) (cs : list Actor)
  : list AnalogWatchOptions :=
  omap (fun '(o, c) => match optType o with
                       | ANALOG => Some (withParentId c o)
                       | DIGITAL => None
                       end)
       (zip os cs).

(** * Properties *)

(** ** The time sampler *)

Module JSFacts.
Import JS.

Lemma append_cons c (p q : string) : String c p +:+ q = String c (p +:+ q).
Proof. reflexivity. Qed.

Lemma append_assoc (p q r : string) : (p +:+ q) +:+ r = p +:+ (q +:+ r).
Proof.
  induction p as [|c p IH]; [done|]. by rewrite !append_cons, IH.
Qed.

Lemma split_free sep s : freeOf sep s = true -> split sep s = [s].
Proof.
  induction s as [|c rest IH]; simpl; [done|].
  intros [Hc Hrest]%andb_prop.
  apply negb_true_iff in Hc. rewrite Hc, (IH Hrest). done.
Qed.

Lemma split_app_sep sep p rest :
  freeOf sep p = true ->
  split sep (p +:+ String sep rest) = p :: split sep rest.
Proof.
  induction p as [|c p IH].
  - intros _. change (EmptyString +:+ String sep rest) with (String sep rest).
    simpl. by rewrite Ascii.eqb_refl.
  - intros [Hc Hp]%andb_prop. apply negb_true_iff in Hc.
    rewrite append_cons.
    change (split sep (String c (p +:+ String sep rest)))
      with (if Ascii.eqb c sep then EmptyString :: split sep (p +:+ String sep rest)
            else match split sep (p +:+ String sep rest) with
                 | piece :: pieces => String c piece :: pieces
                 | [] => [String c EmptyString]
                 end).
    by rewrite Hc, (IH Hp).
Qed.

Lemma freeOf_app sep s1 s2 :
  freeOf sep (s1 +:+ s2) = freeOf sep s1 && freeOf sep s2.
Proof.
  induction s1 as [|c s1 IH]; [done|].
  rewrite append_cons.
  change (freeOf sep (String c (s1 +:+ s2)))
    with (negb (Ascii.eqb c sep) && freeOf sep (s1 +:+ s2)).
  rewrite IH. simpl. by rewrite andb_assoc.
Qed.

Lemma allDigits_free sep s :
  digitValue sep = None -> allDigits s = true -> freeOf sep s = true.
Proof.
  intros Hsep. induction s as [|c rest IH]; simpl; [done|].
  intros [Hc Hrest]%andb_prop. rewrite (IH Hrest), andb_true_r.
  apply bool_decide_eq_true in Hc. apply negb_true_iff.
  destruct (Ascii.eqb_spec c sep) as [->|]; [|done].
  rewrite Hsep in Hc. by destruct Hc.
Qed.

Lemma digitValue_digitChar d :
  (d < 10)%nat -> digitValue (digitChar d) = Some (Z.of_nat d).
Proof.
  intros Hd. do 10 (destruct d as [|d]; [reflexivity|]). lia.
Qed.

Lemma allDigits_showDigits fuel n suffix :
  allDigits suffix = true -> allDigits (showDigits fuel n suffix) = true.
Proof.
  revert n suffix. induction fuel as [|fuel IH]; intros n suffix Hs;
    cbn [showDigits]; [done|].
  assert (Hd : allDigits (String (digitChar (n mod 10)) suffix) = true).
  { cbn [allDigits]. rewrite Hs, andb_true_r. apply bool_decide_eq_true.
    rewrite digitValue_digitChar; [done|]. apply Nat.mod_upper_bound. lia. }
  destruct (n <? 10)%nat; [done|]. by apply IH.
Qed.

(** Reading back what [showDigits] wrote. *)
Lemma parseDigits_showDigits fuel n suffix :
  (n < fuel)%nat ->
  parseDigits 0 (showDigits fuel n suffix) = parseDigits (Z.of_nat n) suffix.
Proof.
  revert n suffix. induction fuel as [|fuel IH]; intros n suffix Hn; [lia|].
  cbn [showDigits]. destruct (Nat.ltb_spec n 10) as [Hlt|Hge].
  - cbn [parseDigits].
    rewrite digitValue_digitChar by (apply Nat.mod_upper_bound; lia).
    rewrite Nat.mod_small by done. done.
  - rewrite IH.
    + cbn [parseDigits].
      rewrite digitValue_digitChar by (apply Nat.mod_upper_bound; lia).
      f_equal. pose proof (Nat.div_mod_eq n 10). lia.
    + pose proof (Nat.div_lt n 10). lia.
Qed.

Lemma showDigits_head fuel n suffix :
  exists c rest, showDigits (S fuel) n suffix = String c rest
                 /\ is_Some (digitValue c).
Proof.
  revert n suffix. induction fuel as [|fuel IH]; intros n suffix.
  - cbn [showDigits]. destruct (n <? 10)%nat; eexists _, _; (split; [done|]);
      rewrite digitValue_digitChar; try done; apply Nat.mod_upper_bound; lia.
  - change (showDigits (S (S fuel)) n suffix)
      with (if (n <? 10)%nat then String (digitChar (n mod 10)) suffix
            else showDigits (S fuel) (n / 10) (String (digitChar (n mod 10)) suffix)).
    destruct (n <? 10)%nat; [|apply IH].
    eexists _, _; split; [done|].
    rewrite digitValue_digitChar; [done|]. apply Nat.mod_upper_bound; lia.
Qed.

Lemma parseFloat_showNat n : parseFloat (showNat n) = Some (Z.of_nat n).
Proof.
  unfold showNat.
  destruct (showDigits_head n n EmptyString) as (c & rest & Heq & [d Hd]).
  pose proof (parseDigits_showDigits (S n) n EmptyString ltac:(lia)) as Hp.
  rewrite Heq in *. unfold parseFloat. rewrite Hd. by rewrite Hp.
Qed.

Lemma parseFloat_twoDigit n : parseFloat (twoDigit n) = Some (Z.of_nat n).
Proof.
  unfold twoDigit. destruct (n <? 10)%nat; [|apply parseFloat_showNat].
  pose proof (parseFloat_showNat n) as Hp. unfold parseFloat in *.
  change (digitValue "0") with (Some 0).
  change (parseDigits 0 (String "0" (showNat n))) with (parseDigits 0 (showNat n)).
  destruct (showNat n) as [|c rest]; [done|].
  by destruct (digitValue c).
Qed.

Lemma allDigits_showNat n : allDigits (showNat n) = true.
Proof. by apply allDigits_showDigits. Qed.

Lemma allDigits_twoDigit n : allDigits (twoDigit n) = true.
Proof.
  unfold twoDigit. destruct (n <? 10)%nat; [|apply allDigits_showNat].
  simpl. apply allDigits_showNat.
Qed.

End JSFacts.

Section TimeSamplerFacts.

Variable zoneTime : string -> Z -> WallClock.

(** The three components [now] parses out of the rendered time. *)
Lemma clockFields_value options instant :
  let w := zoneTime (effectiveTimezone options) instant in
  clockFields zoneTime options instant
  = [Some (Z.of_nat (hour12 w)); Some (Z.of_nat (minute w));
     Some (Z.of_nat (second w))].
Proof.
  intros w. unfold clockFields. fold w. unfold toLocaleTimeString.
  set (H := JS.showNat (hour12 w)). set (M := JS.twoDigit (minute w)).
  set (S := JS.twoDigit (second w)).
  assert (HH : JS.allDigits H = true) by apply JSFacts.allDigits_showNat.
  assert (HM : JS.allDigits M = true) by apply JSFacts.allDigits_twoDigit.
  assert (HS : JS.allDigits S = true) by apply JSFacts.allDigits_twoDigit.
  change (H +:+ ":" +:+ M +:+ ":" +:+ S +:+ " " +:+ dayPeriod w)
    with (H +:+ String ":" (M +:+ String ":" (S +:+ String " " (dayPeriod w)))).
  replace (H +:+ String ":" (M +:+ String ":" (S +:+ String " " (dayPeriod w))))
    with ((H +:+ String ":" (M +:+ String ":" S)) +:+ String " " (dayPeriod w)).
  2:{ rewrite !JSFacts.append_assoc, !JSFacts.append_cons, !JSFacts.append_assoc.
      done. }
  rewrite JSFacts.split_app_sep.
  2:{ rewrite !JSFacts.freeOf_app. cbn [JS.freeOf].
      rewrite !JSFacts.freeOf_app. cbn [JS.freeOf].
      rewrite !(JSFacts.allDigits_free " ") by done. done. }
  cbn [lookup list_lookup default]. unfold id.
  rewrite !JSFacts.split_app_sep, JSFacts.split_free
    by (by apply JSFacts.allDigits_free).
  cbn [fmap list_fmap]. unfold H, M, S.
  by rewrite JSFacts.parseFloat_showNat, !JSFacts.parseFloat_twoDigit.
Qed.
(** What [now] returns: the second term is the hour again. *)
Lemma now_value options instant :
  let w := zoneTime (effectiveTimezone options) instant in
  now zoneTime options instant
  = Some (Z.of_nat (hour12 w) * 3600 + Z.of_nat (minute w) * 60
          + Z.of_nat (hour12 w)).
Proof.
  intros w. unfold now. rewrite clockFields_value. done.
Qed.

(** A valid reading gives a sample between 3601 and 46752; it is below
    the hour hand's cycle of 43200 exactly when the clock does not show
    12. *)
Lemma now_range options instant sample :
  let w := zoneTime (effectiveTimezone options) instant in
  (minute w < 60)%nat ->
  now zoneTime options instant = Some sample ->
  3601 <= sample <= 46752
  /\ (sample < 43200 <-> hour12 w <> 12%nat).
Proof.
  intros w Hm. rewrite now_value. fold w. intros [= <-].
  assert (Hh : (1 <= hour12 w <= 12)%nat).
  { unfold hour12. pose proof (Nat.mod_upper_bound (hour w) 12).
    destruct (Nat.eqb_spec (hour w mod 12) 0); lia. }
  lia.
Qed.

(** Reduced modulo 60, as the second hand's branch does, the sample is the
    hour shown. *)
Lemma now_rem_60 options instant sample :
  let w := zoneTime (effectiveTimezone options) instant in
  now zoneTime options instant = Some sample ->
  Z.rem sample 60 = Z.of_nat (hour12 w).
Proof.
  intros w. rewrite now_value. fold w. intros [= <-].
  assert (Hh : (1 <= hour12 w <= 12)%nat).
  { unfold hour12. pose proof (Nat.mod_upper_bound (hour w) 12).
    destruct (Nat.eqb_spec (hour w mod 12) 0); lia. }
  rewrite Z.rem_mod_nonneg by lia.
  replace (Z.of_nat (hour12 w) * 3600 + Z.of_nat (minute w) * 60 + Z.of_nat (hour12 w))
    with (Z.of_nat (hour12 w) + (Z.of_nat (hour12 w) * 60 + Z.of_nat (minute w)) * 60)
    by lia.
  rewrite Z.mod_add by lia. apply Z.mod_small. lia.
Qed.

End TimeSamplerFacts.


(** C1: the sample is not [hour*3600 + minute*60 + second].  At the
    reading 1:00:30 the sampler returns 3601, the hour standing in the
    seconds' place, where the claim has 3630. *)
Theorem now_at_one_o_clock_thirty :
  utcTime "Europe/London" 3630000 = {| hour := 1; minute := 0; second := 30 |}
  /\ now utcTime {| timezone := None |} 3630000 = Some 3601
  /\ 3601 <> 1 * 3600 + 0 * 60 + 30.
Proof. split; [reflexivity|]. split; [|lia]. by rewrite now_value. Qed.

(** C4: the sample leaves [0, 43200) at twelve o'clock.  The 12-hour
    clock shows 12, not 0, and at the reading 12:00:00 the sampler
    returns 43212. *)
Theorem now_at_twelve :
  utcTime "Europe/London" 43200000 = {| hour := 12; minute := 0; second := 0 |}
  /\ now utcTime {| timezone := None |} 43200000 = Some 43212
  /\ ~ (0 <= 43212 < 43200).
Proof. split; [reflexivity|]. split; [|lia]. by rewrite now_value. Qed.

(** C9: two instants whose readings in the zone agree on the hour of the
    12-hour clock and on the minute give the same sample, whatever
    their seconds. *)
Theorem now_ignores_seconds (zoneTime : string -> Z -> WallClock)
    (options : WatchOptions) (i1 i2 : Z) :
  let w1 := zoneTime (effectiveTimezone options) i1 in
  let w2 := zoneTime (effectiveTimezone options) i2 in
  hour12 w1 = hour12 w2 ->
  minute w1 = minute w2 ->
  exists sample, now zoneTime options i1 = Some sample
                 /\ now zoneTime options i2 = Some sample.
Proof.
  intros w1 w2 Hh Hm. rewrite !now_value. fold w1 w2. rewrite Hh, Hm. eauto.
Qed.

(** The readings 1:01:01 and 1:01:02 give one sample. *)
Lemma now_ignores_seconds_witness :
  exists sample, now utcTime {| timezone := None |} 3661000 = Some sample
                 /\ now utcTime {| timezone := None |} 3662000 = Some sample.
Proof.
  apply (now_ignores_seconds utcTime {| timezone := None |} 3661000 3662000);
    reflexivity.
Defined.

(** ** Phase arithmetic and keyframes *)

(** *** All samples of a cycle *)

Lemma allFrom_spec fuel z P :
  allFrom fuel z P = true -> forall x, z <= x < z + Z.of_nat fuel -> P x = true.
Proof.
  revert z. induction fuel as [|fuel IH]; intros z Hall x Hx; [lia|].
  cbn [allFrom] in Hall. apply andb_prop in Hall as [Hz Hrest].
  destruct (decide (x = z)) as [->|Hne]; [done|].
  apply (IH (z + 1)); [done|lia].
Qed.

Lemma allBelow_spec n P :
  allBelow n P = true -> forall x, 0 <= x < n -> P x = true.
Proof.
  intros Hall x Hx. apply (allFrom_spec _ _ _ Hall). lia.
Qed.

Lemma theHands_cases (P : string -> Prop) name :
  name ∈ theHands -> P "hour" -> P "minute" -> P "second" -> P name.
Proof.
  unfold theHands. rewrite !elem_of_cons, elem_of_nil.
  intros [->|[->|[->|[]]]]; auto.
Qed.

(** A test that holds on every sample of a cycle, by running it. *)
Ltac bulk_check Ht :=
  match goal with
  | |- ?f ?n ?t = true =>
      apply (allBelow_spec (cycleLength n) (f n)); [vm_compute; reflexivity | exact Ht]
  end.

Lemma phaseInRange64_all name time :
  name ∈ theHands -> 0 <= time < cycleLength name -> phaseInRange64 name time = true.
Proof.
  intros Hname. revert time. pattern name. apply (theHands_cases _ _ Hname);
    intros time Ht; bulk_check Ht.
Qed.

Lemma midpointInside64_all name time :
  name ∈ theHands -> 0 <= time < cycleLength name -> midpointInside64 name time = true.
Proof.
  intros Hname. revert time. pattern name. apply (theHands_cases _ _ Hname);
    intros time Ht; bulk_check Ht.
Qed.

Lemma endsNearWrap64_all name time :
  name ∈ theHands -> 0 <= time < cycleLength name -> endsNearWrap64 name time = true.
Proof.
  intros Hname. revert time. pattern name. apply (theHands_cases _ _ Hname);
    intros time Ht; bulk_check Ht.
Qed.

(** *** The code's formulas *)

Section GenericFacts.
Context {num : Type} `{Number num}.
Variable D : num.
Local Open Scope num_scope.

Lemma buildKeyframes_below init duration :
  (init <? fromZ 180) = true ->
  buildKeyframes D init duration
  = [ {| time := fromZ 0; value := rotation D init |};
      {| time := duration / (fromZ 360 - init) * (fromZ 180 - init);
         value := rotation D (fromZ 180) |};
      {| time := duration; value := rotation D (fromZ 360) |} ].
Proof. intros Hlt. unfold buildKeyframes. by rewrite Hlt. Qed.

Lemma buildKeyframes_above init duration :
  (init <? fromZ 180) = false ->
  buildKeyframes D init duration
  = [ {| time := fromZ 0; value := rotation D init |};
      {| time := duration; value := rotation D (fromZ 360) |} ].
Proof. intros Hlt. unfold buildKeyframes. by rewrite Hlt. Qed.

(** On a non-negative sample (below 43200 for the hour hand, whose
    branch has no [%]) the switch computes the spec's formulas. *)
Lemma handPhase_in_cycle name time :
  name ∈ theHands -> (0 <= time)%Z -> (name = "hour" -> (time < 43200)%Z) ->
  handPhase name time
  = (cycleLength name, specInit (cycleLength name) time,
     specDuration (cycleLength name) (specInit (cycleLength name) time)).
Proof.
  intros Hname. pattern name. apply (theHands_cases _ _ Hname); intros Ht Hhour;
    unfold handPhase, specInit, specDuration, cycleLength; cbn [String.eqb Ascii.eqb Bool.eqb].
  - rewrite Z.mod_small by (specialize (Hhour eq_refl); lia). done.
  - rewrite Z.rem_mod_nonneg by lia. done.
  - rewrite Z.rem_mod_nonneg by lia. done.
Qed.

End GenericFacts.

(** *** Exact arithmetic *)

Lemma Q_ltb_lt (x y : Q) : Q_ltb x y = true <-> (x < y)%Q.
Proof.
  unfold Q_ltb. rewrite negb_true_iff, <- not_true_iff_false, Qle_bool_iff.
  split; [apply Qnot_le_lt | apply Qlt_not_le].
Qed.

Lemma Q_ltb_ge (x y : Q) : Q_ltb x y = false <-> (y <= x)%Q.
Proof. unfold Q_ltb. by rewrite negb_false_iff, Qle_bool_iff. Qed.

Lemma exact_midpoint (init full : Q) :
  (0 <= init)%Q -> (init < 180)%Q -> (0 < full)%Q ->
  let dur := ((360 - init) / 360 * full)%Q in
  (0 < dur / (360 - init) * (180 - init) /\ dur / (360 - init) * (180 - init) < dur)%Q.
Proof.
  intros H0 H1 Hf dur.
  assert (Hd : (dur == (360 - init) * (full / 360))%Q) by (unfold dur; field).
  assert (Hq : (dur / (360 - init) == full / 360)%Q).
  { rewrite Hd. field. lra. }
  assert (Hp : (0 < full / 360)%Q) by (apply Qlt_shift_div_l; lra).
  rewrite Hq, Hd. split; nra.
Qed.

Lemma exact_init_range (r full : Q) :
  (0 <= r)%Q -> (r < full)%Q -> (0 <= r / full * 360 /\ r / full * 360 < 360)%Q.
Proof.
  intros H0 H1.
  assert (Hf : (0 < full)%Q) by lra.
  assert (Ha : (0 <= r / full)%Q) by (apply Qle_shift_div_l; lra).
  assert (Hb : (r / full < 1)%Q) by (apply Qlt_shift_div_r; lra).
  split; lra.
Qed.

Lemma exact_end (r full : Q) :
  (0 < full)%Q ->
  let init := (r / full * 360)%Q in
  let dur := ((360 - init) / 360 * full)%Q in
  (init + dur / full * 360 == 360)%Q.
Proof. intros Hf init dur. unfold dur, init. field. lra. Qed.

Lemma exactEndNearWrap64_all name time :
  name ∈ theHands -> 0 <= time < cycleLength name ->
  exactEndNearWrap64 name time = true.
Proof.
  intros Hname. revert time. pattern name. apply (theHands_cases _ _ Hname);
    intros time Ht; bulk_check Ht.
Qed.

Lemma cycleLength_pos name : name ∈ theHands -> 0 < cycleLength name.
Proof. intros Hname. pattern name. by apply (theHands_cases _ _ Hname). Qed.

Lemma exact_phase name time :
  name ∈ theHands -> 0 <= time < cycleLength name ->
  let full := inject_Z (cycleLength name) in
  let r := inject_Z (time mod cycleLength name) in
  initAngle (num:=Q) name time = (r / full * 360)%Q
  /\ catchUpDuration (num:=Q) name time = ((360 - r / full * 360) / 360 * full)%Q
  /\ (0 <= r)%Q /\ (r < full)%Q.
Proof.
  intros Hname Ht full r.
  pose proof (cycleLength_pos name Hname) as Hpos.
  unfold initAngle, catchUpDuration. rewrite handPhase_in_cycle; try done; try lia.
  - repeat split; try done.
    + unfold r. rewrite <- (Zle_Qle 0). apply Z.mod_pos_bound. done.
    + unfold r, full. rewrite <- Zlt_Qlt. apply Z.mod_pos_bound. done.
  - intros ->. apply Ht.
Qed.

(** *** The claims on the phase *)

(** C2: at the sample 43212, which the sampler returns at 12:00, the
    hour hand's angle is not below 360 and its catch-up duration is
    negative, in binary64 and in exact arithmetic (360.1 and -12), where
    [(sample mod full) / full * 360] is 0.1: the hour branch does not
    reduce the sample modulo [full]. *)
Theorem hour_phase_at_twelve :
  now utcTime {| timezone := None |} 43200000 = Some 43212
  /\ (handPhase (num:=float) "hour" 43212).1.1 = 43200
  /\ (initAngle (num:=float) "hour" 43212 <? 360)%float = false
  /\ (catchUpDuration (num:=float) "hour" 43212 <? 0)%float = true
  /\ (initAngle (num:=Q) "hour" 43212 == 3601 # 10)%Q
  /\ (catchUpDuration (num:=Q) "hour" 43212 == -12 # 1)%Q
  /\ (specInit (num:=Q) 43200 43212 == 1 # 10)%Q.
Proof.
  split; [by rewrite now_value|].
  repeat split; vm_compute; reflexivity.
Qed.

(** C6: the keyframes are three when the initial angle is below 180, the
    middle one holding 180 degrees ([FromEulerAngles(0, 180 *
    DegreesToRadians, 0)]) at the time
    [duration / (360 - init) * (180 - init)], strictly between 0 and
    [duration], and two otherwise; the first holds the initial angle and
    the last 360 degrees: in exact arithmetic for every angle in
    [0, 360) and every positive cycle length, and in binary64 for every
    angle and duration computed from a sample of a hand's cycle. *)
Theorem midpoint_keyframe :
  (forall (D init full : Q),
     (0 <= init < 360)%Q -> (0 < full)%Q ->
     let duration := ((360 - init) / 360 * full)%Q in
     let mid := (duration / (360 - init) * (180 - init))%Q in
     ((init < 180)%Q ->
        buildKeyframes D init duration
        = [ {| time := 0%Q; value := FromEulerAngles 0%Q (init * D)%Q 0%Q |};
            {| time := mid; value := FromEulerAngles 0%Q (180 * D)%Q 0%Q |};
            {| time := duration; value := FromEulerAngles 0%Q (360 * D)%Q 0%Q |} ]
        /\ (0 < mid < duration)%Q)
     /\ ((180 <= init)%Q ->
        buildKeyframes D init duration
        = [ {| time := 0%Q; value := FromEulerAngles 0%Q (init * D)%Q 0%Q |};
            {| time := duration; value := FromEulerAngles 0%Q (360 * D)%Q 0%Q |} ]))
  /\ (forall (D : float) (name : string) (time : Z),
     name ∈ theHands -> 0 <= time < cycleLength name ->
     let init := initAngle (num:=float) name time in
     let duration := catchUpDuration (num:=float) name time in
     let mid := (duration / (360 - init) * (180 - init))%float in
     ((init <? 180)%float = true ->
        buildKeyframes D init duration
        = [ {| time := 0%float; value := FromEulerAngles 0%float (init * D)%float 0%float |};
            {| time := mid; value := FromEulerAngles 0%float (180 * D)%float 0%float |};
            {| time := duration; value := FromEulerAngles 0%float (360 * D)%float 0%float |} ]
        /\ (0 <? mid)%float = true /\ (mid <? duration)%float = true)
     /\ ((init <? 180)%float = false ->
        (180 <=? init)%float = true
        /\ buildKeyframes D init duration
           = [ {| time := 0%float; value := FromEulerAngles 0%float (init * D)%float 0%float |};
               {| time := duration; value := FromEulerAngles 0%float (360 * D)%float 0%float |} ])).
Proof.
  split.
  - intros D init full [H0 H360] Hfull duration mid. split.
    + intros Hlt. split.
      * rewrite (buildKeyframes_below (num:=Q)); [reflexivity|].
        apply Q_ltb_lt. exact Hlt.
      * by apply exact_midpoint.
    + intros Hge. rewrite (buildKeyframes_above (num:=Q)); [reflexivity|].
      apply Q_ltb_ge. exact Hge.
  - intros D name time Hname Ht init duration mid.
    pose proof (midpointInside64_all name time Hname Ht) as Hmid.
    unfold midpointInside64 in Hmid. fold init duration mid in Hmid.
    split; intros Hlt; rewrite Hlt in Hmid.
    + apply andb_prop in Hmid as [? ?].
      split; [|done]. by rewrite (buildKeyframes_below (num:=float)).
    + split; [done|]. by rewrite (buildKeyframes_above (num:=float)).
Qed.

(** The angle 90 of a 60-second cycle, and the minute hand at 61. *)
Lemma midpoint_keyframe_witness :
  (let duration := ((360 - 90) / 360 * 60)%Q in
   let mid := (duration / (360 - 90) * (180 - 90))%Q in
   buildKeyframes (1 # 60) 90%Q duration
   = [ {| time := 0%Q; value := FromEulerAngles 0%Q (90 * (1 # 60))%Q 0%Q |};
       {| time := mid; value := FromEulerAngles 0%Q (180 * (1 # 60))%Q 0%Q |};
       {| time := duration; value := FromEulerAngles 0%Q (360 * (1 # 60))%Q 0%Q |} ]
   /\ (0 < mid < duration)%Q)
  /\ (let init := initAngle (num:=float) "minute" 61 in
      let duration := catchUpDuration (num:=float) "minute" 61 in
      let mid := (duration / (360 - init) * (180 - init))%float in
      buildKeyframes DegreesToRadians64 init duration
      = [ {| time := 0%float; value := FromEulerAngles 0%float (init * DegreesToRadians64)%float 0%float |};
          {| time := mid; value := FromEulerAngles 0%float (180 * DegreesToRadians64)%float 0%float |};
          {| time := duration; value := FromEulerAngles 0%float (360 * DegreesToRadians64)%float 0%float |} ]
      /\ (0 <? mid)%float = true /\ (mid <? duration)%float = true).
Proof.
  split.
  - apply (proj1 midpoint_keyframe (1 # 60) 90%Q 60%Q); lra.
  - apply (proj2 midpoint_keyframe DegreesToRadians64 "minute" 61).
    + apply list_elem_of_further, list_elem_of_here.
    + vm_compute. split; [discriminate|reflexivity].
    + reflexivity.
Defined.

(** C8 as stated fails on the numbers the code computes: for the minute
    hand at sample 14 the angle is in [0, 360) but
    [initAngle + catchUpDuration / full * 360], computed in binary64, is
    strictly between 359 and 360, and computed exactly from the two
    doubles it is [360 - 1/11258999068426240]. *)
Lemma catch_up_end_misses_wrap_point :
  (0 <=? initAngle (num:=float) "minute" 14)%float = true
  /\ (initAngle (num:=float) "minute" 14 <? 360)%float = true
  /\ (359 <? catchUpEnd (num:=float) "minute" 14)%float = true
  /\ (catchUpEnd (num:=float) "minute" 14 <? 360)%float = true
  /\ (exactEnd64 "minute" 14 == 360 - (1 # 11258999068426240))%Q.
Proof. repeat split; vm_compute; reflexivity. Qed.

(** C8, amended: for every hand and every sample of its cycle the angle
    is in [0, 360); the catch-up phase ends at 360 exactly in exact
    arithmetic, and within 2^-43 of 360 on the doubles the code
    computes, the sum being taken in binary64 or exactly. *)
Theorem catch_up_ends_at_wrap_point :
  (forall (name : string) (time : Z),
     name ∈ theHands -> 0 <= time < cycleLength name ->
     (0 <= initAngle (num:=Q) name time < 360)%Q
     /\ (catchUpEnd (num:=Q) name time == 360)%Q)
  /\ (forall (name : string) (time : Z),
     name ∈ theHands -> 0 <= time < cycleLength name ->
     (0 <=? initAngle (num:=float) name time)%float = true
     /\ (initAngle (num:=float) name time <? 360)%float = true
     /\ (abs (catchUpEnd (num:=float) name time - 360) <=? 0x1p-43)%float = true
     /\ (Qabs (exactEnd64 name time - 360) <= 1 # 2 ^ 43)%Q).
Proof.
  split; intros name time Hname Ht.
  - pose proof (exact_phase name time Hname Ht) as Hphase. cbv zeta in Hphase.
    destruct Hphase as (Hi & Hd & Hr0 & Hr1).
    unfold catchUpEnd. rewrite Hd, Hi. split.
    + by apply exact_init_range.
    + apply exact_end. change (0 < inject_Z (cycleLength name))%Q. lra.
  - pose proof (phaseInRange64_all name time Hname Ht) as Hr.
    pose proof (endsNearWrap64_all name time Hname Ht) as He.
    pose proof (exactEndNearWrap64_all name time Hname Ht) as Hx.
    unfold phaseInRange64 in Hr.
    apply andb_prop in Hr as [[? ?]%andb_prop ?].
    apply Qle_bool_iff in Hx. done.
Qed.

(** The minute hand at sample 14. *)
Lemma catch_up_ends_at_wrap_point_witness :
  ((0 <= initAngle (num:=Q) "minute" 14 < 360)%Q
   /\ (catchUpEnd (num:=Q) "minute" 14 == 360)%Q)
  /\ ((0 <=? initAngle (num:=float) "minute" 14)%float = true
      /\ (initAngle (num:=float) "minute" 14 <? 360)%float = true
      /\ (abs (catchUpEnd (num:=float) "minute" 14 - 360) <=? 0x1p-43)%float = true
      /\ (Qabs (exactEnd64 "minute" 14 - 360) <= 1 # 2 ^ 43)%Q).
Proof.
  split.
  - apply (proj1 catch_up_ends_at_wrap_point "minute" 14).
    + apply list_elem_of_further, list_elem_of_here.
    + vm_compute. split; [discriminate|reflexivity].
  - apply (proj2 catch_up_ends_at_wrap_point "minute" 14).
    + apply list_elem_of_further, list_elem_of_here.
    + vm_compute. split; [discriminate|reflexivity].
Defined.

(** ** The animation-data cache *)

Section CacheFacts.
Context {num : Type} `{Number num}.

Lemma find_app_hit {A} (f : A -> bool) l l' x :
  List.find f l = Some x -> List.find f (l ++ l') = Some x.
Proof.
  induction l as [|y l IH]; simpl; [done|]. destruct (f y); [done|apply IH].
Qed.

Lemma find_app_miss {A} (f : A -> bool) l l' :
  List.find f l = None -> List.find f (l ++ l') = List.find f l'.
Proof.
  induction l as [|y l IH]; simpl; [done|]. destruct (f y); [done|apply IH].
Qed.

Lemma findAnimationData_name n c d :
  findAnimationData n c = Some d -> dataName d = n /\ d ∈ animationData c.
Proof.
  unfold findAnimationData. intros Hfind.
  apply List.find_some in Hfind as [Hin Hname].
  apply bool_decide_eq_true in Hname. by rewrite list_elem_of_In.
Qed.

Lemma findAnimationData_none n c :
  findAnimationData n c = None -> n ∉ dataName <$> animationData c.
Proof.
  unfold findAnimationData. intros Hfind Hin.
  apply list_elem_of_fmap in Hin as (d & -> & Hd).
  apply list_elem_of_In in Hd.
  pose proof (List.find_none _ _ Hfind d Hd) as Hneq.
  by apply bool_decide_eq_false in Hneq.
Qed.

(** A hit returns the cached object and registers nothing. *)
Lemma obtainAnimationData_hit hand init duration kfs c d :
  findAnimationData (animationName hand init duration) c = Some d ->
  obtainAnimationData hand init duration kfs c = (d, c).
Proof. unfold obtainAnimationData. by intros ->. Qed.

(** A miss registers exactly one new object, built from the keyframes. *)
Lemma obtainAnimationData_miss hand init duration kfs c :
  findAnimationData (animationName hand init duration) c = None ->
  obtainAnimationData hand init duration kfs c
  = createAnimationData (animationName hand init duration) [rotationTrack kfs] c.
Proof. unfold obtainAnimationData. by intros ->. Qed.

(** What is obtained is afterwards found under the requested name. *)
Lemma obtainAnimationData_found hand init duration kfs c :
  let r := obtainAnimationData hand init duration kfs c in
  findAnimationData (animationName hand init duration) r.2 = Some r.1.
Proof.
  unfold obtainAnimationData.
  destruct (findAnimationData _ c) as [d|] eqn:Hfind; simpl; [done|].
  unfold findAnimationData in *. cbn [createAnimationData animationData fst snd].
  rewrite find_app_miss by exact Hfind.
  cbn [List.find dataName]. by rewrite bool_decide_eq_true_2.
Qed.

Lemma obtainAnimationData_name hand init duration kfs c :
  dataName (obtainAnimationData hand init duration kfs c).1
  = animationName hand init duration.
Proof.
  pose proof (obtainAnimationData_found hand init duration kfs c) as Hf.
  by apply findAnimationData_name in Hf as [? _].
Qed.

(** Serving a request never hides what was found before it. *)
Lemma serve_keeps_found n c r d :
  findAnimationData n c = Some d -> findAnimationData n (serve c r) = Some d.
Proof.
  intros Hfind. unfold serve, obtainAnimationData.
  destruct (findAnimationData (animationName _ _ _) c);
    cbn [snd createAnimationData]; [exact Hfind|].
  unfold findAnimationData in *. cbn [animationData]. by apply find_app_hit.
Qed.

Lemma serveAll_keeps_found n c rs d :
  findAnimationData n c = Some d -> findAnimationData n (serveAll c rs) = Some d.
Proof.
  revert c. induction rs as [|r rs IH]; intros c Hfind; [done|].
  simpl. apply IH. by apply serve_keeps_found.
Qed.

Lemma serve_names_NoDup c r :
  NoDup (dataName <$> animationData c) ->
  NoDup (dataName <$> animationData (serve c r)).
Proof.
  intros Hnd. unfold serve, obtainAnimationData.
  destruct (findAnimationData _ c) eqn:Hfind; simpl; [done|].
  rewrite fmap_app. apply NoDup_app. split; [done|]. split.
  - intros n Hn Hn'. simpl in Hn'. apply list_elem_of_singleton in Hn' as ->.
    by apply findAnimationData_none in Hfind.
  - simpl. apply NoDup_singleton.
Qed.

Lemma serveAll_names_NoDup c rs :
  NoDup (dataName <$> animationData c) ->
  NoDup (dataName <$> animationData (serveAll c rs)).
Proof.
  revert c. induction rs as [|r rs IH]; intros c Hnd; [done|].
  simpl. apply IH. by apply serve_names_NoDup.
Qed.

End CacheFacts.

(** C5: a request first consults the container; a hit returns the cached
    object and leaves the container as it is, a miss registers one new
    object; the same triple requested again, after any other requests,
    yields the very same object and registers nothing; and a container
    filled by requests alone never holds two objects under one name. *)
Theorem animation_data_cached_once {num : Type} `{Number num}
    (c : AssetContainer) (hand : string) (init duration : num)
    (kfs kfs' : list (Keyframe (num:=num))) (between requests : list CacheRequest) :
  let n := animationName hand init duration in
  let first := obtainAnimationData hand init duration kfs c in
  let later := serveAll first.2 between in
  (forall d, findAnimationData n c = Some d -> first = (d, c))
  /\ (findAnimationData n c = None ->
      first.1 = {| dataId := nextAssetId c; dataName := n;
                   tracks := [rotationTrack kfs] |}
      /\ animationData first.2 = animationData c ++ [first.1])
  /\ obtainAnimationData hand init duration kfs' later = (first.1, later)
  /\ NoDup (dataName <$> animationData (serveAll emptyContainer requests)).
Proof.
  intros n first later. repeat split.
  - intros d Hd. by apply obtainAnimationData_hit.
  - unfold first. by rewrite obtainAnimationData_miss.
  - unfold first. by rewrite obtainAnimationData_miss.
  - apply obtainAnimationData_hit, serveAll_keeps_found.
    apply obtainAnimationData_found.
  - apply serveAll_names_NoDup. simpl. apply NoDup_nil_2.
Qed.

(** ** The two-phase playback *)

Section PipelineFacts.
Context {num : Type} `{Number num}.
Variable D : num.
Local Open Scope num_scope.

(** The authored duration of data built from the keyframes of
    [animateHandHelper] is the duration it was called with. *)
Lemma AnimationData_duration_built id n init duration :
  AnimationData_duration
    {| dataId := id; dataName := n;
       tracks := [rotationTrack (buildKeyframes D init duration)] |}
  = duration.
Proof.
  unfold AnimationData_duration, buildKeyframes. cbn [tracks rotationTrack keyframes].
  by destruct (init <? fromZ 180).
Qed.

(** The loop call: one bind in [Loop] mode, then the end. *)
Lemma animateHandHelper_loop name init duration w :
  let r := obtainAnimationData name init duration
             (buildKeyframes D init duration) (assets w) in
  exists k3,
    animateHandHelper D name init duration true w
    = AwaitBind (withAssets r.2 w) r.1 (handActor name w) true Loop k3
    /\ finishes name k3.
Proof.
  intros r. unfold animateHandHelper. fold r. destruct r as [d c].
  eexists. split; [reflexivity|]. intros a w'. reflexivity.
Qed.

(** The callback of a hand: the catch-up bind, then the timer for the
    duration of the catch-up data, then the loop call. *)
Lemma animateHand_shape name time w :
  let init := initAngle name time in
  let duration := catchUpDuration name time in
  let r := obtainAnimationData name init duration
             (buildKeyframes D init duration) (assets w) in
  exists k1,
    animateHand D name time w
    = AwaitBind (withAssets r.2 w) r.1 (handActor name w) true Once k1
    /\ waitsThenLoops D name (handPhase name time).1.1 r.1 k1.
Proof.
  intros init duration r. unfold animateHand.
  unfold init, duration, initAngle, catchUpDuration in r.
  destruct (handPhase name time) as [[full i] d]. cbn [fst snd] in *.
  unfold animateHandHelper at 1. fold r. destruct r as [d1 c].
  cbn [andThen negb fst snd]. eexists. split; [reflexivity|].
  intros a w1. eexists. split; [reflexivity|]. intros w2. reflexivity.
Qed.

(** *** One hand among the others *)

Lemma handLog_observed name σ σ' l :
  observed σ' = observed σ ++ l ->
  handLog name σ' = handLog name σ ++ List.filter (about name) l.
Proof. unfold handLog. intros ->. apply List.filter_app. Qed.

Lemma about_self name d a p m :
  about name (BindRequested name d a p m) = true
  /\ (forall ms, about (num:=num) name (TimeoutRequested name ms) = true)
  /\ about (num:=num) name (Resolved name) = true.
Proof. cbn [about]. by rewrite String.eqb_refl. Qed.

Lemma settle_other h s σ name :
  h <> name ->
  waiting (settle h s σ) !! name = waiting σ !! name
  /\ handLog name (settle h s σ) = handLog name σ.
Proof.
  intros Hne. assert (Heqb : String.eqb h name = false) by by apply String.eqb_neq.
  destruct s as [w u|w d a p m k|w ms k]; cbn [settle waiting].
  - by rewrite lookup_delete_ne.
  - rewrite lookup_insert_ne by done. split; [done|].
    rewrite (handLog_observed name σ _ [BindRequested h d a p m]) by done.
    cbn [List.filter about]. by rewrite Heqb, app_nil_r.
  - rewrite lookup_insert_ne by done. split; [done|].
    rewrite (handLog_observed name σ _ [TimeoutRequested h ms]) by done.
    cbn [List.filter about]. by rewrite Heqb, app_nil_r.
Qed.

Lemma note_other o σ name :
  about name o = false ->
  waiting (note o σ) !! name = waiting σ !! name
  /\ handLog name (note o σ) = handLog name σ.
Proof.
  intros Ho. split; [done|].
  rewrite (handLog_observed name σ _ [o]) by done.
  cbn [List.filter]. by rewrite Ho, app_nil_r.
Qed.

Lemma resolve_other h σ name :
  h <> name ->
  waiting (resolve h σ) !! name = waiting σ !! name
  /\ handLog name (resolve h σ) = handLog name σ.
Proof.
  intros Hne. assert (Heqb : String.eqb h name = false) by by apply String.eqb_neq.
  pose proof (note_other (Resolved h) σ name Heqb) as [Hw Hl].
  unfold resolve. destruct (waiting σ !! h) as [[d a p m k|ms k]|]; [| |done].
  - destruct (bindAnimation d a p m (world σ)) as [animation w].
    destruct (settle_other h (k animation w) (note (Resolved h) σ) name Hne)
      as [-> ->]. done.
  - destruct (settle_other h (k (world σ)) (note (Resolved h) σ) name Hne)
      as [-> ->]. done.
Qed.

Lemma callStop_other σ name :
  waiting (callStop σ) !! name = waiting σ !! name
  /\ handLog name (callStop σ) = handLog name σ.
Proof.
  split; [done|].
  rewrite (handLog_observed name σ _ [StopCalled]) by done.
  cbn [List.filter about]. by rewrite app_nil_r.
Qed.

(** *** The stages of a pipeline *)

Lemma stage_other name full k d1 a1 d2 a2 σ σ' :
  waiting σ' !! name = waiting σ !! name ->
  handLog name σ' = handLog name σ ->
  stage D name full k d1 a1 d2 a2 σ -> stage D name full k d1 a1 d2 a2 σ'.
Proof. unfold stage. by intros -> ->. Qed.

Lemma stage_resolve name full k d1 a1 d2 a2 σ :
  stage D name full k d1 a1 d2 a2 σ ->
  exists d2' a2', stage D name full (S k) d1 a1 d2' a2' (resolve name σ).
Proof.
  intros (Hlog & Hd2 & Hk).
  destruct (about_self name d1 a1 true Once) as (_ & Hat & Har).
  destruct k as [|[|[|k]]].
  - destruct Hk as (k1 & Hw & Hk1). exists d2, a2.
    unfold resolve. rewrite Hw.
    destruct (bindAnimation d1 a1 true Once (world σ)) as [animation w].
    destruct (Hk1 animation w) as (k2 & -> & Hk2).
    split; [|split; [done|]].
    + erewrite handLog_observed; [|cbn [settle note observed]; by rewrite <- app_assoc].
      rewrite Hlog. cbn [List.filter app]. by rewrite Har, Hat.
    + exists k2. cbn [settle waiting]. by rewrite lookup_insert_eq.
  - destruct Hk as (k2 & Hw & Hk2).
    unfold resolve. rewrite Hw, Hk2.
    destruct (animateHandHelper_loop name (fromZ 0) (fromZ full) (world σ))
      as (k3 & -> & Hk3).
    set (r := obtainAnimationData _ _ _ _ _).
    exists r.1, (handActor name (world σ)).
    split; [|split; [by exists (assets (world σ))|]].
    + erewrite handLog_observed; [|cbn [settle note observed]; by rewrite <- app_assoc].
      rewrite Hlog. cbn [List.filter app].
      rewrite Har. by destruct (about_self name r.1 (handActor name (world σ)) true Loop) as (-> & _).
    + exists k3. cbn [settle waiting]. by rewrite lookup_insert_eq.
  - destruct Hk as (k3 & Hw & Hk3). exists d2, a2.
    unfold resolve. rewrite Hw.
    destruct (bindAnimation d2 a2 true Loop (world σ)) as [animation w].
    rewrite Hk3. split; [|split; [done|]].
    + erewrite handLog_observed; [|cbn [settle note observed]; done].
      rewrite Hlog. cbn [List.filter app]. by rewrite Har.
    + cbn [settle waiting]. by rewrite lookup_delete_eq.
  - exists d2, a2. unfold resolve. rewrite Hk. done.
Qed.

Lemma stage_react name full k d1 a1 d2 a2 σ e :
  stage D name full k d1 a1 d2 a2 σ ->
  exists d2' a2',
    stage D name full (k + length (List.filter (resolvesHand name) [e])) d1 a1 d2' a2'
      (react σ e).
Proof.
  intros Hst. destruct e as [h|]; cbn [react List.filter resolvesHand].
  - destruct (String.eqb_spec h name) as [->|Hne].
    + cbn [length]. rewrite Nat.add_1_r. by eapply stage_resolve.
    + cbn [length]. rewrite Nat.add_0_r. exists d2, a2.
      destruct (resolve_other h σ name Hne). by eapply stage_other.
  - cbn [length]. rewrite Nat.add_0_r. exists d2, a2.
    destruct (callStop_other σ name). by eapply stage_other.
Qed.

Lemma stage_run name full events k d1 a1 d2 a2 σ :
  stage D name full k d1 a1 d2 a2 σ ->
  exists d2' a2',
    stage D name full (k + resolutions name events) d1 a1 d2' a2' (run σ events).
Proof.
  revert k d2 a2 σ. induction events as [|e events IH]; intros k d2 a2 σ Hst.
  - exists d2, a2. unfold resolutions. cbn [List.filter length run foldl].
    by rewrite Nat.add_0_r.
  - destruct (stage_react name full k d1 a1 d2 a2 σ e Hst) as (d2' & a2' & Hst').
    destruct (IH _ _ _ _ Hst') as (d2'' & a2'' & Hst'').
    exists d2'', a2''. unfold resolutions in *.
    change (e :: events) with ([e] ++ events).
    rewrite List.filter_app, length_app, Nat.add_assoc. exact Hst''.
Qed.

(** *** Starting the hands *)

Lemma spawn_other time names σ name :
  name ∉ names ->
  waiting (spawn D time σ names) !! name = waiting σ !! name
  /\ handLog name (spawn D time σ names) = handLog name σ.
Proof.
  revert σ. induction names as [|h names IH]; intros σ Hnot; [done|].
  apply not_elem_of_cons in Hnot as [Hne Hnot]. cbn [spawn foldl].
  destruct (IH (settle h (animateHand D h time (world σ)) σ) Hnot) as [Hw Hl].
  unfold spawn in Hw, Hl. rewrite Hw, Hl. by apply settle_other.
Qed.

Lemma spawn_stage time names σ name :
  NoDup names -> name ∈ names -> handLog name σ = [] ->
  exists d1 a1 d2 a2,
    stage D name (handPhase name time).1.1 0 d1 a1 d2 a2 (spawn D time σ names)
    /\ exists c, d1 = (obtainAnimationData name (initAngle name time)
                         (catchUpDuration name time)
                         (buildKeyframes D (initAngle name time)
                            (catchUpDuration name time)) c).1.
Proof.
  revert σ. induction names as [|h names IH]; intros σ Hnd Hin Hlog.
  { by apply elem_of_nil in Hin. }
  apply NoDup_cons in Hnd as [Hfresh Hnd]. cbn [spawn foldl].
  destruct (decide (h = name)) as [->|Hne].
  - destruct (animateHand_shape name time (world σ)) as (k1 & Heq & Hk1).
    set (r := obtainAnimationData _ _ _ _ _) in *.
    set (full := (handPhase name time).1.1) in *.
    set (r2 := obtainAnimationData name (fromZ 0) (fromZ full)
                 (buildKeyframes D (fromZ 0) (fromZ full)) emptyContainer).
    exists r.1, (handActor name (world σ)), r2.1, None.
    split; [|by exists (assets (world σ))].
    eapply stage_other; [apply spawn_other, Hfresh..|].
    rewrite Heq. split; [|split; [by exists emptyContainer|]].
    + erewrite handLog_observed; [|done]. rewrite Hlog.
      cbn [List.filter app].
      by destruct (about_self name r.1 (handActor name (world σ)) true Once) as (-> & _).
    + exists k1. cbn [settle waiting]. by rewrite lookup_insert_eq.
  - apply elem_of_cons in Hin as [->|Hin]; [done|].
    apply IH; [done..|].
    destruct (settle_other h (animateHand D h time (world σ)) σ name Hne) as [_ ->].
    done.
Qed.

(** The whole observed life of a hand's pipeline, under any schedule. *)
Lemma handLog_run (σ0 : Sched) time events name :
  NoDup (fst <$> hands (world σ0)) ->
  name ∈ fst <$> hands (world σ0) ->
  handLog name σ0 = [] ->
  exists d1 a1 d2 a2,
    stage D name (handPhase name time).1.1 (resolutions name events) d1 a1 d2 a2
      (run (animateHands D time σ0) events)
    /\ exists c, d1 = (obtainAnimationData name (initAngle name time)
                         (catchUpDuration name time)
                         (buildKeyframes D (initAngle name time)
                            (catchUpDuration name time)) c).1.
Proof.
  intros Hnd Hin Hlog.
  destruct (spawn_stage time _ σ0 name Hnd Hin Hlog)
    as (d1 & a1 & d2 & a2 & Hst & Hd1).
  destruct (stage_run name _ events 0 d1 a1 d2 a2 _ Hst) as (d2' & a2' & Hst').
  exists d1, a1, d2', a2'. split; [exact Hst'|exact Hd1].
Qed.

(** A run only adds observations. *)
Lemma settle_observed h s (σ : Sched) : exists l, observed (settle h s σ) = observed σ ++ l.
Proof.
  destruct s; cbn [settle observed]; [exists []; by rewrite app_nil_r|eauto..].
Qed.

Lemma react_observed (σ : Sched) e : exists l, observed (react σ e) = observed σ ++ l.
Proof.
  destruct e as [h|]; cbn [react]; [|by eexists].
  unfold resolve. destruct (waiting σ !! h) as [[d a p m k|ms k]|].
  - destruct (bindAnimation d a p m (world σ)) as [animation w].
    destruct (settle_observed h (k animation w) (note (Resolved h) σ)) as [l ->].
    cbn [note observed]. rewrite <- app_assoc. by eexists.
  - destruct (settle_observed h (k (world σ)) (note (Resolved h) σ)) as [l ->].
    cbn [note observed]. rewrite <- app_assoc. by eexists.
  - exists []. by rewrite app_nil_r.
Qed.

Lemma run_observed (σ : Sched) events : exists l, observed (run σ events) = observed σ ++ l.
Proof.
  revert σ. induction events as [|e events IH]; intros σ.
  - exists []. by rewrite app_nil_r.
  - cbn [run foldl]. destruct (IH (react σ e)) as [l Hl].
    destruct (react_observed σ e) as [l' Hl'].
    unfold run in Hl. rewrite Hl, Hl', <- app_assoc. by eexists.
Qed.

End PipelineFacts.

(** [start] always runs [animateHands], on the sample of [now_value]. *)
Lemma start_value {num : Type} `{Number num} (D : num)
    (zoneTime : string -> Z -> WallClock) options instant (σ : Sched) :
  let w := zoneTime (effectiveTimezone options) instant in
  start D zoneTime options instant σ
  = Some (animateHands D
            (Z.of_nat (hour12 w) * 3600 + Z.of_nat (minute w) * 60
             + Z.of_nat (hour12 w)) σ).
Proof. intros w. unfold start. by rewrite now_value. Qed.

Lemma theHands_NoDup : NoDup theHands.
Proof. apply (bool_decide_unpack _). by vm_compute. Qed.


(** ** Stopping *)

Section StopFacts.
Context {num : Type} `{Number num}.
Variable D : num.

(** [stop] halts every animation registered for a hand. *)
Lemma stop_halts (w : World) hand a p :
  animations w !! hand = Some a ->
  engine (stop w) !! a = Some p ->
  isPlaying p = false.
Proof.
  unfold stop. cbn [withEngine engine]. revert hand a p.
  apply (map_fold_weak_ind
           (fun e (m : gmap string Animation) =>
              forall hand a p, m !! hand = Some a -> e !! a = Some p ->
                               isPlaying p = false)).
  - intros hand a p Hm. by rewrite lookup_empty in Hm.
  - intros i x m e Hfresh IH hand a p Hm He.
    destruct (decide (a = x)) as [->|Hne].
    + rewrite lookup_alter_eq in He.
      destruct (e !! x) as [p0|]; [|done]. by injection He as <-.
    + rewrite lookup_alter_ne in He by done.
      rewrite lookup_insert in Hm. case_decide; simplify_eq.
      by eapply IH.
Qed.

(** [stop] leaves the registrations and the suspended pipelines alone. *)
Lemma callStop_keeps (σ : Sched) :
  waiting (callStop σ) = waiting σ
  /\ animations (world (callStop σ)) = animations (world σ)
  /\ observed (callStop σ) = observed σ ++ [StopCalled].
Proof. done. Qed.

Lemma run_app (σ : Sched) events events' :
  run σ (events ++ events') = run (run σ events) events'.
Proof. apply foldl_app. Qed.

End StopFacts.

(** C3, amended: [stop] halts every animation registered for a
    hand of the instance at that moment, whichever phase it is in; it
    cancels nothing that is pending: when the catch-up wait of a hand is
    pending at the call and resolves afterwards, the loop phase of that
    hand is started after the call. *)
Theorem stop_halts_registered_animations {num : Type} `{Number num}
    (D : num) (σ0 : Sched) (time : Z) (name : string)
    (before after : list Event) :
  NoDup (fst <$> hands (world σ0)) ->
  name ∈ fst <$> hands (world σ0) ->
  handLog name σ0 = [] ->
  resolutions name before = 1%nat ->
  (1 <= resolutions name after)%nat ->
  let σ := run (animateHands D time σ0) before in
  (forall hand a p,
     animations (world (callStop σ)) !! hand = Some a ->
     engine (world (callStop σ)) !! a = Some p ->
     isPlaying p = false)
  /\ exists d2 a2 later,
       observed (run (callStop σ) after) = observed σ ++ StopCalled :: later
       /\ BindRequested name d2 a2 true Loop ∈ later.
Proof.
  intros Hnd Hin Hlog Hbefore Hafter σ. split.
  { intros hand a p Ha Hp. exact (stop_halts (world σ) hand a p Ha Hp). }
  destruct (handLog_run D σ0 time before name Hnd Hin Hlog)
    as (d1 & a1 & d2 & a2 & (Hl1 & _ & _) & _).
  destruct (handLog_run D σ0 time (before ++ StopIsCalled :: after) name Hnd Hin Hlog)
    as (d1' & a1' & d2' & a2' & (Hl2 & _ & _) & _).
  rewrite run_app in Hl2. fold σ in Hl1, Hl2.
  change (run σ (StopIsCalled :: after)) with (run (callStop σ) after) in Hl2.
  destruct (run_observed (callStop σ) after) as [later Hlater].
  cbn [callStop observed] in Hlater. rewrite <- app_assoc in Hlater.
  exists d2', a2', later. split; [exact Hlater|].
  rewrite (handLog_observed name σ _ _ Hlater), Hl1, Hbefore in Hl2.
  assert (Hk : resolutions name (before ++ StopIsCalled :: after)
               = S (resolutions name after)).
  { unfold resolutions in *.
    rewrite (List.filter_app (resolvesHand name)), length_app, Hbefore. done. }
  rewrite Hk in Hl2.
  destruct (resolutions name after) as [|k]; [lia|].
  assert (Hfifth : BindRequested name d2' a2' true Loop
                   ∈ List.filter (about name) later).
  { cbn [logLength phaseLog take List.filter about app] in Hl2.
    destruct k; cbn [logLength take] in Hl2;
      injection Hl2 as _ _ _ Hrest; rewrite Hrest;
      apply list_elem_of_further, list_elem_of_here. }
  apply list_elem_of_In, List.filter_In in Hfifth as [Hfifth _].
  by apply list_elem_of_In.
Qed.

(** A new watch at the sample 3661, stopped while the hour hand's wait is
    pending. *)
Lemma stop_halts_registered_animations_witness :
  let σ := run (animateHands DegreesToRadians64 3661 (newWatch emptyContainer))
             [PromiseResolves "hour"] in
  (forall hand a p,
     animations (world (callStop σ)) !! hand = Some a ->
     engine (world (callStop σ)) !! a = Some p ->
     isPlaying p = false)
  /\ exists d2 a2 later,
       observed (run (callStop σ) [PromiseResolves "hour"])
       = observed σ ++ StopCalled :: later
       /\ BindRequested "hour" d2 a2 true Loop ∈ later.
Proof.
  apply (stop_halts_registered_animations DegreesToRadians64
           (newWatch emptyContainer) 3661 "hour"
           [PromiseResolves "hour"] [PromiseResolves "hour"]).
  - exact theHands_NoDup.
  - apply list_elem_of_here.
  - reflexivity.
  - reflexivity.
  - vm_compute. lia.
Defined.

(** C3 as stated fails: the catch-up animation of the hour hand is
    bound, [stop] is called while its wait is pending, the wait resolves
    and the loop bind resolves: a phase has been started after [stop] and
    the hour hand's animation plays. *)
Lemma loop_starts_after_stop :
  let σ := run (animateHands DegreesToRadians64 3661 (newWatch emptyContainer))
             [PromiseResolves "hour"; StopIsCalled] in
  let σ' := run σ [PromiseResolves "hour"; PromiseResolves "hour"] in
  handIsPlaying "hour" (world σ) = Some false
  /\ existsb startsPhase (afterStop (observed σ')) = true
  /\ handIsPlaying "hour" (world σ') = Some true.
Proof. repeat split; vm_compute; reflexivity. Qed.

(** ** The loop's animation data *)

Section BuiltFacts.
Context {num : Type} `{Number num}.
Variable D : num.










End BuiltFacts.

(** *** Texts of doubles *)



Lemma buildKeyframes_loop64 (D : float) name i :
  name ∈ theHands -> i = 0%float \/ i = (-0)%float ->
  buildKeyframes D i (float_of_Z (cycleLength name)) = loopKeyframes D name i.
Proof.
  intros Hname Hi. pattern name. apply (theHands_cases _ _ Hname);
    destruct Hi as [-> | ->]; reflexivity.
Qed.

Lemma handPhase_full {num : Type} `{Number num} name time :
  (handPhase name time).1.1 = cycleLength name.
Proof.
  unfold handPhase, cycleLength.
  by repeat destruct (String.eqb name _).
Qed.

(** *** What the data of a built container hold *)








(** * Further properties *)

(** ** The sample and what the hands show *)

(** X1: on a zone the runtime knows, [now] returns a number, never
    [NaN]: the hour shown by the 12-hour clock times 3600, plus the
    minute times 60, plus that hour again; on a zone it does not know,
    the rendering throws a [RangeError] and [now] returns nothing. *)
Theorem now_closed_form (knownZone : string -> bool)
    (zoneTime : string -> Z -> WallClock)
    (options : WatchOptions) (instant : Z) :
  let tz := effectiveTimezone options in
  let w := zoneTime tz instant in
  nowOn knownZone zoneTime options instant
  = if knownZone tz
    then Returns (Z.of_nat (hour12 w) * 3600 + Z.of_nat (minute w) * 60
                  + Z.of_nat (hour12 w))
    else ThrowsRangeError.
Proof.
  intros tz w. unfold nowOn. fold tz. destruct (knownZone tz); [|done].
  unfold now. rewrite clockFields_value. reflexivity.
Qed.

(** X2: with a minute below 60 the sample lies between 3601 and 46752,
    and it is below the hour hand's cycle of 43200 exactly when the clock
    does not show 12. *)
Theorem now_sample_range (zoneTime : string -> Z -> WallClock)
    (options : WatchOptions) (instant sample : Z) :
  let w := zoneTime (effectiveTimezone options) instant in
  (minute w < 60)%nat ->
  now zoneTime options instant = Some sample ->
  3601 <= sample <= 46752
  /\ (sample < 43200 <-> hour12 w <> 12%nat).
Proof.
  intros w Hm Hnow. exact (now_range zoneTime options instant sample Hm Hnow).
Qed.

(** The reading 11:59:59 gives 43151. *)
Lemma now_sample_range_witness :
  3601 <= 43151 <= 46752
  /\ (43151 < 43200
      <-> hour12 (utcTime (effectiveTimezone {| timezone := None |}) 43199000)
          <> 12%nat).
Proof.
  apply (now_sample_range utcTime {| timezone := None |} 43199000 43151).
  - vm_compute. lia.
  - by rewrite now_value.
Defined.

Section HandsShow.
Context {num : Type} `{Number num}.
Local Open Scope num_scope.

(** The remainders the minute and second branches take of a sample. *)
Lemma sample_rem (h m : nat) :
  (1 <= h <= 12)%nat -> (m < 60)%nat ->
  let sample := (Z.of_nat h * 3600 + Z.of_nat m * 60 + Z.of_nat h)%Z in
  Z.rem sample 3600 = (Z.of_nat m * 60 + Z.of_nat h)%Z
  /\ Z.rem sample 60 = Z.of_nat h.
Proof.
  intros Hh Hm sample. unfold sample. rewrite !Z.rem_mod_nonneg by lia. split.
  - replace (Z.of_nat h * 3600 + Z.of_nat m * 60 + Z.of_nat h)%Z
      with (Z.of_nat m * 60 + Z.of_nat h + Z.of_nat h * 3600)%Z by lia.
    rewrite Z.mod_add by lia. apply Z.mod_small. lia.
  - replace (Z.of_nat h * 3600 + Z.of_nat m * 60 + Z.of_nat h)%Z
      with (Z.of_nat h + (Z.of_nat h * 60 + Z.of_nat m) * 60)%Z by lia.
    rewrite Z.mod_add by lia. apply Z.mod_small. lia.
Qed.

Lemma hour12_range (w : WallClock) : (1 <= hour12 w <= 12)%nat.
Proof.
  unfold hour12. pose proof (Nat.mod_upper_bound (hour w) 12).
  destruct (Nat.eqb_spec (hour w mod 12) 0); lia.
Qed.

End HandsShow.

(** X3: what the hands are set to from the sample of a reading [h:m:s]
    ([h] the hour shown, minute below 60): the second hand starts from
    [h / 60 * 360], the minute hand from [(60 m + h) / 3600 * 360], the
    hour hand from [(3600 h + 60 m + h) / 43200 * 360]: in degrees [6 h],
    [6 m + h / 10] and [30 h + m / 2 + h / 120].  The seconds of the
    reading have no part in it. *)
Theorem hands_start_from_hour_and_minute {num : Type} `{Number num}
    (zoneTime : string -> Z -> WallClock) (options : WatchOptions)
    (instant sample : Z) :
  let w := zoneTime (effectiveTimezone options) instant in
  let h := Z.of_nat (hour12 w) in
  let m := Z.of_nat (minute w) in
  (minute w < 60)%nat ->
  now zoneTime options instant = Some sample ->
  (initAngle "second" sample = fromZ h / fromZ 60 * fromZ 360
   /\ initAngle "minute" sample = fromZ (m * 60 + h) / fromZ 3600 * fromZ 360
   /\ initAngle "hour" sample
      = fromZ (h * 3600 + m * 60 + h) / fromZ 43200 * fromZ 360)%num
  /\ (initAngle (num:=Q) "second" sample == 6 * inject_Z h
      /\ initAngle (num:=Q) "minute" sample == 6 * inject_Z m + inject_Z h / 10
      /\ initAngle (num:=Q) "hour" sample
         == 30 * inject_Z h + inject_Z m / 2 + inject_Z h / 120)%Q.
Proof.
  intros w h m Hm. rewrite now_value. fold w. intros [= <-].
  pose proof (hour12_range w) as Hh.
  destruct (sample_rem (hour12 w) (minute w) Hh Hm) as [Hr3600 Hr60].
  unfold initAngle, handPhase. cbn [String.eqb Ascii.eqb Bool.eqb fst snd].
  rewrite Hr3600, Hr60. fold h m. split; [done|].
  cbn [fromZ div mul exact]. rewrite !inject_Z_plus, !inject_Z_mult.
  repeat split; field.
Qed.

(** The reading 1:01:01: sample 3661. *)
Lemma hands_start_from_hour_and_minute_witness :
  (initAngle (num:=float) "second" 3661 = 1 / 60 * 360
   /\ initAngle (num:=float) "minute" 3661 = 61 / 3600 * 360
   /\ initAngle (num:=float) "hour" 3661 = 3661 / 43200 * 360)%float
  /\ (initAngle (num:=Q) "second" 3661 == 6 * 1
      /\ initAngle (num:=Q) "minute" 3661 == 6 * 1 + 1 / 10
      /\ initAngle (num:=Q) "hour" 3661 == 30 * 1 + 1 / 2 + 1 / 120)%Q.
Proof.
  exact (hands_start_from_hour_and_minute (num:=float) utcTime {| timezone := None |}
           3661000 3661 ltac:(vm_compute; lia) eq_refl).
Defined.

(** ** The catch-up phase in seconds and degrees *)

Lemma durationIsTimeLeft64_all name time :
  name ∈ theHands -> 0 <= time < cycleLength name ->
  durationIsTimeLeft64 name time = true.
Proof.
  intros Hname. revert time. pattern name. apply (theHands_cases _ _ Hname);
    intros time Ht; bulk_check Ht.
Qed.

(** X4: the catch-up duration is the time left in the hand's cycle:
    [full - sample] seconds for a sample of the cycle, exactly in exact
    arithmetic and up to 2^-37 seconds on the doubles. *)
Theorem catch_up_duration_is_time_left (name : string) (time : Z) :
  name ∈ theHands -> 0 <= time < cycleLength name ->
  (catchUpDuration (num:=Q) name time == inject_Z (cycleLength name - time))%Q
  /\ (Qabs (float_to_Q (catchUpDuration (num:=float) name time)
            - inject_Z (cycleLength name - time)) <= 1 # 2 ^ 37)%Q.
Proof.
  intros Hname Ht. split.
  - pose proof (exact_phase name time Hname Ht) as Hphase. cbv zeta in Hphase.
    destruct Hphase as (_ & -> & _ & _).
    pose proof (cycleLength_pos name Hname) as Hpos.
    rewrite Z.mod_small by lia.
    unfold Zminus. rewrite inject_Z_plus, inject_Z_opp.
    assert (Hne : ~ (inject_Z (cycleLength name) == 0)%Q).
    { rewrite (Zlt_Qlt 0) in Hpos. change (inject_Z 0) with 0%Q in Hpos. lra. }
    field. exact Hne.
  - apply Qle_bool_iff. by apply durationIsTimeLeft64_all.
Qed.

(** The hour hand at the sample 3661: 39539 seconds. *)
Lemma catch_up_duration_is_time_left_witness :
  (catchUpDuration (num:=Q) "hour" 3661 == inject_Z (cycleLength "hour" - 3661))%Q
  /\ (Qabs (float_to_Q (catchUpDuration (num:=float) "hour" 3661)
            - inject_Z (cycleLength "hour" - 3661)) <= 1 # 2 ^ 37)%Q.
Proof.
  apply (catch_up_duration_is_time_left "hour" 3661).
  - apply list_elem_of_here.
  - vm_compute. split; [discriminate|reflexivity].
Defined.

(** X5: in exact arithmetic the keyframes that [animateHandHelper]
    builds for the catch-up phase make the hand turn at its natural rate
    of [360 / full] degrees per second from each keyframe to the next:
    the keyframes are rotations about the vertical axis alone, from the
    initial angle at time 0 to 360 degrees, through 180 degrees when the
    initial angle is below 180, and between two of them the angle
    (read off the keyframes, in radians) grows by [360 / full] degrees
    for every second. *)
Theorem catch_up_turns_at_natural_rate (D init full : Q) :
  (0 <= init < 360)%Q -> (0 < full)%Q ->
  let duration := ((360 - init) / 360 * full)%Q in
  let kfs := buildKeyframes (num:=Q) D init duration in
  let steady k k' :=
    ((eulerY (value k') - eulerY (value k)) * full
     == 360 * D * (time k' - time k))%Q in
  Forall (fun k => eulerX (value k) == 0 /\ eulerZ (value k) == 0)%Q kfs
  /\ match kfs with
     | [k0; k1; k2] =>
         (init < 180 /\ time k0 == 0
          /\ eulerY (value k0) == init * D
          /\ eulerY (value k1) == 180 * D
          /\ eulerY (value k2) == 360 * D)%Q
         /\ steady k0 k1 /\ steady k1 k2
     | [k0; k1] =>
         (180 <= init /\ time k0 == 0
          /\ eulerY (value k0) == init * D
          /\ eulerY (value k1) == 360 * D)%Q
         /\ steady k0 k1
     | _ => False
     end.
Proof.
  intros [H0 H360] Hfull duration kfs steady. subst kfs steady.
  destruct (@ltb Q exact init (@fromZ Q exact 180)) eqn:Hlt.
  - rewrite (buildKeyframes_below D init duration Hlt).
    apply (Q_ltb_lt init 180) in Hlt.
    cbn [time value rotation eulerX eulerY eulerZ fromZ exact sub mul div].
    unfold duration. change (inject_Z 0) with 0%Q. change (inject_Z 180) with 180%Q.
    change (inject_Z 360) with 360%Q.
    split; [by repeat constructor|].
    split; [by repeat split|]. split; field; lra.
  - rewrite (buildKeyframes_above D init duration Hlt).
    apply (Q_ltb_ge init 180) in Hlt.
    cbn [time value rotation eulerX eulerY eulerZ fromZ exact sub mul div].
    unfold duration. change (inject_Z 0) with 0%Q. change (inject_Z 360) with 360%Q.
    split; [by repeat constructor|].
    split; [by repeat split|]. field.
Qed.

(** The angle 90 in a cycle of 60 seconds, with one degree for a unit of
    angle: 15 seconds to the middle keyframe, 30 more to the end. *)
Lemma catch_up_turns_at_natural_rate_witness :
  let kfs := buildKeyframes (num:=Q) 1%Q 90%Q ((360 - 90) / 360 * 60)%Q in
  (time <$> kfs !! 1%nat = Some ((360 - 90) / 360 * 60 / (inject_Z 360 - 90)
                                 * (inject_Z 180 - 90))%Q)
  /\ Forall (fun k => eulerX (value k) == 0 /\ eulerZ (value k) == 0)%Q kfs
  /\ match kfs with
     | [k0; k1; k2] =>
         (90 < 180 /\ time k0 == 0
          /\ eulerY (value k0) == 90 * 1
          /\ eulerY (value k1) == 180 * 1
          /\ eulerY (value k2) == 360 * 1)%Q
         /\ ((eulerY (value k1) - eulerY (value k0)) * 60
             == 360 * 1 * (time k1 - time k0))%Q
         /\ ((eulerY (value k2) - eulerY (value k1)) * 60
             == 360 * 1 * (time k2 - time k1))%Q
     | [k0; k1] =>
         (180 <= 90 /\ time k0 == 0
          /\ eulerY (value k0) == 90 * 1
          /\ eulerY (value k1) == 360 * 1)%Q
         /\ ((eulerY (value k1) - eulerY (value k0)) * 60
             == 360 * 1 * (time k1 - time k0))%Q
     | _ => False
     end.
Proof.
  split; [reflexivity|].
  exact (catch_up_turns_at_natural_rate 1%Q 90%Q 60%Q ltac:(lra) ltac:(lra)).
Defined.

(** ** What [stop] touches *)

Section StopFrame.
Context {num : Type} `{Number num}.

Lemma stopPlayback_twice (p : Playback) : stopPlayback (stopPlayback p) = stopPlayback p.
Proof. reflexivity. Qed.

(** Every animation of the host is, after [stop], halted if it is
    registered for a hand and as before if it is not. *)
Lemma stop_engine (w : World) (a : Animation) :
  ((exists hand, animations w !! hand = Some a)
   /\ engine (stop w) !! a = stopPlayback <$> engine w !! a)
  \/ (~ (exists hand, animations w !! hand = Some a)
      /\ engine (stop w) !! a = engine w !! a).
Proof.
  unfold stop. cbn [withEngine engine]. revert a.
  apply (map_fold_weak_ind
           (fun e (m : gmap string Animation) =>
              forall a,
                ((exists hand, m !! hand = Some a)
                 /\ e !! a = stopPlayback <$> engine w !! a)
                \/ (~ (exists hand, m !! hand = Some a)
                    /\ e !! a = engine w !! a))).
  - intros a. right. split; [|done]. intros [hand Hhand].
    by rewrite lookup_empty in Hhand.
  - intros i x m e Hfresh IH a.
    destruct (decide (a = x)) as [->|Hne].
    + left. split; [exists i; by rewrite lookup_insert_eq|].
      rewrite lookup_alter_eq.
      destruct (IH x) as [[_ ->]|[_ ->]]; [|done].
      by destruct (engine w !! x).
    + rewrite lookup_alter_ne by done.
      destruct (IH a) as [[[hand Hhand] He]|[Hnot He]].
      * left. split; [|done]. exists hand.
        rewrite lookup_insert_ne; [done|]. intros ->. by rewrite Hfresh in Hhand.
      * right. split; [|done]. intros [hand Hhand].
        rewrite lookup_insert in Hhand. case_decide; simplify_eq.
        apply Hnot. by exists hand.
Qed.

End StopFrame.

(** X6: [stop] changes nothing but the playing flag of the animations
    registered for the hands of this instance: an animation of the host
    that is registered for none of them (another watch's) is as before,
    and the registrations, the hands, the asset container and the mode,
    data and actor of every animation are kept. *)
Theorem stop_touches_own_animations_only {num : Type} `{Number num}
    (w : World) (a : Animation) :
  ((exists hand, animations w !! hand = Some a) ->
     engine (stop w) !! a = stopPlayback <$> engine w !! a)
  /\ (~ (exists hand, animations w !! hand = Some a) ->
     engine (stop w) !! a = engine w !! a)
  /\ (forall p, engine (stop w) !! a = Some p ->
        exists p0, engine w !! a = Some p0
                   /\ boundData p = boundData p0 /\ boundActor p = boundActor p0
                   /\ wrapMode p = wrapMode p0)
  /\ animations (stop w) = animations w
  /\ hands (stop w) = hands w
  /\ assets (stop w) = assets w.
Proof.
  repeat split.
  - intros Hreg. by destruct (stop_engine w a) as [[_ ?]|[? _]].
  - intros Hnot. by destruct (stop_engine w a) as [[? _]|[_ ?]].
  - intros p Hp. destruct (stop_engine w a) as [[_ He]|[_ He]]; rewrite He in Hp.
    + destruct (engine w !! a) as [p0|]; [|done]. injection Hp as <-. by exists p0.
    + by exists p.
Qed.

(** X7: stopping twice is stopping once. *)
Theorem stop_idempotent {num : Type} `{Number num} (w : World) :
  stop (stop w) = stop w.
Proof.
  assert (He : engine (stop (stop w)) = engine (stop w)).
  { apply map_eq. intros a.
    destruct (stop_engine (stop w) a) as [[Hreg ->]|[_ ->]]; [|done].
    destruct (stop_engine w a) as [[_ ->]|[Hnot _]]; [|by destruct Hnot].
    by destruct (engine w !! a). }
  transitivity (withEngine (engine (stop (stop w))) (stop w)); [reflexivity|].
  rewrite He. reflexivity.
Qed.

(** ** What a run keeps *)

Section RunFacts.
Context {num : Type} `{Number num}.
Variable D : num.

Lemma settle_world hand (s : Step unit) (σ : Sched) : world (settle hand s σ) = stateOf s.
Proof. by destruct s. Qed.

Lemma animateHandHelper_loop_steady name time w :
  let s := animateHandHelper D name (fromZ 0) (fromZ (handPhase name time).1.1) true w in
  stepSteady D name time w s /\ steady D name time s.
Proof.
  intros s. unfold s.
  destruct (animateHandHelper_loop D name (fromZ 0) (fromZ (handPhase name time).1.1) w)
    as (k3 & -> & Hk3).
  split; [split|].
  - intros R (_ & Hloop & _) Hw. by apply Hloop.
  - cbn [requestFound withAssets assets]. split; [|done].
    rewrite obtainAnimationData_name. apply obtainAnimationData_found.
  - intros a w'. rewrite Hk3. split; [|done]. split; [|done].
    intros R (_ & _ & Hset) Hw'. by apply Hset.
Qed.

Lemma animateHand_steady name time w :
  let s := animateHand D name time w in
  stepSteady D name time w s /\ steady D name time s.
Proof.
  intros s. unfold s.
  destruct (animateHand_shape D name time w) as (k1 & -> & Hk1).
  split; [split|].
  - intros R (Hcatch & _ & _) Hw. by apply Hcatch.
  - cbn [requestFound withAssets assets]. split; [|done].
    rewrite obtainAnimationData_name. apply obtainAnimationData_found.
  - intros a w1. destruct (Hk1 a w1) as (k2 & -> & Hk2). split.
    + split; [|done]. intros R (_ & _ & Hset) Hw1. by apply Hset.
    + intros w2. rewrite Hk2. apply animateHandHelper_loop_steady.
Qed.

Lemma settle_steady hand time (s : Step unit) (σ : Sched) :
  schedSteady D time σ -> steady D hand time s ->
  schedSteady D time (settle hand s σ).
Proof.
  intros Hσ Hs name p. destruct s as [w u|w d a pl m k|w ms k]; cbn [settle waiting].
  - intros [_ Hp]%lookup_delete_Some. by eapply Hσ.
  - intros [[<- <-]|[_ Hp]]%lookup_insert_Some; [exact Hs|by eapply Hσ].
  - intros [[<- <-]|[_ Hp]]%lookup_insert_Some; [exact Hs|by eapply Hσ].
Qed.

Lemma settle_keys hand (s : Step unit) (σ : Sched) name :
  is_Some (waiting (settle hand s σ) !! name) ->
  is_Some (waiting σ !! name) \/ name = hand.
Proof.
  destruct (decide (name = hand)) as [->|Hne]; [by right|]. left.
  by destruct (settle_other hand s σ name (not_eq_sym Hne)) as [<- _].
Qed.

Lemma resolve_steady hand time (σ : Sched) :
  schedSteady D time σ -> schedSteady D time (resolve hand σ).
Proof.
  intros Hσ. unfold resolve.
  destruct (waiting σ !! hand) as [[d a pl m k|ms k]|] eqn:Hw; [| |done].
  - destruct (bindAnimation d a pl m (world σ)) as [animation w].
    apply settle_steady; [exact Hσ|]. apply (Hσ _ _ Hw).
  - apply settle_steady; [exact Hσ|]. apply (Hσ _ _ Hw).
Qed.

Lemma resolve_keys hand (σ : Sched) name :
  is_Some (waiting (resolve hand σ) !! name) -> is_Some (waiting σ !! name).
Proof.
  unfold resolve.
  destruct (waiting σ !! hand) as [[d a pl m k|ms k]|] eqn:Hw; [| |done].
  - destruct (bindAnimation d a pl m (world σ)) as [animation w].
    intros [Hs| ->]%settle_keys; [done|]. by rewrite Hw.
  - intros [Hs| ->]%settle_keys; [done|]. by rewrite Hw.
Qed.

(** A resolution keeps what the hand's callback, and the binding, keep. *)
Lemma resolve_world (R : World -> Prop) hand time (σ : Sched) :
  schedSteady D time σ ->
  (is_Some (waiting σ !! hand) -> handStable D hand time R) ->
  bindStable R ->
  R (world σ) -> R (world (resolve hand σ)).
Proof.
  intros Hσ Hhand Hbind HR. unfold resolve.
  destruct (waiting σ !! hand) as [[d a pl m k|ms k]|] eqn:Hw; [| |done].
  - pose proof (Hbind d a pl m (world σ) HR) as HR'.
    destruct (bindAnimation d a pl m (world σ)) as [animation w]. cbn [snd] in HR'.
    rewrite settle_world.
    destruct (Hσ _ _ Hw animation w) as [[Hstep _] _]. apply Hstep; [|done].
    by apply Hhand.
  - rewrite settle_world.
    destruct (Hσ _ _ Hw (world σ)) as [[Hstep _] _]. apply Hstep; [|done].
    by apply Hhand.
Qed.

Lemma react_steady time (σ : Sched) e :
  schedSteady D time σ -> schedSteady D time (react σ e).
Proof. destruct e; [apply resolve_steady|done]. Qed.

Lemma react_keys (σ : Sched) e name :
  is_Some (waiting (react σ e) !! name) -> is_Some (waiting σ !! name).
Proof. destruct e; [apply resolve_keys|done]. Qed.

Lemma react_world (R : World -> Prop) time (σ : Sched) e :
  schedSteady D time σ ->
  (forall name, is_Some (waiting σ !! name) -> handStable D name time R) ->
  bindStable R ->
  (e = StopIsCalled -> stopStable R) ->
  R (world σ) -> R (world (react σ e)).
Proof.
  intros Hσ Hhands Hbind Hstop HR. destruct e as [hand|]; cbn [react].
  - apply (resolve_world R hand time); auto.
  - by apply Hstop.
Qed.

Lemma run_world (R : World -> Prop) time events (σ : Sched) :
  schedSteady D time σ ->
  (forall name, is_Some (waiting σ !! name) -> handStable D name time R) ->
  bindStable R ->
  (StopIsCalled ∈ events -> stopStable R) ->
  R (world σ) -> R (world (run σ events)).
Proof.
  revert σ. induction events as [|e events IH]; intros σ Hσ Hhands Hbind Hstop HR;
    [done|].
  cbn [run foldl]. apply IH.
  - by apply react_steady.
  - intros name Hname. by apply Hhands, (react_keys σ e).
  - done.
  - intros Hin. apply Hstop. by apply list_elem_of_further.
  - apply (react_world R time); auto.
    intros ->. apply Hstop, list_elem_of_here.
Qed.

Lemma run_steady time events (σ : Sched) :
  schedSteady D time σ -> schedSteady D time (run σ events).
Proof.
  revert σ. induction events as [|e events IH]; intros σ Hσ; [done|].
  cbn [run foldl]. by apply IH, react_steady.
Qed.

(** Starting the hands keeps what their callbacks keep. *)
Lemma spawn_world (R : World -> Prop) time names (σ : Sched) :
  schedSteady D time σ ->
  (forall name, name ∈ names -> handStable D name time R) ->
  R (world σ) ->
  R (world (spawn D time σ names))
  /\ schedSteady D time (spawn D time σ names)
  /\ (forall name, is_Some (waiting (spawn D time σ names) !! name) ->
        is_Some (waiting σ !! name) \/ name ∈ names).
Proof.
  revert σ. induction names as [|h names IH]; intros σ Hσ Hnames HR.
  { repeat split; auto. }
  cbn [spawn foldl].
  destruct (animateHand_steady h time (world σ)) as [[Hstep _] Hsteady].
  destruct (IH (settle h (animateHand D h time (world σ)) σ)) as (HR' & Hσ' & Hkeys).
  - by apply settle_steady.
  - intros name Hname. by apply Hnames, list_elem_of_further.
  - rewrite settle_world. apply Hstep; [|done]. apply Hnames, list_elem_of_here.
  - repeat split; [done..|]. intros name Hname.
    destruct (Hkeys name Hname) as [[Hs| ->]%settle_keys|Hin].
    + by left.
    + right. apply list_elem_of_here.
    + right. by apply list_elem_of_further.
Qed.

(** The frame of a run: a property of the state that the callbacks of
    the hands, the binding of animations and, if it is called, [stop]
    keep, is kept by starting the watch and by every schedule after
    it. *)
Lemma run_invariant (R : World -> Prop) (σ0 : Sched) time events :
  waiting σ0 = ∅ ->
  (forall name, name ∈ fst <$> hands (world σ0) -> handStable D name time R) ->
  bindStable R ->
  (StopIsCalled ∈ events -> stopStable R) ->
  R (world σ0) ->
  R (world (run (animateHands D time σ0) events)).
Proof.
  intros Hempty Hhands Hbind Hstop HR.
  assert (Hσ0 : schedSteady D time σ0).
  { intros name p Hp. by rewrite Hempty, lookup_empty in Hp. }
  destruct (spawn_world R time (fst <$> hands (world σ0)) σ0 Hσ0 Hhands HR)
    as (HR' & Hσ' & Hkeys).
  apply (run_world R time); auto.
  intros name Hname. destruct (Hkeys name Hname) as [Hs|Hin]; [|by apply Hhands].
  rewrite Hempty, lookup_empty in Hs. by destruct Hs.
Qed.

(** *** Bind requests *)

Lemma obtainAnimationData_keeps_found n hand init duration kfs c (d : AnimationData) :
  findAnimationData n c = Some d ->
  findAnimationData n (obtainAnimationData hand init duration kfs c).2 = Some d.
Proof.
  exact (serve_keeps_found n c
           {| reqHand := hand; reqInit := init; reqDuration := duration;
              reqKeyframes := kfs |} d).
Qed.

Lemma requestsFound_handStable l name time : handStable D name time (requestsFound l).
Proof.
  split; [|split].
  - intros w Hw hand d actor playing mode Hin.
    destruct (Hw _ _ _ _ _ Hin) as [Hf Ha].
    split; [by apply obtainAnimationData_keeps_found|done].
  - intros w Hw hand d actor playing mode Hin.
    destruct (Hw _ _ _ _ _ Hin) as [Hf Ha].
    split; [by apply obtainAnimationData_keeps_found|done].
  - intros a w Hw hand d actor playing mode Hin. exact (Hw _ _ _ _ _ Hin).
Qed.

Lemma requestsFound_bindStable l : bindStable (requestsFound l).
Proof. intros d a pl m w Hw hand d' a' pl' m' Hin. exact (Hw hand d' a' pl' m' Hin). Qed.

Lemma requestsFound_stopStable l : stopStable (requestsFound l).
Proof. intros w Hw hand d' a' pl' m' Hin. exact (Hw hand d' a' pl' m' Hin). Qed.

Lemma requestsFound_resolved l hand w :
  requestsFound l w -> requestsFound (l ++ [Resolved hand]) w.
Proof.
  intros Hw h d a pl m [Hin|Hin]%elem_of_app; [by eapply Hw|].
  by apply list_elem_of_singleton in Hin.
Qed.

Lemma settle_requestsFound name time w (s : Step unit) (σ : Sched) :
  stepSteady D name time w s ->
  requestsFound (observed σ) w ->
  requestsFound (observed (settle name s σ)) (world (settle name s σ)).
Proof.
  intros [Hstep Hreq] Hw. rewrite settle_world.
  pose proof (Hstep _ (requestsFound_handStable (observed σ) name time) Hw) as Hold.
  destruct s as [w' u|w' d a pl m k|w' ms k]; cbn [settle observed stateOf] in *.
  - done.
  - intros h d' a' pl' m' [Hin|Hin]%elem_of_app; [by eapply Hold|].
    apply list_elem_of_singleton in Hin. by injection Hin as -> -> -> -> ->.
  - intros h d' a' pl' m' [Hin|Hin]%elem_of_app; [by eapply Hold|].
    by apply list_elem_of_singleton in Hin.
Qed.

Lemma react_requestsFound time (σ : Sched) e :
  schedSteady D time σ ->
  requestsFound (observed σ) (world σ) ->
  requestsFound (observed (react σ e)) (world (react σ e)).
Proof.
  intros Hσ Hw. destruct e as [hand|]; cbn [react].
  - unfold resolve.
    destruct (waiting σ !! hand) as [[d a pl m k|ms k]|] eqn:Hp; [| |done].
    + pose proof (requestsFound_bindStable _ d a pl m _ Hw) as Hw'.
      destruct (bindAnimation d a pl m (world σ)) as [animation w]. cbn [snd] in Hw'.
      destruct (Hσ _ _ Hp animation w) as [Hstep _].
      apply (settle_requestsFound hand time w); [done|].
      by apply requestsFound_resolved.
    + destruct (Hσ _ _ Hp (world σ)) as [Hstep _].
      apply (settle_requestsFound hand time (world σ)); [done|].
      by apply requestsFound_resolved.
  - cbn [callStop observed world].
    intros h d' a' pl' m' [Hin|Hin]%elem_of_app.
    + by apply (requestsFound_stopStable _ _ Hw h d' a' pl' m').
    + by apply list_elem_of_singleton in Hin.
Qed.

Lemma spawn_requestsFound time names (σ : Sched) :
  requestsFound (observed σ) (world σ) ->
  requestsFound (observed (spawn D time σ names)) (world (spawn D time σ names)).
Proof.
  revert σ. induction names as [|h names IH]; intros σ Hw; [done|].
  cbn [spawn foldl]. apply IH.
  destruct (animateHand_steady h time (world σ)) as [Hstep _].
  by apply (settle_requestsFound h time (world σ)).
Qed.

Lemma run_requestsFound (σ0 : Sched) time events :
  waiting σ0 = ∅ ->
  requestsFound (observed σ0) (world σ0) ->
  let σ := run (animateHands D time σ0) events in
  requestsFound (observed σ) (world σ).
Proof.
  intros Hempty Hw.
  assert (Hσ0 : schedSteady D time σ0).
  { intros name p Hp. by rewrite Hempty, lookup_empty in Hp. }
  assert (Hhs : forall name, name ∈ fst <$> hands (world σ0) -> handStable D name time (fun _ => True)).
  { by repeat split. }
  destruct (spawn_world (fun _ => True) time _ σ0 Hσ0 Hhs I) as (_ & Hσ & _).
  pose proof (spawn_requestsFound time (fst <$> hands (world σ0)) σ0 Hw) as Hw'.
  change (spawn D time σ0 (fst <$> hands (world σ0))) with (animateHands D time σ0) in *.
  generalize dependent (animateHands D time σ0). intros σ Hσ Hσw. cbn zeta.
  revert σ Hσ Hσw. induction events as [|e events IH]; intros σ Hσ Hσw; [done|].
  cbn [run foldl]. apply IH; [by apply react_steady|by apply (react_requestsFound time)].
Qed.

End RunFacts.

(** ** The container and the host under a run *)

Section ContainerFacts.
Context {num : Type} `{Number num}.
Variable D : num.

Lemma obtainAnimationData_prefix hand init duration kfs (c : AssetContainer) :
  animationData c `prefix_of`
    animationData (obtainAnimationData hand init duration kfs c).2.
Proof.
  unfold obtainAnimationData. destruct (findAnimationData _ c); cbn; [done|].
  by apply prefix_app_r.
Qed.

Lemma obtainAnimationData_names_NoDup hand init duration kfs (c : AssetContainer) :
  NoDup (dataName <$> animationData c) ->
  NoDup (dataName <$> animationData (obtainAnimationData hand init duration kfs c).2).
Proof.
  exact (serve_names_NoDup c
           {| reqHand := hand; reqInit := init; reqDuration := duration;
              reqKeyframes := kfs |}).
Qed.

(** What a lookup adds, if anything, has the name looked up. *)
Lemma obtainAnimationData_elem hand init duration kfs (c : AssetContainer) d :
  d ∈ animationData (obtainAnimationData hand init duration kfs c).2 ->
  d ∈ animationData c \/ dataName d = animationName hand init duration.
Proof.
  unfold obtainAnimationData. destruct (findAnimationData _ c); cbn; [by left|].
  intros [Hin|Hin]%elem_of_app; [by left|].
  apply list_elem_of_singleton in Hin as ->. by right.
Qed.

Lemma prefix_stable c0 name time :
  handStable D name time (fun w => animationData c0 `prefix_of` animationData (assets w)).
Proof.
  split; [|split]; [intros w Hw..|intros a w Hw]; cbn; [| |done];
    (etransitivity; [exact Hw|apply obtainAnimationData_prefix]).
Qed.

Lemma names_stable name time :
  handStable D name time (fun w => NoDup (dataName <$> animationData (assets w))).
Proof.
  split; [|split]; [intros w Hw..|intros a w Hw]; cbn; [| |done];
    by apply obtainAnimationData_names_NoDup.
Qed.

Lemma hands_stable hs name time : handStable D name time (fun w => hands w = hs).
Proof. by split; [|split]. Qed.

Lemma origin_stable c0 (hs : list string) name time :
  name ∈ hs ->
  handStable D name time
    (fun w => forall d, d ∈ animationData (assets w) ->
       d ∈ animationData c0
       \/ exists hand, hand ∈ hs /\ dataName d ∈ requestedNames hand time).
Proof.
  intros Hname. split; [|split]; [intros w Hw d..|intros a w Hw]; cbn; [| |done].
  - intros [Hin| ->]%obtainAnimationData_elem; [by apply Hw|].
    right. exists name. split; [done|]. apply list_elem_of_here.
  - intros [Hin| ->]%obtainAnimationData_elem; [by apply Hw|].
    right. exists name. split; [done|]. apply list_elem_of_further, list_elem_of_here.
Qed.

Lemma present_stable c0 name time :
  Forall (fun n => is_Some (findAnimationData n c0)) (requestedNames name time) ->
  handStable D name time (fun w => assets w = c0).
Proof.
  intros Hall. apply Forall_cons in Hall as [[d1 H1] Hall].
  apply Forall_cons in Hall as [[d2 H2] _].
  split; [|split]; [intros w Hw; cbn [withAssets assets]; rewrite Hw..|by intros a w Hw].
  - by rewrite (obtainAnimationData_hit _ _ _ _ _ _ H1).
  - by rewrite (obtainAnimationData_hit _ _ _ _ _ _ H2).
Qed.

End ContainerFacts.

Section RunHelpers.
Context {num : Type} `{Number num}.
Variable D : num.

Lemma run_hands (σ0 : Sched) time events :
  waiting σ0 = ∅ ->
  hands (world (run (animateHands D time σ0) events)) = hands (world σ0).
Proof.
  intros Hempty.
  apply (run_invariant D (fun w => hands w = hands (world σ0)));
    [done|intros name _; apply hands_stable|by intros d a pl m w Hw
    |by intros _ w Hw|done].
Qed.

Lemma handActor_hands hand (w w' : World) :
  hands w = hands w' -> handActor hand w = handActor hand w'.
Proof. unfold handActor. by intros ->. Qed.

Lemma run_found (σ0 : Sched) time events n d :
  waiting σ0 = ∅ ->
  findAnimationData n (assets (world σ0)) = Some d ->
  findAnimationData n (assets (world (run (animateHands D time σ0) events))) = Some d.
Proof.
  intros Hempty Hfind.
  apply (run_invariant D (fun w => findAnimationData n (assets w) = Some d));
    [done| |by intros d' a pl m w Hw|by intros _ w Hw|done].
  intros name _.
  split; [|split]; [intros w Hw..|by intros a w Hw]; cbn [withAssets assets];
    by apply obtainAnimationData_keeps_found.
Qed.

(** The loop request of a hand is in the log once two of its promises
    have resolved. *)
Lemma loop_request_observed (σ0 : Sched) time events name :
  waiting σ0 = ∅ -> observed σ0 = [] ->
  NoDup (fst <$> hands (world σ0)) ->
  name ∈ fst <$> hands (world σ0) ->
  (2 <= resolutions name events)%nat ->
  let σ := run (animateHands D time σ0) events in
  exists d,
    BindRequested name d (handActor name (world σ0)) true Loop ∈ observed σ
    /\ dataName d = animationName name (fromZ 0) (fromZ (cycleLength name))
    /\ findAnimationData (dataName d) (assets (world σ)) = Some d
    /\ ((resolutions name events = 2)%nat ->
        exists k3, waiting σ !! name
                   = Some (PendingBind d (handActor name (world σ0)) true Loop k3)
                   /\ finishes name k3).
Proof.
  intros Hempty Hobs Hnd Hin Hres σ.
  assert (Hlog0 : handLog name σ0 = []) by (unfold handLog; by rewrite Hobs).
  destruct (handLog_run D σ0 time events name Hnd Hin Hlog0)
    as (d1 & a1 & d2 & a2 & (Hlog & [c Hd2] & Hk) & _).
  fold σ in Hlog, Hk.
  assert (Hreq : BindRequested name d2 a2 true Loop ∈ observed σ).
  { assert (Hin' : BindRequested name d2 a2 true Loop ∈ handLog name σ).
    { rewrite Hlog. destruct (resolutions name events) as [|[|[|k]]]; [lia..| |];
        cbn [logLength take phaseLog]; do 4 apply list_elem_of_further;
        apply list_elem_of_here. }
    unfold handLog in Hin'. apply list_elem_of_In, List.filter_In in Hin' as [Hin' _].
    by apply list_elem_of_In. }
  assert (Hrf : requestsFound (observed σ0) (world σ0)).
  { rewrite Hobs. intros h d a pl m Hx. by apply elem_of_nil in Hx. }
  destruct (run_requestsFound D σ0 time events Hempty Hrf _ _ _ _ _ Hreq)
    as [Hfound Hactor].
  fold σ in Hfound, Hactor.
  rewrite (handActor_hands name _ (world σ0)) in Hactor
    by apply (run_hands σ0 time events Hempty).
  subst a2. exists d2. split; [done|]. split; [|split; [done|]].
  - rewrite Hd2, obtainAnimationData_name. by rewrite handPhase_full.
  - intros Heq. by rewrite Heq in Hk.
Qed.

Lemma resolutions_split name events k :
  (k < resolutions name events)%nat ->
  exists pre post,
    events = pre ++ PromiseResolves name :: post
    /\ resolutions name pre = k.
Proof.
  revert k. induction events as [|e events IH]; intros k Hk.
  { cbn in Hk. lia. }
  unfold resolutions in *. cbn [List.filter] in Hk.
  destruct (resolvesHand name e) eqn:He.
  - destruct e as [h|]; [|done]. cbn in He. apply String.eqb_eq in He as ->.
    destruct k as [|k].
    + exists [], events. by split.
    + cbn [length] in Hk. destruct (IH k) as (pre & post & -> & Hpre); [lia|].
      exists (PromiseResolves name :: pre), post. split; [done|].
      cbn [List.filter resolvesHand]. rewrite String.eqb_refl. cbn [length]. by rewrite Hpre.
  - destruct (IH k Hk) as (pre & post & -> & Hpre).
    exists (e :: pre), post. split; [done|].
    cbn [List.filter]. by rewrite He.
Qed.

End RunHelpers.

(** X8: under every schedule of promise resolutions and calls of
    [stop], a started watch only appends to the animation data of the
    asset container (what was there stays, in place), never changes its
    map of hands, and keeps the names of the animation data distinct. *)
Theorem run_keeps_container {num : Type} `{Number num} (D : num)
    (σ0 : Sched) (time : Z) (events : list Event) :
  waiting σ0 = ∅ ->
  let w := world (run (animateHands D time σ0) events) in
  animationData (assets (world σ0)) `prefix_of` animationData (assets w)
  /\ hands w = hands (world σ0)
  /\ (NoDup (dataName <$> animationData (assets (world σ0))) ->
      NoDup (dataName <$> animationData (assets w))).
Proof.
  intros Hempty w. split; [|split].
  - apply (run_invariant D
             (fun w => animationData (assets (world σ0)) `prefix_of`
                         animationData (assets w)));
      [done|intros name _; apply prefix_stable|by intros d a pl m w' Hw
      |by intros _ w' Hw|done].
  - by apply run_hands.
  - intros Hnd.
    apply (run_invariant D
             (fun w => NoDup (dataName <$> animationData (assets w))));
      [done|intros name _; apply names_stable|by intros d a pl m w' Hw
      |by intros _ w' Hw|done].
Qed.

Lemma run_keeps_container_witness :
  let σ0 := newWatch (num:=float) emptyContainer in
  let w := world (run (animateHands DegreesToRadians64 3661 σ0)
                    [PromiseResolves "hour"; StopIsCalled; PromiseResolves "hour"]) in
  animationData (assets (world σ0)) `prefix_of` animationData (assets w)
  /\ hands w = hands (world σ0)
  /\ (NoDup (dataName <$> animationData (assets (world σ0))) ->
      NoDup (dataName <$> animationData (assets w))).
Proof.
  exact (run_keeps_container DegreesToRadians64 (newWatch emptyContainer) 3661
           [PromiseResolves "hour"; StopIsCalled; PromiseResolves "hour"] eq_refl).
Defined.

(** X9: the animation data a started watch registers are those of its
    hands: every object of the container after a run was there before
    or bears one of the two names a hand of the watch looks up (its
    catch-up data for the sample, its loop data); so a watch registers
    at most two objects per hand. *)
Theorem run_registers_hands_data {num : Type} `{Number num} (D : num)
    (σ0 : Sched) (time : Z) (events : list Event) :
  waiting σ0 = ∅ ->
  NoDup (dataName <$> animationData (assets (world σ0))) ->
  let w := world (run (animateHands D time σ0) events) in
  (forall d, d ∈ animationData (assets w) ->
     d ∈ animationData (assets (world σ0))
     \/ exists hand, hand ∈ fst <$> hands (world σ0)
                     /\ dataName d ∈ requestedNames hand time)
  /\ (length (animationData (assets w))
      <= length (animationData (assets (world σ0))) + 2 * length (hands (world σ0)))%nat.
Proof.
  intros Hempty Hnd0 w.
  assert (Horigin : forall d, d ∈ animationData (assets w) ->
     d ∈ animationData (assets (world σ0))
     \/ exists hand, hand ∈ fst <$> hands (world σ0)
                     /\ dataName d ∈ requestedNames hand time).
  { apply (run_invariant D
             (fun w => forall d, d ∈ animationData (assets w) ->
                d ∈ animationData (assets (world σ0))
                \/ exists hand, hand ∈ fst <$> hands (world σ0)
                                /\ dataName d ∈ requestedNames hand time));
      [done|intros name Hname; by apply origin_stable|by intros d a pl m w' Hw
      |by intros _ w' Hw|].
    intros d Hd. by left. }
  split; [exact Horigin|].
  assert (Hpre : animationData (assets (world σ0)) `prefix_of` animationData (assets w)).
  { apply (run_invariant D
             (fun w => animationData (assets (world σ0)) `prefix_of`
                         animationData (assets w)));
      [done|intros name _; apply prefix_stable|by intros d a pl m w' Hw
      |by intros _ w' Hw|done]. }
  assert (Hnd : NoDup (dataName <$> animationData (assets w))).
  { apply (run_invariant D
             (fun w => NoDup (dataName <$> animationData (assets w))));
      [done|intros name _; apply names_stable|by intros d a pl m w' Hw
      |by intros _ w' Hw|done]. }
  destruct Hpre as [new Hnew]. rewrite Hnew in Hnd, Horigin |- *.
  rewrite fmap_app in Hnd. apply NoDup_app in Hnd as (_ & Hdisj & Hndnew).
  rewrite length_app. apply Nat.add_le_mono_l.
  transitivity (length ((fst <$> hands (world σ0)) ≫= fun hand => requestedNames hand time)).
  - rewrite <- (length_fmap dataName new). apply submseteq_length.
    apply NoDup_submseteq; [done|]. intros n Hn.
    apply list_elem_of_fmap in Hn as (d & -> & Hd).
    destruct (Horigin d) as [Hold|(hand & Hhand & Hname)].
    + apply elem_of_app. by right.
    + exfalso. apply (Hdisj (dataName d)); by apply list_elem_of_fmap_2.
    + apply list_elem_of_bind. by exists hand.
  - generalize (hands (world σ0)). intros hs.
    induction hs as [|h hs IH]; cbn; [done|]. cbn in IH. lia.
Qed.

Lemma run_registers_hands_data_witness :
  let σ0 := newWatch (num:=float) emptyContainer in
  let w := world (run (animateHands DegreesToRadians64 3661 σ0)
                    [PromiseResolves "second"; PromiseResolves "second"]) in
  (forall d, d ∈ animationData (assets w) ->
     d ∈ animationData (assets (world σ0))
     \/ exists hand, hand ∈ fst <$> hands (world σ0)
                     /\ dataName d ∈ requestedNames hand 3661)
  /\ (length (animationData (assets w))
      <= length (animationData (assets (world σ0))) + 2 * length (hands (world σ0)))%nat.
Proof.
  exact (run_registers_hands_data DegreesToRadians64 (newWatch emptyContainer) 3661
           [PromiseResolves "second"; PromiseResolves "second"] eq_refl NoDup_nil_2).
Defined.

(** X10: a watch started on a container that already holds, for each of
    its hands, data under the two names the hand looks up registers
    nothing, whatever the schedule: the container is left as it is. *)
Theorem watch_reuses_present_data {num : Type} `{Number num} (D : num)
    (σ0 : Sched) (time : Z) (events : list Event) :
  waiting σ0 = ∅ ->
  (forall name, name ∈ fst <$> hands (world σ0) ->
     Forall (fun n => is_Some (findAnimationData n (assets (world σ0))))
       (requestedNames name time)) ->
  assets (world (run (animateHands D time σ0) events)) = assets (world σ0).
Proof.
  intros Hempty Hpresent.
  apply (run_invariant D (fun w => assets w = assets (world σ0)));
    [done| |by intros d a pl m w Hw|by intros _ w Hw|done].
  intros name Hname. by apply present_stable, Hpresent.
Qed.

Lemma watch_reuses_present_data_witness :
  let first :=
    run (animateHands DegreesToRadians64 3661 (newWatch emptyContainer))
      [PromiseResolves "hour"; PromiseResolves "hour";
       PromiseResolves "minute"; PromiseResolves "minute";
       PromiseResolves "second"; PromiseResolves "second"] in
  let σ0 := newWatch (assets (world first)) in
  length (animationData (assets (world σ0))) = 6%nat
  /\ assets (world (run (animateHands DegreesToRadians64 3661 σ0)
                      [PromiseResolves "second"; PromiseResolves "second";
                       StopIsCalled; PromiseResolves "hour"]))
     = assets (world σ0).
Proof.
  intros first σ0. split; [by vm_compute|].
  apply (watch_reuses_present_data DegreesToRadians64 σ0 3661); [reflexivity|].
  intros name Hname. pattern name. apply (theHands_cases _ _ Hname);
    repeat constructor; apply (bool_decide_unpack _); by vm_compute.
Defined.

(** X11: every bind a started watch requests, under every schedule, is
    for animation data that the container holds under the data's own
    name, and for the actor of the hand that requests it. *)
Theorem bind_requests_registered_data {num : Type} `{Number num} (D : num)
    (σ0 : Sched) (time : Z) (events : list Event) :
  waiting σ0 = ∅ ->
  observed σ0 = [] ->
  let σ := run (animateHands D time σ0) events in
  forall hand d actor playing mode,
    BindRequested hand d actor playing mode ∈ observed σ ->
    findAnimationData (dataName d) (assets (world σ)) = Some d
    /\ actor = handActor hand (world σ0).
Proof.
  intros Hempty Hobs σ hand d actor playing mode Hin.
  assert (Hrf : requestsFound (observed σ0) (world σ0)).
  { rewrite Hobs. intros h d' a pl m Hx. by apply elem_of_nil in Hx. }
  destruct (run_requestsFound D σ0 time events Hempty Hrf _ _ _ _ _ Hin)
    as [Hfound Hactor].
  split; [exact Hfound|]. rewrite Hactor.
  apply handActor_hands, (run_hands D σ0 time events Hempty).
Qed.

Lemma bind_requests_registered_data_witness :
  let σ0 := newWatch (num:=float) emptyContainer in
  let σ := run (animateHands DegreesToRadians64 3661 σ0)
             [PromiseResolves "minute"; PromiseResolves "minute"] in
  exists d,
    BindRequested "minute" d (handActor "minute" (world σ0)) true Loop ∈ observed σ
    /\ findAnimationData (dataName d) (assets (world σ)) = Some d.
Proof.
  intros σ0 σ.
  destruct (loop_request_observed DegreesToRadians64 σ0 3661
              [PromiseResolves "minute"; PromiseResolves "minute"] "minute"
              eq_refl eq_refl theHands_NoDup
              (list_elem_of_further _ _ _ (list_elem_of_here _ _))
              (le_n 2)) as (d & Hin & _).
  exists d. split; [exact Hin|].
  exact (proj1 (bind_requests_registered_data DegreesToRadians64 σ0 3661
                  [PromiseResolves "minute"; PromiseResolves "minute"]
                  eq_refl eq_refl _ _ _ _ _ Hin)).
Defined.

(** X12: the loop data of a hand are shared between watches: when a
    hand of a first watch has requested its loop bind, a watch started
    afterwards on the same container requests its loop bind for that
    hand with the very same data object, the one named by the hand, 0
    and the cycle length, whichever samples in [0, 43200) the two
    watches were started at. *)
Theorem loop_data_shared {num : Type} `{Number num} (D : num)
    (σ0 σ1 : Sched) (time0 time1 : Z) (events0 events1 : list Event)
    (name : string) :
  let first := run (animateHands D time0 σ0) events0 in
  let second := run (animateHands D time1 σ1) events1 in
  0 <= time0 < 43200 -> 0 <= time1 < 43200 ->
  waiting σ0 = ∅ -> observed σ0 = [] ->
  NoDup (fst <$> hands (world σ0)) -> name ∈ fst <$> hands (world σ0) ->
  (2 <= resolutions name events0)%nat ->
  waiting σ1 = ∅ -> observed σ1 = [] ->
  NoDup (fst <$> hands (world σ1)) -> name ∈ fst <$> hands (world σ1) ->
  (2 <= resolutions name events1)%nat ->
  assets (world σ1) = assets (world first) ->
  exists d,
    dataName d = animationName name (fromZ 0) (fromZ (cycleLength name))
    /\ BindRequested name d (handActor name (world σ0)) true Loop ∈ observed first
    /\ BindRequested name d (handActor name (world σ1)) true Loop ∈ observed second.
Proof.
  intros first second _ _ Hw0 Ho0 Hnd0 Hin0 Hres0 Hw1 Ho1 Hnd1 Hin1 Hres1 Hshare.
  destruct (loop_request_observed D σ0 time0 events0 name Hw0 Ho0 Hnd0 Hin0 Hres0)
    as (d & Hreq & Hname & Hfound & _).
  destruct (loop_request_observed D σ1 time1 events1 name Hw1 Ho1 Hnd1 Hin1 Hres1)
    as (d' & Hreq' & Hname' & Hfound' & _).
  exists d. split; [done|]. split; [done|].
  fold first in Hfound. rewrite <- Hshare in Hfound.
  pose proof (run_found D σ1 time1 events1 _ _ Hw1 Hfound) as Hkept.
  rewrite Hname' in Hfound'. rewrite Hname, Hfound' in Hkept.
  by injection Hkept as ->.
Qed.

Lemma loop_data_shared_witness :
  let σ0 := newWatch (num:=float) emptyContainer in
  let first := run (animateHands DegreesToRadians64 3661 σ0)
                 [PromiseResolves "hour"; PromiseResolves "hour"] in
  let σ1 := newWatch (assets (world first)) in
  let second := run (animateHands DegreesToRadians64 7322 σ1)
                  [PromiseResolves "hour"; StopIsCalled; PromiseResolves "hour"] in
  exists d,
    dataName d = animationName "hour" 0%float (float_of_Z (cycleLength "hour"))
    /\ BindRequested "hour" d (handActor "hour" (world σ0)) true Loop ∈ observed first
    /\ BindRequested "hour" d (handActor "hour" (world σ1)) true Loop ∈ observed second.
Proof.
  intros σ0 first σ1 second.
  apply (loop_data_shared DegreesToRadians64 σ0 σ1 3661 7322
           [PromiseResolves "hour"; PromiseResolves "hour"]
           [PromiseResolves "hour"; StopIsCalled; PromiseResolves "hour"] "hour");
    try reflexivity; try apply theHands_NoDup; try apply list_elem_of_here;
    try lia; vm_compute; lia.
Defined.

(** ** The end of a hand's pipeline *)

Section EndFacts.
Context {num : Type} `{Number num}.
Variable D : num.

Lemma loops_handStable name a d actor live other time :
  other <> name -> handStable D other time (loops name a d actor live).
Proof.
  intros Hne.
  split; [|split]; [intros w (Ha & Hlt & Hf & Hp)..|intros a' w (Ha & Hlt & Hf & Hp)].
  - split; [done|]. split; [done|]. split; [|done].
    by apply obtainAnimationData_keeps_found.
  - split; [done|]. split; [done|]. split; [|done].
    by apply obtainAnimationData_keeps_found.
  - split; [|done]. cbn [setAnimation animations]. by rewrite lookup_insert_ne.
Qed.

Lemma loops_bindStable name a d actor live : bindStable (loops name a d actor live).
Proof.
  intros d' a' pl m w (Ha & Hlt & Hf & p & Hp & Hrest).
  split; [done|]. split; [cbn; lia|]. split; [done|].
  exists p. split; [|done]. cbn [bindAnimation snd engine].
  rewrite lookup_insert_ne; [done|lia].
Qed.

Lemma loops_stopStable name a d actor live :
  ~ live -> stopStable (loops name a d actor live).
Proof.
  intros Hdead w (Ha & Hlt & Hf & p & Hp & Hd & Hactor & Hmode & _).
  split; [done|]. split; [done|]. split; [done|].
  destruct (stop_engine w a) as [[_ He]|[_ He]]; rewrite He, Hp.
  - exists (stopPlayback p). by repeat split.
  - exists p. by repeat split.
Qed.

End EndFacts.

(** X13: a hand ends in its loop: for a sample in [0, 43200), once the
    three promises of its pipeline have resolved, under every schedule
    of the other hands' promises and of calls of [stop], the animation
    registered for the hand is bound in [Loop] mode to the hand's actor
    and to the data named by the hand, 0 and the cycle length, which the
    container holds; and it plays if [stop] was never called. *)
Theorem hand_ends_looping {num : Type} `{Number num} (D : num)
    (σ0 : Sched) (time : Z) (events : list Event) (name : string) :
  0 <= time < 43200 ->
  waiting σ0 = ∅ -> observed σ0 = [] ->
  NoDup (fst <$> hands (world σ0)) -> name ∈ fst <$> hands (world σ0) ->
  (3 <= resolutions name events)%nat ->
  let w := world (run (animateHands D time σ0) events) in
  exists p,
    registered name w = Some p
    /\ wrapMode p = Loop
    /\ boundActor p = handActor name (world σ0)
    /\ dataName (boundData p) = animationName name (fromZ 0) (fromZ (cycleLength name))
    /\ findAnimationData (dataName (boundData p)) (assets w) = Some (boundData p)
    /\ (StopIsCalled ∉ events -> isPlaying p = true).
Proof.
  intros _ Hempty Hobs Hnd Hin Hres w.
  destruct (resolutions_split name events 2) as (pre & post & Hev & Hpre); [lia|].
  destruct (loop_request_observed D σ0 time pre name Hempty Hobs Hnd Hin)
    as (d & _ & Hname & Hfound & Hpending); [lia|].
  destruct (Hpending Hpre) as (k3 & Hwait & Hk3). clear Hpending.
  set (σ2 := run (animateHands D time σ0) pre) in *.
  assert (Hσ2 : schedSteady D time σ2).
  { apply run_steady.
    assert (Hσ0 : schedSteady D time σ0).
    { intros h p Hp. by rewrite Hempty, lookup_empty in Hp. }
    by destruct (spawn_world D (fun _ => True) time (fst <$> hands (world σ0)) σ0 Hσ0)
      as (_ & Hσ & _). }
  set (a := nextAnimation (world σ2)).
  set (live := StopIsCalled ∉ events).
  assert (Hσ3 : loops name a d (handActor name (world σ0)) live
                  (world (resolve name σ2))
                /\ waiting (resolve name σ2) !! name = None).
  { unfold resolve. rewrite Hwait. cbn [bindAnimation]. rewrite Hk3.
    cbn [settle world waiting note]. split; [|by rewrite lookup_delete_eq].
    split; [cbn; by rewrite lookup_insert_eq|]. split; [cbn; fold a; lia|].
    split; [done|]. eexists. split; [cbn; fold a; by rewrite lookup_insert_eq|].
    done. }
  destruct Hσ3 as [Hloops Hgone].
  assert (Hend : loops name a d (handActor name (world σ0)) live w).
  { unfold w. rewrite Hev, run_app. fold σ2. cbn [run foldl react].
    apply (run_world D _ time).
    - by apply resolve_steady.
    - intros other Hother. apply loops_handStable. intros ->.
      rewrite Hgone in Hother. by destruct Hother.
    - apply loops_bindStable.
    - intros Hstop. apply loops_stopStable. intros Hlive. apply Hlive.
      rewrite Hev. apply elem_of_app. right. by apply list_elem_of_further.
    - exact Hloops. }
  destruct Hend as (Ha & _ & Hf & p & Hp & Hd & Hactor & Hmode & Hlive).
  exists p. unfold registered. rewrite Ha. cbn. subst d. by repeat split.
Qed.

Lemma hand_ends_looping_witness :
  let σ0 := newWatch (num:=float) emptyContainer in
  let w := world (run (animateHands DegreesToRadians64 3661 σ0)
                    [PromiseResolves "minute"; PromiseResolves "second";
                     PromiseResolves "minute"; PromiseResolves "minute";
                     PromiseResolves "hour"]) in
  exists p,
    registered "minute" w = Some p
    /\ wrapMode p = Loop
    /\ boundActor p = handActor "minute" (world σ0)
    /\ dataName (boundData p)
       = animationName "minute" 0%float (float_of_Z (cycleLength "minute"))
    /\ findAnimationData (dataName (boundData p)) (assets w) = Some (boundData p)
    /\ (StopIsCalled ∉ [PromiseResolves "minute"; PromiseResolves "second";
                        PromiseResolves "minute"; PromiseResolves "minute";
                        PromiseResolves "hour"] -> isPlaying p = true).
Proof.
  intros σ0 w.
  apply (hand_ends_looping DegreesToRadians64 σ0 3661
           [PromiseResolves "minute"; PromiseResolves "second";
            PromiseResolves "minute"; PromiseResolves "minute";
            PromiseResolves "hour"] "minute").
  - lia.
  - reflexivity.
  - reflexivity.
  - apply theHands_NoDup.
  - apply list_elem_of_further, list_elem_of_here.
  - vm_compute. lia.
Defined.

(** ** The app *)

Section AppFacts.

(** What the construction of a watch adds to the scene. *)
Lemma AnalogWatch_init_value (o : AnalogWatchOptions) (s : Scene) :
  let a := nextActor s in
  let base :=
    {| actorId := a;
       actorParent := match optOwner o with Some _ => None | None => optParentId o end;
       actorAttachment := optOwner o;
       actorResource := Some (optResourceId o);
       actorMesh := None; actorMaterial := None |} in
  let hand (name : string) (id : Actor) :=
    {| actorId := id; actorParent := Some a; actorAttachment := None;
       actorResource := optHands o !! name;
       actorMesh := None; actorMaterial := None |} in
  AnalogWatch_init o s
  = ({| instOptions := o; instWatch := a;
        instHands := [("hour", S a); ("minute", S (S a)); ("second", S (S (S a)))] |},
     {| sceneActors := sceneActors s ++
          [base; hand "hour" (S a); hand "minute" (S (S a)); hand "second" (S (S (S a)))];
        nextActor := S (S (S (S a)));
        destroyed := destroyed s |}).
Proof.
  unfold AnalogWatch_init. destruct (optOwner o); cbn; by rewrite <- !app_assoc.
Qed.

Lemma constructWatch_value (o : AnalogWatchOptions) (app : App) :
  constructWatch o app
  = {| url := url app; options := options app;
       meshes := meshes app; materials := materials app; nextAsset := nextAsset app;
       anchor := anchor app; gridLayout := gridLayout app; dispensers := dispensers app;
       timezones := timezones app; watches := watches app;
       scene := (AnalogWatch_init o (scene app)).2;
       constructed := constructed app ++ [(AnalogWatch_init o (scene app)).1];
       removed := removed app |}.
Proof. unfold constructWatch. by destruct (AnalogWatch_init o (scene app)). Qed.

Lemma AnalogWatch_init_scene o s :
  sceneActors s `prefix_of` sceneActors (AnalogWatch_init o s).2
  /\ destroyed (AnalogWatch_init o s).2 = destroyed s.
Proof. rewrite AnalogWatch_init_value. cbn. split; [by apply prefix_app_r|done]. Qed.

(** A constructed watch is placed, and stays so while the scene grows. *)
Lemma AnalogWatch_init_placed o s :
  placed (AnalogWatch_init o s).2 (AnalogWatch_init o s).1
  /\ instOptions (AnalogWatch_init o s).1 = o.
Proof.
  rewrite AnalogWatch_init_value. cbn [fst snd]. split; [|done].
  split; [done|]. split; [|split].
  - cbn. repeat (apply NoDup_cons; split);
      [rewrite ?elem_of_cons, elem_of_nil; lia..|apply NoDup_nil_2].
  - eexists. split; [apply elem_of_app; right; apply list_elem_of_here|]. done.
  - cbn [instHands instWatch instOptions sceneActors]. intros name a Hin.
    repeat (apply elem_of_cons in Hin as [[= -> ->]|Hin]);
      [| | |by apply elem_of_nil in Hin]; eexists.
    + split; [apply elem_of_app; right;
              apply list_elem_of_further, list_elem_of_here|done].
    + split; [apply elem_of_app; right;
              do 2 apply list_elem_of_further; apply list_elem_of_here|done].
    + split; [apply elem_of_app; right;
              do 3 apply list_elem_of_further; apply list_elem_of_here|done].
Qed.

Lemma placed_mono s s' inst :
  sceneActors s `prefix_of` sceneActors s' -> placed s inst -> placed s' inst.
Proof.
  intros [l Hl] (Hkeys & Hnd & (base & Hbase & Hrest) & Hhands).
  split; [done|]. split; [done|]. split.
  - exists base. split; [|done]. rewrite Hl. apply elem_of_app. by left.
  - intros name a Hin. destruct (Hhands name a Hin) as (hand & Hhand & Hrest').
    exists hand. split; [|done]. rewrite Hl. apply elem_of_app. by left.
Qed.

Lemma placed_Forall_mono s s' l :
  sceneActors s `prefix_of` sceneActors s' -> Forall (placed s) l -> Forall (placed s') l.
Proof.
  intros Hpre Hl. eapply Forall_impl; [exact Hl|]. intros inst. by apply placed_mono.
Qed.

Lemma isCollider_mono anchorId mesh s s' c :
  sceneActors s `prefix_of` sceneActors s' ->
  isCollider anchorId mesh s c -> isCollider anchorId mesh s' c.
Proof.
  intros [l Hl] (a & Ha & Hrest). exists a. split; [|done].
  rewrite Hl. apply elem_of_app. by left.
Qed.

(** *** One dispenser *)

Lemma dispense_fields anchorId o i app app' :
  dispense anchorId o i app = Some app' ->
  watches app' = watches app /\ removed app' = removed app
  /\ materials app' = materials app /\ options app' = options app
  /\ timezones app' = timezones app /\ url app' = url app
  /\ anchor app' = anchor app
  /\ dispensers app' = dispensers app ++ [nextActor (scene app)]
  /\ gridLayout app'
     = gridLayout app
       ++ [{| cellRow := 0; cellColumn := i; cellContents := nextActor (scene app) |}].
Proof.
  unfold dispense.
  destruct (findAsset _ (meshes app)) as [m|];
    (destruct (findAsset _ (materials app)) as [mat|]; [|done]);
    cbn; destruct (optType o); rewrite ?constructWatch_value; cbn;
    intros [= <-]; by repeat split.
Qed.

Lemma dispense_total anchorId o i app :
  is_Some (findAsset "invisible" (materials app)) ->
  is_Some (dispense anchorId o i app).
Proof.
  intros [mat Hmat]. unfold dispense. rewrite Hmat.
  destruct (findAsset _ (meshes app)); cbn; by eexists.
Qed.

Lemma findAsset_app_hit name l l' m :
  findAsset name l = Some m -> findAsset name (l ++ l') = Some m.
Proof. apply find_app_hit. Qed.

Lemma findAsset_app_miss name l l' :
  findAsset name l = None -> findAsset name (l ++ l') = findAsset name l'.
Proof. apply find_app_miss. Qed.

(** The mesh of a dispenser: the one found, or the one created on a
    miss, which is found from then on. *)
Lemma dispense_mesh anchorId o i app app' :
  dispense anchorId o i app = Some app' ->
  exists mesh,
    findAsset "mesh_dispenser_collider" (meshes app') = Some mesh
    /\ (findAsset "mesh_dispenser_collider" (meshes app) = Some mesh
          /\ meshes app' = meshes app
        \/ findAsset "mesh_dispenser_collider" (meshes app) = None
           /\ meshes app' = meshes app ++ [mesh])
    /\ isCollider anchorId mesh (scene app') (nextActor (scene app))
    /\ sceneActors (scene app) `prefix_of` sceneActors (scene app')
    /\ destroyed (scene app') = destroyed (scene app).
Proof.
  unfold dispense.
  destruct (findAsset _ (meshes app)) as [m|] eqn:Hmesh;
    (destruct (findAsset _ (materials app)) as [mat|]; [|done]); cbn.
  - intros [= <-]. exists m.
    destruct (optType o); rewrite ?constructWatch_value; cbn [meshes scene].
    + split; [done|]. split; [by left|].
      match goal with
      | |- context [AnalogWatch_init ?o' ?s'] =>
          destruct (AnalogWatch_init_scene o' s') as [Hpre Hdes]
      end.
      rewrite Hdes. split; [|split; [|done]].
      * eapply isCollider_mono; [exact Hpre|].
        eexists. split; [apply elem_of_app; right; apply list_elem_of_here|done].
      * etransitivity; [|exact Hpre]. by apply prefix_app_r.
    + split; [done|]. split; [by left|]. split; [|split; [by apply prefix_app_r|done]].
      eexists. split; [apply elem_of_app; right; apply list_elem_of_here|done].
  - intros [= <-].
    exists {| assetName := "mesh_dispenser_collider"; assetId := nextAsset app |}.
    destruct (optType o); rewrite ?constructWatch_value; cbn [meshes scene].
    + split; [by rewrite findAsset_app_miss|]. split; [by right|].
      match goal with
      | |- context [AnalogWatch_init ?o' ?s'] =>
          destruct (AnalogWatch_init_scene o' s') as [Hpre Hdes]
      end.
      rewrite Hdes. split; [|split; [|done]].
      * eapply isCollider_mono; [exact Hpre|].
        eexists. split; [apply elem_of_app; right; apply list_elem_of_here|done].
      * etransitivity; [|exact Hpre]. by apply prefix_app_r.
    + split; [by rewrite findAsset_app_miss|]. split; [by right|].
      split; [|split; [by apply prefix_app_r|done]].
      eexists. split; [apply elem_of_app; right; apply list_elem_of_here|done].
Qed.

(** The watch of a dispenser. *)
Lemma dispense_constructed anchorId o i app app' :
  dispense anchorId o i app = Some app' ->
  exists new,
    constructed app' = constructed app ++ new
    /\ instOptions <$> new = dispensedOptions [o] [nextActor (scene app)]
    /\ Forall (placed (scene app')) new.
Proof.
  unfold dispense.
  destruct (findAsset _ (meshes app)) as [m|];
    (destruct (findAsset _ (materials app)) as [mat|]; [|done]); cbn;
    intros [= <-]; unfold dispensedOptions; cbn [zip zip_with omap];
    destruct (optType o); rewrite ?constructWatch_value in *; cbn [constructed scene] in *.
  all: try (exists []; by rewrite app_nil_r).
  all: match goal with
       | |- context [AnalogWatch_init ?o' ?s'] =>
           destruct (AnalogWatch_init_placed o' s') as [Hnew Ho]
       end.
  all: eexists; split; [reflexivity|]; cbn; rewrite Ho; split; [done|].
  all: by apply Forall_singleton.
Qed.

(** *** All the dispensers *)

Lemma dispensedOptions_cons o os c cs :
  dispensedOptions (o :: os) (c :: cs)
  = dispensedOptions [o] [c] ++ dispensedOptions os cs.
Proof. unfold dispensedOptions. cbn. by destruct (optType o). Qed.

Lemma dispenseAll_spec anchorId os i app app' :
  dispenseAll anchorId os i app = Some app' ->
  (watches app' = watches app /\ removed app' = removed app
   /\ materials app' = materials app /\ options app' = options app
   /\ timezones app' = timezones app /\ url app' = url app
   /\ anchor app' = anchor app)
  /\ sceneActors (scene app) `prefix_of` sceneActors (scene app')
  /\ destroyed (scene app') = destroyed (scene app)
  /\ (meshes app' = meshes app
      \/ findAsset "mesh_dispenser_collider" (meshes app) = None
         /\ exists mesh, meshes app' = meshes app ++ [mesh])
  /\ (os <> [] -> is_Some (findAsset "mesh_dispenser_collider" (meshes app')))
  /\ exists cs new,
      dispensers app' = dispensers app ++ cs
      /\ length cs = length os
      /\ gridLayout app'
         = gridLayout app
           ++ imap (fun j c => {| cellRow := 0; cellColumn := i + j; cellContents := c |}) cs
      /\ constructed app' = constructed app ++ new
      /\ instOptions <$> new = dispensedOptions os cs
      /\ Forall (placed (scene app')) new
      /\ forall mesh, findAsset "mesh_dispenser_collider" (meshes app') = Some mesh ->
           Forall (isCollider anchorId mesh (scene app')) cs.
Proof.
  revert i app. induction os as [|o os IH]; intros i app Hall.
  { injection Hall as <-. split; [done|]. split; [done|]. split; [done|].
    split; [by left|]. split; [done|].
    exists [], []. by rewrite !app_nil_r. }
  cbn [dispenseAll] in Hall.
  destruct (dispense anchorId o i app) as [app1|] eqn:Hd; [|done]. cbn in Hall.
  destruct (dispense_fields _ _ _ _ _ Hd)
    as (Hw & Hr & Hmat & Ho & Htz & Hurl & Hanchor & Hdisp & Hgrid).
  destruct (dispense_mesh _ _ _ _ _ Hd) as (m1 & Hm1 & Hmeshes & Hc1 & Hpre1 & Hdes1).
  destruct (dispense_constructed _ _ _ _ _ Hd) as (new1 & Hnew1 & Hopts1 & Hplaced1).
  destruct (IH _ _ Hall)
    as ((Hw' & Hr' & Hmat' & Ho' & Htz' & Hurl' & Hanchor') & Hpre' & Hdes'
        & Hmeshes' & _ & cs & new & Hdisp' & Hlen & Hgrid' & Hnew' & Hopts' & Hplaced'
        & Hcs).
  assert (Hsame : meshes app' = meshes app1).
  { destruct Hmeshes' as [?|[Hnone _]]; [done|]. by rewrite Hm1 in Hnone. }
  split; [by rewrite Hw', Hr', Hmat', Ho', Htz', Hurl', Hanchor'|].
  split; [by etransitivity|]. split; [by rewrite Hdes'|].
  split.
  { rewrite Hsame. destruct Hmeshes as [[_ ->]|[Hnone ->]]; [by left|].
    right. split; [done|]. by exists m1. }
  split; [intros _; rewrite Hsame, Hm1; by eexists|].
  exists (nextActor (scene app) :: cs), (new1 ++ new).
  split; [by rewrite Hdisp', Hdisp, <- app_assoc|].
  split; [cbn; by rewrite Hlen|].
  split.
  { rewrite Hgrid', Hgrid, <- app_assoc. cbn [List.app imap]. rewrite Nat.add_0_r.
    do 2 f_equal. apply imap_ext. intros j c _. cbn. f_equal. lia. }
  split; [by rewrite Hnew', Hnew1, <- app_assoc|].
  split; [by rewrite dispensedOptions_cons, fmap_app, Hopts1, Hopts'|].
  split; [apply Forall_app; split; [by eapply placed_Forall_mono|done]|].
  intros mesh Hmesh. apply Forall_cons. split; [|by apply Hcs].
  rewrite Hsame, Hm1 in Hmesh. injection Hmesh as <-.
  by eapply isCollider_mono.
Qed.

(** *** The handlers *)

Lemma createWatchDispenser_spec app :
  is_Some (findAsset "invisible" (materials app)) ->
  exists app' anchorId cs new,
    createWatchDispenser app = Some app'
    /\ (watches app' = watches app /\ removed app' = removed app
        /\ materials app' = materials app /\ options app' = options app
        /\ timezones app' = timezones app /\ url app' = url app)
    /\ sceneActors (scene app) `prefix_of` sceneActors (scene app')
    /\ anchor app' = Some anchorId
    /\ destroyed (scene app')
       = destroyed (scene app) ++ match anchor app with Some a => [a] | None => [] end
    /\ dispensers app' = cs /\ length cs = length (options app)
    /\ gridLayout app'
       = imap (fun j c => {| cellRow := 0; cellColumn := j; cellContents := c |}) cs
    /\ constructed app' = constructed app ++ new
    /\ instOptions <$> new = dispensedOptions (options app) cs
    /\ Forall (placed (scene app')) new
    /\ (meshes app' = meshes app
        \/ findAsset "mesh_dispenser_collider" (meshes app) = None
           /\ exists mesh, meshes app' = meshes app ++ [mesh])
    /\ (options app <> [] ->
          is_Some (findAsset "mesh_dispenser_collider" (meshes app')))
    /\ forall mesh, findAsset "mesh_dispenser_collider" (meshes app') = Some mesh ->
         Forall (isCollider anchorId mesh (scene app')) cs.
Proof.
  intros Hmat. unfold createWatchDispenser. cbn [createActor].
  set (s0 := match anchor app with Some a => destroyActor a (scene app) | None => scene app end).
  set (app0 := {| url := url app; options := options app; meshes := meshes app;
                  materials := materials app; nextAsset := nextAsset app;
                  anchor := Some (nextActor s0); gridLayout := []; dispensers := [];
                  timezones := timezones app; watches := watches app;
                  scene := _; constructed := constructed app; removed := removed app |}).
  assert (Hpre0 : sceneActors (scene app) `prefix_of` sceneActors (scene app0)).
  { cbn. unfold s0. destruct (anchor app); cbn; by apply prefix_app_r. }
  assert (Htotal : forall os i a, materials a = materials app ->
            is_Some (dispenseAll (nextActor s0) os i a)).
  { induction os as [|o os IH]; intros i a Ha; [by eexists|]. cbn [dispenseAll].
    destruct (dispense_total (nextActor s0) o i a) as [a1 Ha1]; [by rewrite Ha|].
    rewrite Ha1. cbn. apply IH.
    destruct (dispense_fields _ _ _ _ _ Ha1) as (_ & _ & -> & _). done. }
  destruct (Htotal (options app) 0%nat app0 eq_refl) as [app' Happ'].
  destruct (dispenseAll_spec _ _ _ _ _ Happ')
    as ((Hw' & Hr' & Hmat' & Ho' & Htz' & Hurl' & Hanchor') & Hpre' & Hdes'
        & Hmeshes' & Hsome & cs & new & Hdisp' & Hlen & Hgrid' & Hnew' & Hopts' & Hplaced'
        & Hcs).
  exists app', (nextActor s0), cs, new.
  split; [exact Happ'|]. split; [done|]. split; [by etransitivity|]. split; [done|].
  split.
  { rewrite Hdes'. cbn. unfold s0. destruct (anchor app); cbn; [done|by rewrite app_nil_r]. }
  do 8 (split; [done|]). done.
Qed.

Lemma equipWatch_spec user i app o :
  options app !! i = Some o ->
  Forall (placed (scene app)) (constructed app) ->
  exists app',
    equipWatch user i app = Some app'
    /\ (watches app' = watches app /\ removed app' = removed app
        /\ materials app' = materials app /\ options app' = options app
        /\ timezones app' = timezones app /\ url app' = url app
        /\ dispensers app' = dispensers app /\ destroyed (scene app') = destroyed (scene app))
    /\ Forall (placed (scene app')) (constructed app')
    /\ match optType o with
       | ANALOG =>
           exists inst, constructed app' = constructed app ++ [inst]
                        /\ instOptions inst = withOwner user (equipTimezone user app) o
       | DIGITAL => app' = app
       end.
Proof.
  intros Ho Hplaced. unfold equipWatch. rewrite Ho. cbn [mbind option_bind].
  destruct (optType o); [|by exists app].
  eexists. split; [reflexivity|]. rewrite constructWatch_value. cbn.
  destruct (AnalogWatch_init_scene (withOwner user (equipTimezone user app) o) (scene app))
    as [Hpre Hdes].
  destruct (AnalogWatch_init_placed (withOwner user (equipTimezone user app) o) (scene app))
    as [Hnew Hopt].
  split; [done|]. split.
  - apply Forall_app. split; [by eapply placed_Forall_mono|by apply Forall_singleton].
  - by eexists.
Qed.

(** What every sequence of events keeps. *)
Lemma appReact_invariant app e :
  appReady app -> watches app = ∅ -> removed app = [] ->
  Forall (placed (scene app)) (constructed app) ->
  exists app',
    appReact app e = Some app'
    /\ appReady app' /\ watches app' = ∅ /\ removed app' = []
    /\ Forall (placed (scene app')) (constructed app')
    /\ constructed app `prefix_of` constructed app'.
Proof.
  intros [Hmat Hlen] Hw Hr Hplaced. destruct e as [fetched|user tzs|user|user i]; cbn [appReact].
  - unfold App_init.
    set (app0 := {| url := url app; options := _; meshes := meshes app |}).
    destruct (createWatchDispenser_spec app0 Hmat)
      as (app' & anchorId & cs & new & -> & (Hw' & Hr' & Hmat' & Ho' & _) & Hpre'
          & _ & _ & Hdisp & Hlen' & _ & Hnew & _ & Hplaced' & _).
    exists app'. split; [done|]. split; [split|].
    + by rewrite Hmat'.
    + by rewrite Hdisp, Hlen', Ho'.
    + split; [by rewrite Hw'|]. split; [by rewrite Hr'|]. rewrite Hnew. split.
      * apply Forall_app. split; [by eapply placed_Forall_mono|done].
      * by apply prefix_app_r.
  - eexists. split; [reflexivity|]. by do 4 (split; [done|]).
  - eexists. split; [reflexivity|]. unfold userleft. rewrite Hw, lookup_empty.
    by do 4 (split; [done|]).
  - case_bool_decide as Hi; [|exists app; by do 5 (split; [done|])].
    destruct (lookup_lt_is_Some_2 (options app) i) as [o Ho]; [by rewrite <- Hlen|].
    destruct (equipWatch_spec user i app o Ho Hplaced)
      as (app' & -> & (Hw' & Hr' & Hmat' & Ho' & _ & _ & Hdisp' & _) & Hplaced' & Hnew).
    exists app'. split; [done|]. split; [split|].
    + by rewrite Hmat'.
    + by rewrite Hdisp', Ho'.
    + split; [by rewrite Hw'|]. split; [by rewrite Hr'|]. split; [done|].
      destruct (optType o); [|by subst].
      destruct Hnew as (inst & -> & _). by apply prefix_app_r.
Qed.

Lemma appRun_invariant app events :
  appReady app -> watches app = ∅ -> removed app = [] ->
  Forall (placed (scene app)) (constructed app) ->
  exists app',
    appRun app events = Some app'
    /\ appReady app' /\ watches app' = ∅ /\ removed app' = []
    /\ Forall (placed (scene app')) (constructed app')
    /\ constructed app `prefix_of` constructed app'.
Proof.
  revert app. induction events as [|e events IH]; intros app Hready Hw Hr Hplaced.
  { exists app. do 5 (split; [done|]). done. }
  destruct (appReact_invariant app e Hready Hw Hr Hplaced)
    as (app1 & Hreact & Hready1 & Hw1 & Hr1 & Hplaced1 & Hpre1).
  destruct (IH app1 Hready1 Hw1 Hr1 Hplaced1)
    as (app' & Hrun & Hready' & Hw' & Hr' & Hplaced' & Hpre').
  exists app'. cbn [appRun]. rewrite Hreact. cbn [mbind option_bind].
  do 5 (split; [done|]). by etransitivity.
Qed.

Lemma newApp_invariant u :
  appReady (newApp u) /\ watches (newApp u) = ∅ /\ removed (newApp u) = []
  /\ Forall (placed (scene (newApp u))) (constructed (newApp u)).
Proof. repeat split; [by eexists|apply Forall_nil_2]. Qed.

End AppFacts.

(** X14: the lookups the handlers of the app rely on never miss: after
    the constructor, under every sequence of starts, resolved
    geolocations, departures and clicks, [createWatchDispenser] finds
    the material ['invisible'] and every dispenser has its option, which
    [equipWatch] finds at the index of the dispenser clicked; so neither
    reads a field of [undefined].  (The calls of [translate], whose code
    is not part of the sources, are not part of this statement.) *)
Theorem app_lookups_never_miss (u : option string) (events : list AppEvent) :
  exists app,
    appRun (newApp u) events = Some app
    /\ is_Some (findAsset "invisible" (materials app))
    /\ length (dispensers app) = length (options app).
Proof.
  destruct (newApp_invariant u) as (Hready & Hw & Hr & Hplaced).
  destruct (appRun_invariant (newApp u) events Hready Hw Hr Hplaced)
    as (app & Hrun & [Hmat Hlen] & _).
  by exists app.
Qed.

(** X15: the app never registers a watch in its map [watches]; so
    [userleft] never removes one: it only forgets the user's timezone,
    and the watches constructed (those equipped by the user among
    them) all stay, whatever happens next. *)
Theorem userleft_removes_no_watch (u : option string) (events : list AppEvent) :
  exists app,
    appRun (newApp u) events = Some app
    /\ watches app = ∅
    /\ removed app = []
    /\ (forall user,
          removed (userleft user app) = []
          /\ constructed (userleft user app) = constructed app
          /\ scene (userleft user app) = scene app
          /\ timezones (userleft user app) = delete user (timezones app))
    /\ forall events', exists app',
         appRun app events' = Some app'
         /\ removed app' = []
         /\ constructed app `prefix_of` constructed app'.
Proof.
  destruct (newApp_invariant u) as (Hready & Hw & Hr & Hplaced).
  destruct (appRun_invariant (newApp u) events Hready Hw Hr Hplaced)
    as (app & Hrun & Hready' & Hw' & Hr' & Hplaced' & _).
  exists app. split; [done|]. split; [done|]. split; [done|]. split.
  - intros user. unfold userleft. by rewrite Hw', lookup_empty.
  - intros events'.
    destruct (appRun_invariant app events' Hready' Hw' Hr' Hplaced')
      as (app' & Hrun' & _ & _ & Hr'' & _ & Hpre).
    by exists app'.
Qed.

(** X16: every watch the app constructs, for a dispenser or for a user,
    has the hands ['hour'], ['minute'] and ['second'], in this order,
    each a distinct actor under the watch's base actor, and its base
    actor is attached to the owner's left hand if the options name an
    owner and is under the parent otherwise. *)
Theorem constructed_watches_placed (u : option string) (events : list AppEvent) :
  exists app,
    appRun (newApp u) events = Some app
    /\ Forall (placed (scene app)) (constructed app).
Proof.
  destruct (newApp_invariant u) as (Hready & Hw & Hr & Hplaced).
  destruct (appRun_invariant (newApp u) events Hready Hw Hr Hplaced)
    as (app & Hrun & _ & _ & _ & Hplaced' & _).
  by exists app.
Qed.

(** X17: a watch equipped by a user is owned by the user, attached to
    the user and under no parent (whatever parent the option names),
    and samples the time in the zone recorded for the user, or in
    ['Europe/London'] when none, or an empty one, is recorded: the
    default of the app and the default of the sampler are the same, so
    the watch samples as if it were given what the map holds. *)
Theorem equipped_watch_zone (user : UserId) (i : nat) (app : App)
    (o : AnalogWatchOptions) :
  options app !! i = Some o ->
  optType o = ANALOG ->
  exists app' inst base,
    equipWatch user i app = Some app'
    /\ constructed app' = constructed app ++ [inst]
    /\ optOwner (instOptions inst) = Some user
    /\ base ∈ sceneActors (scene app')
    /\ actorId base = instWatch inst
    /\ actorAttachment base = Some user
    /\ actorParent base = None
    /\ effectiveTimezone (samplerOptions (instOptions inst)) = equipTimezone user app
    /\ forall zoneTime instant,
         now zoneTime (samplerOptions (instOptions inst)) instant
         = now zoneTime {| timezone := mjoin (timezones app !! user) |} instant.
Proof.
  intros Ho Htype. unfold equipWatch. rewrite Ho. cbn [mbind option_bind]. rewrite Htype.
  set (o' := withOwner user (equipTimezone user app) o).
  destruct (AnalogWatch_init_placed o' (scene app))
    as [(_ & _ & (base & Hbase & Hid & _ & Hatt & Hparent) & _) Hopt].
  exists (constructWatch o' app), (AnalogWatch_init o' (scene app)).1, base.
  rewrite constructWatch_value. cbn [constructed scene]. rewrite Hopt in *.
  assert (Hzone : effectiveTimezone (samplerOptions o') = equipTimezone user app).
  { unfold o', effectiveTimezone, samplerOptions, withOwner, equipTimezone.
    cbn [timezone optTimezone].
    destruct (mjoin (timezones app !! user)) as [tz|]; [|reflexivity].
    destruct (String.eqb tz "") eqn:Htz; [reflexivity|]. by rewrite Htz. }
  do 7 (split; [done|]). split; [exact Hzone|].
  intros zoneTime instant. unfold now, clockFields. rewrite Hzone. reflexivity.
Qed.

Lemma equipped_watch_zone_witness :
  let app := default (newApp None)
               (appRun (newApp None) [Started []; GeolocResolved 7%nat ["Asia/Tokyo"]]) in
  equipTimezone 7%nat app = "Asia/Tokyo"
  /\ exists app' inst base,
    equipWatch 7%nat 0%nat app = Some app'
    /\ constructed app' = constructed app ++ [inst]
    /\ optOwner (instOptions inst) = Some 7%nat
    /\ base ∈ sceneActors (scene app')
    /\ actorId base = instWatch inst
    /\ actorAttachment base = Some 7%nat
    /\ actorParent base = None
    /\ effectiveTimezone (samplerOptions (instOptions inst)) = equipTimezone 7%nat app
    /\ forall zoneTime instant,
         now zoneTime (samplerOptions (instOptions inst)) instant
         = now zoneTime {| timezone := mjoin (timezones app !! 7%nat) |} instant.
Proof.
  intros app. split; [reflexivity|].
  apply (equipped_watch_zone 7%nat 0%nat app
           {| optType := ANALOG;
              optResourceId := "artifact:2070313858047673011";
              optHands := <["hour" := "artifact:2070313857653408432"]>
                            (<["minute" := "artifact:2070313858173502132"]>
                               (<["second" := "artifact:2070313857913455281"]> ∅));
              optParentId := None; optOwner := None; optTimezone := None |});
    reflexivity.
Defined.

(** X18: the zone a click uses for a user is the one the last resolved
    geolocation of the user recorded, the first of the zones found (the
    default when none is found or it is empty), and the default again
    once the user has left; what is recorded or forgotten for one user
    changes nothing for another. *)
Theorem recorded_zone (user other : UserId) (tzs : list string) (app : App) :
  equipTimezone user (userjoined user tzs app)
  = effectiveTimezone {| timezone := head tzs |}
  /\ equipTimezone user (userleft user app) = "Europe/London"
  /\ equipTimezone user (userleft user (userjoined user tzs app)) = "Europe/London"
  /\ equipTimezone user (userjoined user tzs (userleft user app))
     = effectiveTimezone {| timezone := head tzs |}
  /\ (other <> user ->
      equipTimezone other (userjoined user tzs app) = equipTimezone other app
      /\ equipTimezone other (userleft user app) = equipTimezone other app).
Proof.
  assert (Hleft : forall a, timezones (userleft user a) = delete user (timezones a)).
  { intros a. unfold userleft. by destruct (watches a !! user). }
  unfold equipTimezone, effectiveTimezone.
  rewrite !Hleft. cbn [userjoined timezones timezone].
  rewrite !lookup_insert_eq, !lookup_delete_eq. cbn [mjoin option_join].
  do 4 (split; [done|]). intros Hne.
  by rewrite lookup_insert_ne, lookup_delete_ne.
Qed.

(** X19: [createWatchDispenser] makes one dispenser per option, in the
    order of the options, in row 0 and column [i] of the grid for the
    option at index [i]; the colliders are all under the new anchor and
    all use one mesh, the one the container holds under the name
    ['mesh_dispenser_collider']: it is created for the first dispenser
    if the container has none, and never a second time; the anchor of
    an earlier call is destroyed. *)
Theorem dispensers_share_one_mesh (app : App) :
  is_Some (findAsset "invisible" (materials app)) ->
  exists app' anchorId,
    createWatchDispenser app = Some app'
    /\ anchor app' = Some anchorId
    /\ length (dispensers app') = length (options app)
    /\ gridLayout app'
       = imap (fun j c => {| cellRow := 0; cellColumn := j; cellContents := c |})
           (dispensers app')
    /\ (meshes app' = meshes app
        \/ findAsset "mesh_dispenser_collider" (meshes app) = None
           /\ exists mesh, meshes app' = meshes app ++ [mesh])
    /\ (options app <> [] ->
          is_Some (findAsset "mesh_dispenser_collider" (meshes app')))
    /\ (forall mesh, findAsset "mesh_dispenser_collider" (meshes app') = Some mesh ->
          Forall (isCollider anchorId mesh (scene app')) (dispensers app'))
    /\ destroyed (scene app')
       = destroyed (scene app) ++ match anchor app with Some a => [a] | None => [] end.
Proof.
  intros Hmat.
  destruct (createWatchDispenser_spec app Hmat)
    as (app' & anchorId & cs & new & Hrun & _ & _ & Hanchor & Hdes & Hdisp & Hlen
        & Hgrid & _ & _ & _ & Hmeshes & Hsome & Hcs).
  exists app', anchorId. rewrite Hdisp. by do 7 (split; [done|]).
Qed.

Lemma dispensers_share_one_mesh_witness :
  let app := default (newApp None) (appRun (newApp None) [Started []]) in
  length (meshes app) = 1%nat
  /\ exists app' anchorId,
    createWatchDispenser app = Some app'
    /\ anchor app' = Some anchorId
    /\ length (dispensers app') = length (options app)
    /\ gridLayout app'
       = imap (fun j c => {| cellRow := 0; cellColumn := j; cellContents := c |})
           (dispensers app')
    /\ (meshes app' = meshes app
        \/ findAsset "mesh_dispenser_collider" (meshes app) = None
           /\ exists mesh, meshes app' = meshes app ++ [mesh])
    /\ (options app <> [] ->
          is_Some (findAsset "mesh_dispenser_collider" (meshes app')))
    /\ (forall mesh, findAsset "mesh_dispenser_collider" (meshes app') = Some mesh ->
          Forall (isCollider anchorId mesh (scene app')) (dispensers app'))
    /\ destroyed (scene app')
       = destroyed (scene app) ++ match anchor app with Some a => [a] | None => [] end.
Proof.
  intros app. split; [reflexivity|].
  apply (dispensers_share_one_mesh app). by eexists.
Defined.

(** The options and the base actor of the watches the dispensers get. *)
Lemma dispensed_watches (s : Scene) (new : list AnalogWatchInstance)
    (pairs : list (AnalogWatchOptions * Actor)) :
  instOptions <$> new
  = omap (fun '(o, c) => match optType o with
                         | ANALOG => Some (withParentId c o)
                         | DIGITAL => None
                         end) pairs ->
  Forall (placed s) new ->
  Forall2
    (fun inst (p : AnalogWatchOptions * Actor) =>
       optParentId (instOptions inst) = Some p.2
       /\ optType (instOptions inst) = ANALOG
       /\ optResourceId (instOptions inst) = optResourceId p.1
       /\ optHands (instOptions inst) = optHands p.1
       /\ optOwner (instOptions inst) = optOwner p.1
       /\ optTimezone (instOptions inst) = optTimezone p.1
       /\ exists base, base ∈ sceneActors s
            /\ actorId base = instWatch inst
            /\ actorResource base = Some (optResourceId p.1)
            /\ actorAttachment base = optOwner p.1
            /\ (optOwner p.1 = None -> actorParent base = Some p.2))
    new
    (filter (fun p : AnalogWatchOptions * Actor => optType p.1 = ANALOG) pairs).
Proof.
  revert new. induction pairs as [|[o c] pairs IH]; intros new Hopts Hplaced.
  { cbn in Hopts. apply fmap_nil_inv in Hopts as ->. constructor. }
  cbn [omap list_omap] in Hopts. rewrite filter_cons. cbn [fst].
  destruct (optType o) eqn:Htype.
  - destruct new as [|inst new]; [done|]. cbn [fmap list_fmap] in Hopts.
    injection Hopts as Hinst Hrest.
    apply Forall_cons in Hplaced as [(_ & _ & (base & Hbase & Hid & Hres & Hatt & Hpar) & _) Hplaced].
    rewrite decide_True by done. constructor; [|by apply IH].
    cbn [fst snd]. rewrite Hinst in *. cbn [withParentId optParentId optType
      optResourceId optHands optOwner optTimezone] in *.
    do 6 (split; [done|]). exists base. do 4 (split; [done|]).
    intros Hnone. by rewrite Hnone in Hpar.
  - rewrite decide_False by done. by apply IH.
Qed.

(** X20: [createWatchDispenser] constructs one watch for each option of
    type [ANALOG] and none for the others, in the order of the options;
    the watch of the dispenser at index [i] has the resource, hands,
    owner and timezone of the option at index [i] and the collider of
    that dispenser as [parentId], and its base actor, created from the
    option's resource, is under that collider when the option names no
    owner. *)
Theorem dispenser_watches (app : App) :
  is_Some (findAsset "invisible" (materials app)) ->
  exists app' new,
    createWatchDispenser app = Some app'
    /\ constructed app' = constructed app ++ new
    /\ Forall2
         (fun inst (p : AnalogWatchOptions * Actor) =>
            optParentId (instOptions inst) = Some p.2
            /\ optType (instOptions inst) = ANALOG
            /\ optResourceId (instOptions inst) = optResourceId p.1
            /\ optHands (instOptions inst) = optHands p.1
            /\ optOwner (instOptions inst) = optOwner p.1
            /\ optTimezone (instOptions inst) = optTimezone p.1
            /\ exists base, base ∈ sceneActors (scene app')
                 /\ actorId base = instWatch inst
                 /\ actorResource base = Some (optResourceId p.1)
                 /\ actorAttachment base = optOwner p.1
                 /\ (optOwner p.1 = None -> actorParent base = Some p.2))
         new
         (filter (fun p : AnalogWatchOptions * Actor => optType p.1 = ANALOG)
            (zip (options app) (dispensers app'))).
Proof.
  intros Hmat.
  destruct (createWatchDispenser_spec app Hmat)
    as (app' & anchorId & cs & new & Hrun & _ & _ & _ & _ & Hdisp & _
        & _ & Hnew & Hopts & Hplaced & _).
  exists app', new. rewrite Hdisp. split; [done|]. split; [done|].
  by apply dispensed_watches.
Qed.

Lemma dispenser_watches_witness :
  let app := default (newApp None)
               (appRun (newApp None) [Started []; Clicked 7%nat 0%nat]) in
  length (constructed app) = 2%nat
  /\ exists app' new,
    createWatchDispenser app = Some app'
    /\ constructed app' = constructed app ++ new
    /\ Forall2
         (fun inst (p : AnalogWatchOptions * Actor) =>
            optParentId (instOptions inst) = Some p.2
            /\ optType (instOptions inst) = ANALOG
            /\ optResourceId (instOptions inst) = optResourceId p.1
            /\ optHands (instOptions inst) = optHands p.1
            /\ optOwner (instOptions inst) = optOwner p.1
            /\ optTimezone (instOptions inst) = optTimezone p.1
            /\ exists base, base ∈ sceneActors (scene app')
                 /\ actorId base = instWatch inst
                 /\ actorResource base = Some (optResourceId p.1)
                 /\ actorAttachment base = optOwner p.1
                 /\ (optOwner p.1 = None -> actorParent base = Some p.2))
         new
         (filter (fun p : AnalogWatchOptions * Actor => optType p.1 = ANALOG)
            (zip (options app) (dispensers app'))).
Proof.
  intros app. split; [reflexivity|].
  apply (dispenser_watches app). by eexists.
Defined.

(** ** Samples the animation data are accepted for *)

(** On a sample in [0, 43200) every hand is set as on a sample of its
    own cycle. *)
Lemma handPhase_reduced {num : Type} `{Number num} name sample :
  name ∈ theHands -> 0 <= sample < 43200 ->
  exists r, 0 <= r < cycleLength name /\ handPhase name sample = handPhase name r.
Proof.
  intros Hname Hs. revert Hs. pattern name. apply (theHands_cases _ _ Hname); intros Hs.
  - exists sample. split; [exact Hs|done].
  - exists (Z.rem sample 3600). split.
    + change (cycleLength "minute") with 3600.
      rewrite Z.rem_mod_nonneg by lia. apply Z.mod_pos_bound. lia.
    + unfold handPhase. cbn [String.eqb Ascii.eqb Bool.eqb].
      by rewrite (Z.rem_small (Z.rem sample 3600) 3600)
        by (rewrite Z.rem_mod_nonneg by lia; apply Z.mod_pos_bound; lia).
  - exists (Z.rem sample 60). split.
    + change (cycleLength "second") with 60.
      rewrite Z.rem_mod_nonneg by lia. apply Z.mod_pos_bound. lia.
    + unfold handPhase. cbn [String.eqb Ascii.eqb Bool.eqb].
      by rewrite (Z.rem_small (Z.rem sample 60) 60)
        by (rewrite Z.rem_mod_nonneg by lia; apply Z.mod_pos_bound; lia).
Qed.


(** The keyframes of the catch-up phase are in sequence. *)
Lemma catchUpInSequence64_all name sample :
  name ∈ theHands -> 0 <= sample < 43200 -> catchUpInSequence64 name sample = true.
Proof.
  intros Hname Hs.
  destruct (handPhase_reduced (num:=float) name sample Hname Hs) as (r & Hr & Heq).
  pose proof (phaseInRange64_all name r Hname Hr) as Hrange.
  pose proof (midpointInside64_all name r Hname Hr) as Hmid.
  unfold catchUpInSequence64, catchUpTimes64, phaseInRange64, midpointInside64,
    initAngle, catchUpDuration in *.
  rewrite Heq. clear Heq.
  destruct (handPhase name r) as [[full init] duration]. cbn [fst snd] in *.
  apply andb_prop in Hrange as [_ Hpos].
  destruct (init <? 180)%float eqn:Hlt.
  - rewrite (buildKeyframes_below (num:=float)) by exact Hlt.
    apply andb_prop in Hmid as [H0 H1].
    cbn [fmap list_fmap time inSequence64 increasing64].
    change (fromZ 0) with 0%float. change (fromZ 360) with 360%float.
    change (fromZ 180) with 180%float. cbn [div sub mul binary64].
    by rewrite H0, H1.
  - rewrite (buildKeyframes_above (num:=float)) by exact Hlt.
    cbn [fmap list_fmap time inSequence64 increasing64].
    change (fromZ 0) with 0%float. by rewrite Hpos.
Qed.

(** On the samples from 43200 to 46752, those [now] returns when the
    clock shows 12, the keyframes of the hour hand's catch-up phase are
    out of sequence. *)
Lemma hourOutOfSequence64_all sample :
  43200 <= sample <= 46752 -> catchUpOutOfSequence64 "hour" sample = true.
Proof.
  intros Hs.
  apply (allFrom_spec 3553 43200 (catchUpOutOfSequence64 "hour"));
    [vm_compute; reflexivity|lia].
Qed.

Lemma buildKeyframes_times (D D' : float) init duration :
  (fun k => time k) <$> buildKeyframes D init duration
  = (fun k => time k) <$> buildKeyframes D' init duration.
Proof. unfold buildKeyframes. by destruct (init <? fromZ 180)%num. Qed.

(** X21: for every hand and every sample in [0, 43200), the keyframes
    built for the catch-up phase and those built for the loop have
    times in sequence: the first at 0 and each next one after the one
    before it, in binary64; on the samples from 43200 to 46752, those
    [now] returns when the clock shows 12, the times of the hour hand's
    catch-up keyframes are not in sequence (its duration is not
    positive). *)
Theorem keyframes_in_sequence (D : float) (name : string) (sample : Z) :
  name ∈ theHands ->
  (0 <= sample < 43200 ->
     inSequence64
       ((fun k => time k)
          <$> buildKeyframes D (initAngle (num:=float) name sample)
                (catchUpDuration (num:=float) name sample)) = true
     /\ inSequence64
          ((fun k => time k)
             <$> buildKeyframes D 0%float (float_of_Z (cycleLength name))) = true)
  /\ (43200 <= sample <= 46752 ->
      inSequence64
        ((fun k => time k)
           <$> buildKeyframes D (initAngle (num:=float) "hour" sample)
                 (catchUpDuration (num:=float) "hour" sample)) = false).
Proof.
  intros Hname. split.
  - intros Hs. split.
    + rewrite (buildKeyframes_times D DegreesToRadians64).
      exact (catchUpInSequence64_all name sample Hname Hs).
    + rewrite buildKeyframes_loop64 by auto.
      pattern name. apply (theHands_cases _ _ Hname); reflexivity.
  - intros Hs. rewrite (buildKeyframes_times D DegreesToRadians64).
    apply negb_true_iff. exact (hourOutOfSequence64_all sample Hs).
Qed.

(** The minute hand at the sample 3661, and the hour hand at 43212. *)
Lemma keyframes_in_sequence_witness :
  (inSequence64
     ((fun k => time k)
        <$> buildKeyframes DegreesToRadians64 (initAngle (num:=float) "minute" 3661)
              (catchUpDuration (num:=float) "minute" 3661)) = true
   /\ inSequence64
        ((fun k => time k)
           <$> buildKeyframes DegreesToRadians64 0%float
                 (float_of_Z (cycleLength "minute"))) = true)
  /\ inSequence64
       ((fun k => time k)
          <$> buildKeyframes DegreesToRadians64 (initAngle (num:=float) "hour" 43212)
                (catchUpDuration (num:=float) "hour" 43212)) = false.
Proof.
  split.
  - apply (proj1 (keyframes_in_sequence DegreesToRadians64 "minute" 3661
                    (list_elem_of_further _ _ _ (list_elem_of_here _ _)))).
    lia.
  - apply (proj2 (keyframes_in_sequence DegreesToRadians64 "hour" 43212
                    (list_elem_of_here _ _))).
    lia.
Defined.

(** ** The two phases of a hand *)


